(** * ExamTutorAI: progress tracker and response protocol parser

    A shallow embedding of the gamification state machine and of the
    response parsing of [GeminiTeacher_path.py] ([StudyApp._handle_ai_result],
    [StudyApp._handle_ai_error], [StudyApp.display_feedback],
    [StudyApp.save_config] and the helpers they call), with the properties
    the specification states about them.

    Conventions.
    - Python integers are unbounded: they are [Z].  [//] and [%] with a
      positive divisor are floor division and its remainder, which is what
      [Z.div] and [Z.modulo] compute.
    - A Python [str] is a sequence of code points; the model covers the code
      points below 256, one [ascii] each.
    - [self.skill_progress] is a dict keyed by document name: a
      [gmap string SkillData].  A dict held in a local variable is a
      reference: [_get_current_skill_data] returns either the dict stored in
      [self.skill_progress] or a fresh one, and the model keeps track of which
      ([SkillRef]).
    - The widgets are reduced to the properties the handlers set. *)

From stdpp Require Import gmap strings list fin_maps pretty.
From Stdlib Require Import ZArith Ascii String Lia.

Open Scope string_scope.
Open Scope list_scope.
Open Scope Z_scope.

(** ** Module constants *)

Definition POINTS_CORRECT : Z := 10.
Definition POINTS_PARTIAL : Z := 5.
Definition STREAK_BONUS_MULTIPLIER : Z := 2.
Definition LEVEL_UP_THRESHOLD : Z := 50.
Definition QUESTIONS_PER_LEVEL_UP : Z := 5.
Definition DIFFICULTY_LEVELS : list string := ["Easy"; "Medium"; "Hard"].
Definition ALL_MATERIALS_SKILL_NAME : string := "All Materials Review".

(** ** Python strings *)

Module Py.

(** [str.lower] on the code points below 256: the ASCII capitals and the
    Latin-1 capitals (0xC0..0xDE without the multiplication sign 0xD7) move
    up by 32, everything else stays. *)
Definition lower_char (c : ascii) : ascii :=
  let n := nat_of_ascii c in
  if ((65 <=? n)%nat && (n <=? 90)%nat)
     || ((192 <=? n)%nat && (n <=? 222)%nat && negb (n =? 215)%nat)
  then ascii_of_nat (n + 32) else c.

Fixpoint lower (s : string) : string :=
  match s with
  | EmptyString => EmptyString
  | String c s' => String (lower_char c) (lower s')
  end.

(** [s.startswith(p)] *)
Fixpoint startswith (s p : string) : bool :=
  match p, s with
  | EmptyString, _ => true
  | String _ _, EmptyString => false
  | String a p', String b s' => if Ascii.eqb a b then startswith s' p' else false
  end.

(** Truth value of a [str]: only the empty string is false. *)
Definition truthy (s : string) : bool :=
  match s with EmptyString => false | String _ _ => true end.

(** [\s] of a [str] pattern, on the code points below 256. *)
Definition isspace (c : ascii) : bool :=
  let n := nat_of_ascii c in
  ((9 <=? n)%nat && (n <=? 13)%nat) || ((28 <=? n)%nat && (n <=? 32)%nat)
  || (n =? 133)%nat || (n =? 160)%nat.

(** [\d] of a [str] pattern, on the code points below 256. *)
Definition isdigit (c : ascii) : bool :=
  let n := nat_of_ascii c in (48 <=? n)%nat && (n <=? 57)%nat.

(** [int(s)] for a string of decimal digits; [None] stands for
    [ValueError].  The interpreter's cap on the length of a decimal string
    (4300 digits by default from Python 3.11 on) is not modelled. *)
Definition digit_value (c : ascii) : option Z :=
  if isdigit c then Some (Z.of_nat (nat_of_ascii c) - 48) else None.

Fixpoint int_acc (acc : Z) (s : list ascii) : option Z :=
  match s with
  | [] => Some acc
  | c :: s' =>
      match digit_value c with
      | Some d => int_acc (10 * acc + d) s'
      | None => None
      end
  end.

Definition int (s : list ascii) : option Z :=
  match s with
  | [] => None
  | _ => int_acc 0 s
  end.

(** [l[i]] on a list, with Python's negative indices; [None] stands for
    [IndexError]. *)
Definition getitem {A} (l : list A) (i : Z) : option A :=
  let n := Z.of_nat (List.length l) in
  if (0 <=? i) && (i <? n) then l !! Z.to_nat i
  else if (- n <=? i) && (i <? 0) then l !! Z.to_nat (n + i)
  else None.

(** [l.index(x)] for an [x] known to be in [l]: the first position. *)
Fixpoint index (l : list string) (x : string) : option nat :=
  match l with
  | [] => None
  | y :: l' => if String.eqb y x then Some O else S <$> index l' x
  end.

End Py.

(** ** Regular expressions: a backtracking matcher

    The fragment of Python's [re] that [REFERENCE_REGEX] is written in:
    literals, character classes, concatenation, the greedy [?], [*] and [+],
    and numbered capturing groups.  [run r s caps] lists, in the order in
    which a backtracking matcher tries them, the ways [r] can match a prefix
    of [s]: each with the unread rest of the input and the groups captured.
    The first element is the match that [re] reports. *)

Module Re.

Inductive regex : Type :=
| Eps
| Chr (c : ascii)
| Cls (p : ascii -> bool)
| Cat (r1 r2 : regex)
| Opt (r : regex)
| Star (r : regex)
| Plus (r : regex)
| Group (n : nat) (r : regex).

Infix "+++" := Cat (at level 60, right associativity).

(** The regex of a literal string. *)
Fixpoint lit (s : string) : regex :=
  match s with
  | EmptyString => Eps
  | String c s' => Chr c +++ lit s'
  end.

Definition captures : Type := gmap nat (list ascii).
Definition thread : Type := (list ascii * captures)%type.

Definition step_char (p : ascii -> bool) (s : list ascii) (caps : captures)
  : list thread :=
  match s with
  | c :: s' => if p c then [(s', caps)] else []
  | [] => []
  end.

(** Greedy iteration: one more round of the body first, stopping last.  A
    round that reads nothing is not repeated. *)
Fixpoint iterate (body : list ascii -> captures -> list thread)
    (fuel : nat) (s : list ascii) (caps : captures) : list thread :=
  match fuel with
  | O => [(s, caps)]
  | S fuel' =>
      (body s caps ≫= fun t =>
         if (List.length t.1 <? List.length s)%nat
         then iterate body fuel' t.1 t.2 else [])
      ++ [(s, caps)]
  end.

Fixpoint run (r : regex) (s : list ascii) (caps : captures) : list thread :=
  match r with
  | Eps => [(s, caps)]
  | Chr c => step_char (Ascii.eqb c) s caps
  | Cls p => step_char p s caps
  | Cat r1 r2 => run r1 s caps ≫= fun t => run r2 t.1 t.2
  | Opt r' => run r' s caps ++ [(s, caps)]
  | Star r' => iterate (run r') (List.length s) s caps
  | Plus r' =>
      run r' s caps ≫= fun t => iterate (run r') (List.length t.1) t.1 t.2
  | Group n r' =>
      (fun t : thread =>
         (t.1, <[n := take (List.length s - List.length t.1) s]> t.2))
      <$> run r' s caps
  end.

(** A match object: where the match starts and the groups. *)
Record Match : Type := mkMatch { start : nat; groups : captures }.

(** [pattern.search(text)]: the match at the leftmost position that has
    one. *)
Fixpoint search_from (r : regex) (pos : nat) (s : list ascii) : option Match :=
  match run r s ∅ with
  | t :: _ => Some {| start := pos; groups := t.2 |}
  | [] =>
      match s with
      | [] => None
      | _ :: s' => search_from r (S pos) s'
      end
  end.

Definition search (r : regex) (text : string) : option Match :=
  search_from r O (list_ascii_of_string text).

(** [match.group(n)] for a group that took part in the match. *)
Definition group (m : Match) (n : nat) : list ascii :=
  default [] (groups m !! n).

End Re.

Import Re.

(** [re.compile(r"Reference:\s*\[?(\d+)\]?:\[?(\d+)\]?")] *)
Definition REFERENCE_REGEX : regex :=
  lit "Reference:" +++ Star (Cls Py.isspace) +++ Opt (Chr "[")
  +++ Group 1 (Plus (Cls Py.isdigit)) +++ Opt (Chr "]") +++ Chr ":"
  +++ Opt (Chr "[") +++ Group 2 (Plus (Cls Py.isdigit)) +++ Opt (Chr "]").

(** ** Data model *)

(** One entry of [self.skill_progress]. *)
Record SkillData : Type := mkSkillData {
  score : Z;
  streak : Z;
  level : Z;
  questions_answered : Z;
  current_difficulty_index : Z
}.

Definition set_score (v : Z) (d : SkillData) : SkillData :=
  mkSkillData v (streak d) (level d) (questions_answered d)
    (current_difficulty_index d).
Definition set_streak (v : Z) (d : SkillData) : SkillData :=
  mkSkillData (score d) v (level d) (questions_answered d)
    (current_difficulty_index d).
Definition set_level (v : Z) (d : SkillData) : SkillData :=
  mkSkillData (score d) (streak d) v (questions_answered d)
    (current_difficulty_index d).
Definition set_questions_answered (v : Z) (d : SkillData) : SkillData :=
  mkSkillData (score d) (streak d) (level d) v (current_difficulty_index d).
Definition set_current_difficulty_index (v : Z) (d : SkillData) : SkillData :=
  mkSkillData (score d) (streak d) (level d) (questions_answered d) v.

(** The dict a new skill starts with, and the one [_get_current_skill_data]
    makes up when there is no entry. *)
Definition default_skill_data : SkillData := mkSkillData 0 0 1 0 0.

(** [self.current_reference] when it is not [None]. *)
Record Reference : Type := mkReference { doc_index : Z; page : Z }.

Inductive Color : Type :=
| DEFAULT_FEEDBACK_COLOR | CORRECT_COLOR | PARTIAL_COLOR | INCORRECT_COLOR.

(** [QuizWidget]: the texts shown and which controls are enabled. *)
Record QuizWidget : Type := mkQuizWidget {
  question_display : string;
  feedback_display : string;
  feedback_color : Color;
  view_reference_button : bool;
  guidance_button : bool;
  submit_button : bool;
  next_button : bool;
  answer_entry : bool;
  back_button : bool
}.

Inductive Worker : Type :=
| AIWorker (_is_running : bool)
| PDFUploadWorker.

(** [StudyApp]: the attributes the handlers read or write. *)
Record StudyApp : Type := mkStudyApp {
  worker : option Worker;
  current_skill_name : option string;
  pdf_file_paths : list string;
  pdf_file_basenames : list string;
  skill_progress : gmap string SkillData;
  total_score : Z;
  current_question : option string;
  current_reference : option Reference;
  _level_up_occurred : bool;
  quiz_widget : QuizWidget;
  (** the [Progress] section last handed to the configuration file *)
  config_progress : list (string * string)
}.

Definition set_skill_progress (v : gmap string SkillData) (st : StudyApp) :=
  mkStudyApp (worker st) (current_skill_name st) (pdf_file_paths st)
    (pdf_file_basenames st) v (total_score st) (current_question st)
    (current_reference st) (_level_up_occurred st) (quiz_widget st)
    (config_progress st).
Definition set_total_score (v : Z) (st : StudyApp) :=
  mkStudyApp (worker st) (current_skill_name st) (pdf_file_paths st)
    (pdf_file_basenames st) (skill_progress st) v (current_question st)
    (current_reference st) (_level_up_occurred st) (quiz_widget st)
    (config_progress st).
Definition set_current_question (v : option string) (st : StudyApp) :=
  mkStudyApp (worker st) (current_skill_name st) (pdf_file_paths st)
    (pdf_file_basenames st) (skill_progress st) (total_score st) v
    (current_reference st) (_level_up_occurred st) (quiz_widget st)
    (config_progress st).
Definition set_current_reference (v : option Reference) (st : StudyApp) :=
  mkStudyApp (worker st) (current_skill_name st) (pdf_file_paths st)
    (pdf_file_basenames st) (skill_progress st) (total_score st)
    (current_question st) v (_level_up_occurred st) (quiz_widget st)
    (config_progress st).
Definition set_level_up_occurred (v : bool) (st : StudyApp) :=
  mkStudyApp (worker st) (current_skill_name st) (pdf_file_paths st)
    (pdf_file_basenames st) (skill_progress st) (total_score st)
    (current_question st) (current_reference st) v (quiz_widget st)
    (config_progress st).
Definition set_quiz_widget (v : QuizWidget) (st : StudyApp) :=
  mkStudyApp (worker st) (current_skill_name st) (pdf_file_paths st)
    (pdf_file_basenames st) (skill_progress st) (total_score st)
    (current_question st) (current_reference st) (_level_up_occurred st) v
    (config_progress st).
Definition set_config_progress (v : list (string * string)) (st : StudyApp) :=
  mkStudyApp (worker st) (current_skill_name st) (pdf_file_paths st)
    (pdf_file_basenames st) (skill_progress st) (total_score st)
    (current_question st) (current_reference st) (_level_up_occurred st)
    (quiz_widget st) v.

(** ** QuizWidget methods *)

Definition set_question (text : string) (q : QuizWidget) : QuizWidget :=
  mkQuizWidget text (feedback_display q) (feedback_color q)
    (view_reference_button q) (guidance_button q) (submit_button q)
    (next_button q) (answer_entry q) (back_button q).

Definition set_answer_enabled (enabled : bool) (q : QuizWidget) : QuizWidget :=
  mkQuizWidget (question_display q) (feedback_display q) (feedback_color q)
    (view_reference_button q) (guidance_button q) (submit_button q)
    (next_button q) enabled (back_button q).

Definition set_feedback (text feedback_type : string) (q : QuizWidget)
  : QuizWidget :=
  let color :=
    if String.eqb feedback_type "correct" then CORRECT_COLOR
    else if String.eqb feedback_type "partial" then PARTIAL_COLOR
    else if String.eqb feedback_type "incorrect" then INCORRECT_COLOR
    else DEFAULT_FEEDBACK_COLOR in
  mkQuizWidget (question_display q) text color
    (view_reference_button q) (guidance_button q) (submit_button q)
    (next_button q) (answer_entry q) (back_button q).

Definition set_reference_button_enabled (enabled : bool) (q : QuizWidget)
  : QuizWidget :=
  mkQuizWidget (question_display q) (feedback_display q) (feedback_color q)
    enabled (guidance_button q) (submit_button q)
    (next_button q) (answer_entry q) (back_button q).

Definition set_buttons_state (state : string) (q : QuizWidget) : QuizWidget :=
  let is_initial := String.eqb state "initial" in
  let is_question := String.eqb state "question" in
  let is_feedback := String.eqb state "feedback" in
  let is_processing := String.eqb state "processing" in
  mkQuizWidget (question_display q) (feedback_display q) (feedback_color q)
    (view_reference_button q)
    (is_question && negb is_processing)
    (is_question && negb is_processing)
    ((is_initial || is_feedback) && negb is_processing)
    (is_question && negb is_processing)
    (negb is_processing).

(** ** StudyApp: configuration and skill data *)

(** The value [save_config] writes for one skill. *)
Definition progress_line (data : SkillData) : string :=
  "score=" +:+ pretty (score data) +:+ ","
  +:+ "streak=" +:+ pretty (streak data) +:+ ","
  +:+ "level=" +:+ pretty (level data) +:+ ","
  +:+ "answered=" +:+ pretty (questions_answered data) +:+ ","
  +:+ "diff_idx=" +:+ pretty (current_difficulty_index data).

(** [save_config]: the assignments to [config['Progress']], one per entry of
    [self.skill_progress] that passes the test on the name.  (The order of a
    dict's items is the order of insertion; here it is the order of
    [map_to_list].  Writing the file is left to the file system.) *)
Definition save_config (st : StudyApp) : list (string * string) :=
  omap (fun '(skill_name, data) =>
          if negb (String.eqb skill_name ALL_MATERIALS_SKILL_NAME)
          then Some (skill_name, progress_line data) else None)
       (map_to_list (skill_progress st)).

(** [self.current_skill_name == ALL_MATERIALS_SKILL_NAME] *)
Definition is_all_materials_mode (st : StudyApp) : bool :=
  match current_skill_name st with
  | Some n => String.eqb n ALL_MATERIALS_SKILL_NAME
  | None => false
  end.

(** [self.current_skill_name and
     self.current_skill_name != ALL_MATERIALS_SKILL_NAME]: the name of the
    individual skill being quizzed, if any. *)
Definition individual_skill (st : StudyApp) : option string :=
  match current_skill_name st with
  | Some n =>
      if Py.truthy n && negb (String.eqb n ALL_MATERIALS_SKILL_NAME)
      then Some n else None
  | None => None
  end.

(** What a local variable bound to the result of [_get_current_skill_data]
    refers to: the dict stored under a name in [self.skill_progress], whose
    mutation is seen there, or a dict of its own. *)
Inductive SkillRef : Type :=
| Stored (name : string)
| Fresh.

Definition _get_current_skill_data (st : StudyApp) : SkillRef * SkillData :=
  match individual_skill st with
  | Some n =>
      match skill_progress st !! n with
      | Some d => (Stored n, d)
      | None => (Fresh, default_skill_data)
      end
  | None => (Fresh, default_skill_data)
  end.

(** The effect on the application of mutating the dict behind a reference. *)
Definition write_ref (r : SkillRef) (d : SkillData) (st : StudyApp) : StudyApp :=
  match r with
  | Stored n => set_skill_progress (<[n := d]> (skill_progress st)) st
  | Fresh => st
  end.

Definition _recalculate_total_score (st : StudyApp) : StudyApp :=
  set_total_score
    (map_fold (fun name data acc =>
                 if negb (String.eqb name ALL_MATERIALS_SKILL_NAME)
                 then acc + score data else acc)
              0 (skill_progress st))
    st.

(** [update_header_stats] and [update_skill_path_display] only repaint
    labels and progress bars from the state; they are left out. *)
Definition _update_current_skill_data (data : SkillData) (st : StudyApp)
  : StudyApp :=
  match individual_skill st with
  | Some n =>
      let st1 := set_skill_progress (<[n := data]> (skill_progress st)) st in
      let st2 := _recalculate_total_score st1 in
      set_config_progress (save_config st2) st2
  | None => st
  end.

(** ** StudyApp.display_feedback *)

(** The match and the two [int(match.group(_))] of the [try] block; [None]
    when there is no match or [int] raises [ValueError] (which is caught). *)
Definition parse_reference (text : string) : option (Z * Z) :=
  match search REFERENCE_REGEX text with
  | Some m =>
      match Py.int (group m 1), Py.int (group m 2) with
      | Some doc_index_from_ai, Some page_num =>
          Some (doc_index_from_ai, page_num)
      | _, _ => None
      end
  | None => None
  end.

(** "Determine the actual index in the main self.pdf_file_paths list". *)
Definition actual_doc_index (doc_index_from_ai : Z) (st : StudyApp) : Z :=
  if is_all_materials_mode st then doc_index_from_ai
  else
    match current_skill_name st with
    | Some n =>
        match Py.index (pdf_file_basenames st) n with
        | Some i => Z.of_nat i
        | None => -1
        end
    | None => -1
    end.

(** The message printed once the reference is stored looks up
    [pdf_file_basenames]; an [IndexError] there is caught by the same [try]
    and changes nothing. *)
Definition display_feedback (text feedback_type : string) (st : StudyApp)
  : StudyApp :=
  let st := set_current_reference None st in
  let st := set_quiz_widget
              (set_reference_button_enabled false (quiz_widget st)) st in
  let st := set_quiz_widget
              (set_feedback text feedback_type (quiz_widget st)) st in
  match parse_reference text with
  | Some (doc_index_from_ai, page_num) =>
      let actual := actual_doc_index doc_index_from_ai st in
      if (0 <=? actual) && (actual <? Z.of_nat (List.length (pdf_file_paths st)))
      then
        let st := set_current_reference
                    (Some (mkReference actual page_num)) st in
        set_quiz_widget (set_reference_button_enabled true (quiz_widget st)) st
      else st
  | None => st
  end.

(** ** StudyApp._handle_ai_result *)

Inductive GradeOutcome : Type :=
| Correct | PartiallyCorrect | Incorrect | Unclear.

(** The [if]/[elif] chain on [feedback_lower]: which branch is taken. *)
Definition grade_outcome (feedback_lower : string) : GradeOutcome :=
  if Py.startswith feedback_lower "status: correct" then Correct
  else if Py.startswith feedback_lower "status: partially correct"
  then PartiallyCorrect
  else if Py.startswith feedback_lower "status: incorrect" then Incorrect
  else Unclear.

(** The locals the chain leaves behind, with the application as the
    [Correct] branch leaves it. *)
Record Grading : Type := mkGrading {
  feedback_type : string;
  points_earned : Z;
  streak_broken : bool;
  graded_app : StudyApp
}.

Definition grade_answer (feedback_lower : string) (st : StudyApp) : Grading :=
  match grade_outcome feedback_lower with
  | Correct =>
      if negb (is_all_materials_mode st) then
        let '(r, skill_data) := _get_current_skill_data st in
        let skill_data := set_streak (streak skill_data + 1) skill_data in
        let bonus := streak skill_data * STREAK_BONUS_MULTIPLIER in
        mkGrading "correct" (POINTS_CORRECT + bonus) false
          (write_ref r skill_data st)
      else mkGrading "correct" POINTS_CORRECT false st
  | PartiallyCorrect => mkGrading "partial" POINTS_PARTIAL true st
  | Incorrect => mkGrading "incorrect" 0 true st
  | Unclear => mkGrading "default" 0 true st
  end.

(** "Difficulty / Level Up Logic".  The second component is [false] when the
    message printed after the increment looks up [DIFFICULTY_LEVELS] out of
    range, which raises [IndexError]. *)
Definition difficulty_step (points_earned : Z) (skill_data : SkillData)
  : SkillData * bool :=
  let answered_count := questions_answered skill_data in
  let current_diff_idx := current_difficulty_index skill_data in
  if (0 <? answered_count)
     && (answered_count mod QUESTIONS_PER_LEVEL_UP =? 0)
     && (0 <? points_earned)
  then
    if current_diff_idx <? Z.of_nat (List.length DIFFICULTY_LEVELS) - 1 then
      let skill_data :=
        set_current_difficulty_index
          (current_difficulty_index skill_data + 1) skill_data in
      (skill_data,
       bool_decide
         (is_Some (Py.getitem DIFFICULTY_LEVELS
                     (current_difficulty_index skill_data))))
    else (skill_data, true)
  else (skill_data, true).

(** "Update skill data ONLY if NOT in All Materials mode": the body of the
    [if not is_all_materials_mode].  The second component is [false] when
    [IndexError] ended the slot; the dict then keeps what was written to it
    so far. *)
Definition update_skill_data (points_earned : Z) (streak_broken : bool)
    (st : StudyApp) : StudyApp * bool :=
  let '(r, skill_data) := _get_current_skill_data st in
  let skill_data := set_score (score skill_data + points_earned) skill_data in
  let skill_data :=
    set_questions_answered (questions_answered skill_data + 1) skill_data in
  let skill_data :=
    if streak_broken then set_streak 0 skill_data else skill_data in
  let '(skill_data, ok) := difficulty_step points_earned skill_data in
  if negb ok then (write_ref r skill_data st, false)
  else
    let new_level := 1 + score skill_data / LEVEL_UP_THRESHOLD in
    if level skill_data <? new_level then
      let skill_data := set_level new_level skill_data in
      let st := set_level_up_occurred true (write_ref r skill_data st) in
      (_update_current_skill_data skill_data st, true)
    else
      (_update_current_skill_data skill_data (write_ref r skill_data st), true).

Definition nl : string := String (ascii_of_nat 10) EmptyString.

(** The guard both slots start with. *)
Definition worker_is_AIWorker (st : StudyApp) : bool :=
  match worker st with
  | Some (AIWorker _) => true
  | _ => false
  end.

Definition worker_is_running (st : StudyApp) : bool :=
  match worker st with
  | Some (AIWorker running) => running
  | _ => false
  end.

Definition current_question_truthy (st : StudyApp) : bool :=
  match current_question st with
  | Some q => Py.truthy q
  | None => false
  end.

Definition _handle_ai_result (task_identifier result_text : string)
    (st : StudyApp) : StudyApp :=
  if negb (worker_is_running st) then st
  else if String.eqb task_identifier "next_question" then
    let st := set_current_question (Some result_text) st in
    let st := set_quiz_widget (set_question result_text (quiz_widget st)) st in
    let difficulty_text :=
      if negb (is_all_materials_mode st) then
        (fun name => " (" +:+ name +:+ ")")
        <$> Py.getitem DIFFICULTY_LEVELS
              (current_difficulty_index (_get_current_skill_data st).2)
      else Some "" in
    match difficulty_text with
    | Some difficulty_text =>
        let st := set_quiz_widget
                    (set_feedback
                       ("New question" +:+ difficulty_text
                        +:+ ". Enter your answer.") "default"
                       (quiz_widget st)) st in
        set_quiz_widget (set_buttons_state "question" (quiz_widget st)) st
    | None => st (* IndexError *)
    end
  else if String.eqb task_identifier "get_guidance" then
    let st := display_feedback ("Hint:" +:+ nl +:+ result_text) "default" st in
    set_quiz_widget (set_buttons_state "question" (quiz_widget st)) st
  else if String.eqb task_identifier "submit_answer" then
    let feedback_lower := Py.lower result_text in
    let st := set_level_up_occurred false st in
    let g := grade_answer feedback_lower st in
    let '(st, ok) :=
      if negb (is_all_materials_mode st)
      then update_skill_data (points_earned g) (streak_broken g) (graded_app g)
      else (graded_app g, true) in
    if negb ok then st (* IndexError *)
    else
      let st := display_feedback result_text (feedback_type g) st in
      let st := set_current_question None st in
      set_quiz_widget (set_buttons_state "feedback" (quiz_widget st)) st
  else
    let st := set_quiz_widget
                (set_feedback
                   ("Result for unknown task '" +:+ task_identifier +:+ "':"
                    +:+ nl +:+ result_text) "default" (quiz_widget st)) st in
    if current_question_truthy st
    then set_quiz_widget (set_buttons_state "question" (quiz_widget st)) st
    else set_quiz_widget (set_buttons_state "initial" (quiz_widget st)) st.

(** ** StudyApp._handle_ai_error *)

Definition _handle_ai_error (task_identifier error_message : string)
    (st : StudyApp) : StudyApp :=
  if negb (worker_is_AIWorker st) then st
  else
    let st := display_feedback
                ("Error during '" +:+ task_identifier +:+ "': "
                 +:+ error_message) "incorrect" st in
    if String.eqb task_identifier "next_question" then
      let st := set_current_question None st in
      let st := set_quiz_widget
                  (set_question
                     "Error generating question. Click 'Next' to try again."
                     (quiz_widget st)) st in
      set_quiz_widget (set_buttons_state "initial" (quiz_widget st)) st
    else if String.eqb task_identifier "get_guidance" then
      set_quiz_widget (set_buttons_state "question" (quiz_widget st)) st
    else if String.eqb task_identifier "submit_answer" then
      let st := set_quiz_widget (set_answer_enabled true (quiz_widget st)) st in
      set_quiz_widget (set_buttons_state "question" (quiz_widget st)) st
    else st.

(** The signals of an [AIWorker] and the slots they are connected to. *)
Inductive Signal : Type :=
| result_ready (task_identifier result_text : string)
| error_occurred (task_identifier error_message : string).

Definition deliver (sig : Signal) (st : StudyApp) : StudyApp :=
  match sig with
  | result_ready task text => _handle_ai_result task text st
  | error_occurred task msg => _handle_ai_error task msg st
  end.


(** ** Grading one answer, and a run of answers *)

(** The slot for a [submit_answer] result. *)
Definition submit (result_text : string) (st : StudyApp) : StudyApp :=
  _handle_ai_result "submit_answer" result_text st.

Definition submit_all (texts : list string) (st : StudyApp) : StudyApp :=
  foldl (fun st text => submit text st) st texts.

(** The status the slot reads off a response, and the points it awards. *)
Definition status_of (result_text : string) : GradeOutcome :=
  grade_outcome (Py.lower result_text).

Definition points_awarded (result_text : string) (st : StudyApp) : Z :=
  points_earned
    (grade_answer (Py.lower result_text) (set_level_up_occurred false st)).

(** A grading result arrives while the individual skill [name], whose entry
    is [d], is being quizzed. *)
Definition quizzing (st : StudyApp) (name : string) (d : SkillData) : Prop :=
  worker st = Some (AIWorker true)
  /\ current_skill_name st = Some name
  /\ name <> ""
  /\ name <> ALL_MATERIALS_SKILL_NAME
  /\ skill_progress st !! name = Some d.

(** A grading result arrives in combined review. *)
Definition reviewing_all (st : StudyApp) : Prop :=
  current_skill_name st = Some ALL_MATERIALS_SKILL_NAME.

(** What [grade_answer] followed by [update_skill_data] does to the entry of
    the skill being quizzed: the points, and the entry afterwards. *)
Definition points_for (o : GradeOutcome) (d : SkillData) : Z :=
  match o with
  | Correct => POINTS_CORRECT + (streak d + 1) * STREAK_BONUS_MULTIPLIER
  | PartiallyCorrect => POINTS_PARTIAL
  | Incorrect | Unclear => 0
  end.

Definition breaks_streak (o : GradeOutcome) : bool :=
  match o with Correct => false | _ => true end.

Definition entry_after_status (o : GradeOutcome) (d : SkillData) : SkillData :=
  match o with Correct => set_streak (streak d + 1) d | _ => d end.

Definition entry_scored (points_earned : Z) (streak_broken : bool)
    (d : SkillData) : SkillData :=
  let d := set_score (score d + points_earned) d in
  let d := set_questions_answered (questions_answered d + 1) d in
  if streak_broken then set_streak 0 d else d.

Definition entry_levelled (d : SkillData) : SkillData :=
  let new_level := 1 + score d / LEVEL_UP_THRESHOLD in
  if level d <? new_level then set_level new_level d else d.

Definition update_entry (points_earned : Z) (streak_broken : bool)
    (d : SkillData) : SkillData :=
  let '(d, ok) :=
    difficulty_step points_earned (entry_scored points_earned streak_broken d) in
  if negb ok then d else entry_levelled d.

Definition apply_grade (o : GradeOutcome) (d : SkillData) : SkillData :=
  update_entry (points_for o d) (breaks_streak o) (entry_after_status o d).

(** ** Sample states *)

Definition sample_widget : QuizWidget :=
  mkQuizWidget "" "" DEFAULT_FEEDBACK_COLOR false false false false false false.

Definition sample_entry : SkillData := mkSkillData 0 0 1 4 0.

(** Three documents; "b.pdf" is being quizzed, four answers in. *)
Definition sample_app : StudyApp :=
  mkStudyApp (Some (AIWorker true)) (Some "b.pdf")
    ["/docs/a.pdf"; "/docs/b.pdf"; "/docs/c.pdf"]
    ["a.pdf"; "b.pdf"; "c.pdf"]
    (<["b.pdf" := sample_entry]> (<["a.pdf" := default_skill_data]> ∅))
    0 (Some "What is a monad?") None false sample_widget [].

(** The same documents in combined review. *)
Definition sample_review : StudyApp :=
  mkStudyApp (Some (AIWorker true)) (Some ALL_MATERIALS_SKILL_NAME)
    ["/docs/a.pdf"; "/docs/b.pdf"; "/docs/c.pdf"]
    ["a.pdf"; "b.pdf"; "c.pdf"]
    (<["b.pdf" := sample_entry]> (<["a.pdf" := default_skill_data]> ∅))
    0 (Some "What is a monad?") None false sample_widget [].

(** "b.pdf" being quizzed, with a given entry. *)
Definition sample_app_with (d : SkillData) : StudyApp :=
  set_skill_progress (<["b.pdf" := d]> (skill_progress sample_app)) sample_app.

(** ** Auxiliary notions for the properties *)

(** A run of graded answers, on the entry. *)
Definition apply_grades (texts : list string) (d : SkillData) : SkillData :=
  foldl (fun d text => apply_grade (status_of text) d) d texts.

(** The test of the difficulty step, on the entry before the grade. *)
Definition steps_up (points_earned : Z) (d : SkillData) : bool :=
  (0 <? questions_answered d + 1)
  && ((questions_answered d + 1) mod QUESTIONS_PER_LEVEL_UP =? 0)
  && (0 <? points_earned)
  && (current_difficulty_index d <? Z.of_nat (List.length DIFFICULTY_LEVELS) - 1).

(** The ranges of the data model that the level equation needs, with the
    equation. *)
Definition level_consistent (d : SkillData) : Prop :=
  0 <= streak d /\ 0 <= current_difficulty_index d
  /\ level d = 1 + score d / LEVEL_UP_THRESHOLD.

(** The leading text of a response is, up to case, the given phrase. *)
Definition leads_with (text phrase : string) : Prop :=
  exists pre rest, text = pre +:+ rest /\ Py.lower pre = phrase.

(** *** What the reference pattern reads, written out *)

Fixpoint take_while (p : ascii -> bool) (s : list ascii) : list ascii :=
  match s with
  | c :: s' => if p c then c :: take_while p s' else []
  | [] => []
  end.

Fixpoint drop_while (p : ascii -> bool) (s : list ascii) : list ascii :=
  match s with
  | c :: s' => if p c then drop_while p s' else s
  | [] => []
  end.

Fixpoint strip_prefix (p s : list ascii) : option (list ascii) :=
  match p, s with
  | [], _ => Some s
  | a :: p', b :: s' => if Ascii.eqb a b then strip_prefix p' s' else None
  | _ :: _, [] => None
  end.

Definition strip_opt (a : ascii) (s : list ascii) : list ascii :=
  match s with
  | c :: s' => if Ascii.eqb a c then s' else s
  | [] => []
  end.

(** Reading a reference tag at the very start of [s], left to right with no
    choice to make: the two runs of digits, if the tag is there. *)
Definition scan (s : list ascii) : option (list ascii * list ascii) :=
  match strip_prefix (list_ascii_of_string "Reference:") s with
  | Some s =>
      let s := strip_opt "[" (drop_while Py.isspace s) in
      match take_while Py.isdigit s with
      | [] => None
      | n1 =>
          match strip_opt "]" (drop_while Py.isdigit s) with
          | c :: s =>
              if Ascii.eqb ":" c then
                let s := strip_opt "[" s in
                match take_while Py.isdigit s with
                | [] => None
                | n2 => Some (n1, n2)
                end
              else None
          | [] => None
          end
      end
  | None => None
  end.

(** An integer in a text: a run of digits, at least one. *)
Definition digits (w : list ascii) : Prop :=
  w <> [] /\ Forall (fun c => Py.isdigit c = true) w.

(** An optional bracket. *)
Definition optional (b : ascii) (w : list ascii) : Prop :=
  w = [] \/ w = [b].

(** No digit comes next. *)
Definition no_digit_next (s : list ascii) : Prop :=
  match s with
  | [] => True
  | c :: _ => Py.isdigit c = false
  end.

(** At position [i] of [t] there is: [Reference:], white space if any, an
    optional bracket, the integer [n1], an optional bracket, a colon, an
    optional bracket, the integer [n2] (all of its digits) and an optional
    bracket. *)
Definition reference_tag_at (t : list ascii) (i : nat) (n1 n2 : list ascii)
  : Prop :=
  exists pre ws o1 c1 o2 c2 rest : list ascii,
    t = (pre ++ list_ascii_of_string "Reference:" ++ ws ++ o1 ++ n1 ++ c1
         ++ [":"%char] ++ o2 ++ n2 ++ c2 ++ rest)%list
    /\ List.length pre = i
    /\ Forall (fun c => Py.isspace c = true) ws
    /\ optional "[" o1 /\ digits n1 /\ optional "]" c1
    /\ optional "[" o2 /\ digits n2 /\ optional "]" c2
    /\ no_digit_next (c2 ++ rest)%list.

(** A continuation of the matcher that cannot go on from a character of the
    given kind. *)
Definition fails_on (P : ascii -> bool) (r : regex) : Prop :=
  forall x s c, P x = true -> run r (x :: s) c = [].

(** No character of the given kind comes next. *)
Definition next_not (p : ascii -> bool) (s : list ascii) : Prop :=
  match s with
  | [] => True
  | c :: _ => p c = false
  end.

(** * More of the application

    The rest of what [StudyApp] does with its progress, its documents and its
    worker, beyond the two slots above. *)

(** ** More of Python's strings *)

Module PyStr.

(** [s.strip()]: white space off both ends. *)
Definition lstrip (s : list ascii) : list ascii := drop_while Py.isspace s.
Definition rstrip (s : list ascii) : list ascii :=
  rev (drop_while Py.isspace (rev s)).
Definition strip (s : list ascii) : list ascii := rstrip (lstrip s).

(** [s.split(sep)] for a separator of one character: always at least one
    piece. *)
Fixpoint split (sep : ascii) (s : list ascii) : list (list ascii) :=
  match s with
  | [] => [[]]
  | c :: s' =>
      if Ascii.eqb c sep then [] :: split sep s'
      else
        match split sep s' with
        | piece :: pieces => (c :: piece) :: pieces
        | [] => [[c]]
        end
  end.

(** [s.split(sep, 1)]: one piece, or the two around the first separator. *)
Fixpoint split1 (sep : ascii) (s : list ascii)
  : list ascii * option (list ascii) :=
  match s with
  | [] => ([], None)
  | c :: s' =>
      if Ascii.eqb c sep then ([], Some s')
      else let '(a, b) := split1 sep s' in (c :: a, b)
  end.

(** The digits of an integer literal, where one underscore may stand between
    two digits; [after_digit] tells whether the last character read was a
    digit. *)
Fixpoint int_digits (acc : Z) (after_digit : bool) (s : list ascii)
  : option Z :=
  match s with
  | [] => if after_digit then Some acc else None
  | c :: s' =>
      if Ascii.eqb c "_" then
        if after_digit then int_digits acc false s' else None
      else
        match Py.digit_value c with
        | Some d => int_digits (10 * acc + d) true s'
        | None => None
        end
  end.

(** [int(s)] for any [str]: white space around, an optional sign, digits.
    [None] stands for [ValueError].  (As for [Py.int], the cap on the number
    of digits is not modelled.) *)
Definition int (s : list ascii) : option Z :=
  match strip s with
  | c :: s' =>
      if Ascii.eqb c "-" then Z.opp <$> int_digits 0 false s'
      else if Ascii.eqb c "+" then int_digits 0 false s'
      else int_digits 0 false (c :: s')
  | [] => None
  end.

End PyStr.

(** ** StudyApp.load_config: the progress section *)

(** [data] of the loop over [data_str.split(',')]: a dict from the stripped
    key to the stripped value of every item that has an [=]. *)
Definition progress_items (data_str : list ascii)
  : gmap (list ascii) (list ascii) :=
  foldl (fun data item =>
           match PyStr.split1 "=" item with
           | (key, Some val) => <[PyStr.strip key := PyStr.strip val]> data
           | (_, None) => data
           end)
        ∅ (PyStr.split "," data_str).

(** [int(data.get(key, default))] *)
Definition progress_field (data : gmap (list ascii) (list ascii))
    (key : string) (default : Z) : option Z :=
  match data !! list_ascii_of_string key with
  | Some val => PyStr.int val
  | None => Some default
  end.

(** The dict built from one value of the section; [None] when an [int]
    raises, which the loop catches. *)
Definition parse_progress (data_str : string) : option SkillData :=
  let data := progress_items (list_ascii_of_string data_str) in
  sc ← progress_field data "score" 0;
  sk ← progress_field data "streak" 0;
  lv ← progress_field data "level" 1;
  qa ← progress_field data "answered" 0;
  di ← progress_field data "diff_idx" 0;
  Some (mkSkillData sc sk lv qa di).

(** The loop over the names of the section, as [configparser] hands them
    out with their values: [self.skill_progress] starts empty and gets an
    entry for every value that parses. *)
Definition load_progress (section : list (string * string))
  : gmap string SkillData :=
  foldl (fun progress '(skill_name, data_str) =>
           match parse_progress data_str with
           | Some d => <[skill_name := d]> progress
           | None => progress
           end)
        ∅ section.

(** [load_config] as far as progress goes, for a file that has the section;
    [_recalculate_total_score] follows the loop. *)
Definition load_config_progress (section : list (string * string))
    (st : StudyApp) : StudyApp :=
  _recalculate_total_score (set_skill_progress (load_progress section) st).

(** ** StudyApp: the documents

    [add_pdfs], [remove_pdfs_by_name] and [clear_pdfs] also need to know
    whether a thread is running, and they reset what was uploaded.  Message
    boxes, the status line and the repainting of lists are left out. *)

(** A [genai.File] as far as it is looked at: [None] for an object without
    the attribute [display_name]. *)
Record File : Type := mkFile {
  file_display_name : option string;
  file_uri : string
}.

Record Session : Type := mkSession {
  study_app : StudyApp;
  (** [self.thread is not None and self.thread.isRunning()] *)
  thread_running : bool;
  (** [_is_running] of the [PDFUploadWorker] in [self.worker] *)
  upload_worker_running : bool;
  uploaded_file_references : gmap string File;
  quiz_active : bool
}.

Definition set_app (v : StudyApp) (s : Session) : Session :=
  mkSession v (thread_running s) (upload_worker_running s)
    (uploaded_file_references s) (quiz_active s).
Definition set_uploaded_file_references (v : gmap string File) (s : Session)
  : Session :=
  mkSession (study_app s) (thread_running s) (upload_worker_running s) v
    (quiz_active s).
Definition set_quiz_active (v : bool) (s : Session) : Session :=
  mkSession (study_app s) (thread_running s) (upload_worker_running s)
    (uploaded_file_references s) v.

Definition set_pdf_file_paths (v : list string) (st : StudyApp) : StudyApp :=
  mkStudyApp (worker st) (current_skill_name st) v
    (pdf_file_basenames st) (skill_progress st) (total_score st)
    (current_question st) (current_reference st) (_level_up_occurred st)
    (quiz_widget st) (config_progress st).
Definition set_pdf_file_basenames (v : list string) (st : StudyApp)
  : StudyApp :=
  mkStudyApp (worker st) (current_skill_name st) (pdf_file_paths st)
    v (skill_progress st) (total_score st)
    (current_question st) (current_reference st) (_level_up_occurred st)
    (quiz_widget st) (config_progress st).

(** [x in l] for a list of strings. *)
Definition contains (l : list string) (x : string) : bool :=
  existsb (String.eqb x) l.

Definition _clear_uploaded_references (s : Session) : Session :=
  set_quiz_active false (set_uploaded_file_references ∅ s).

Section Documents.

(** [os.path.basename], which depends on the platform. *)
Variable basename : string -> string.

(** One round of the loop of [add_pdfs]; the flag is [pdfs_changed]. *)
Definition add_pdf (acc : StudyApp * bool) (file_path : string)
  : StudyApp * bool :=
  let '(st, pdfs_changed) := acc in
  if negb (contains (pdf_file_paths st) file_path) then
    let name := basename file_path in
    if negb (contains (pdf_file_basenames st) name) then
      let st := set_pdf_file_paths (pdf_file_paths st ++ [file_path]) st in
      let st := set_pdf_file_basenames (pdf_file_basenames st ++ [name]) st in
      let st :=
        match skill_progress st !! name with
        | Some _ => st
        | None =>
            set_skill_progress
              (<[name := default_skill_data]> (skill_progress st)) st
        end in
      (st, true)
    else (st, pdfs_changed)
  else (st, pdfs_changed).

Definition add_pdfs (files : list string) (s : Session) : Session :=
  if thread_running s then s
  else
    let '(st, pdfs_changed) := foldl add_pdf (study_app s, false) files in
    let s := set_app st s in
    if pdfs_changed
    then set_quiz_active false (_clear_uploaded_references s)
    else s.

End Documents.

(** [[i for i, name in enumerate(names) if name in basenames_to_remove]],
    counting from [i]. *)
Fixpoint indices_to_remove (i : nat) (names basenames_to_remove : list string)
  : list nat :=
  match names with
  | [] => []
  | name :: names' =>
      if contains basenames_to_remove name
      then i :: indices_to_remove (S i) names' basenames_to_remove
      else indices_to_remove (S i) names' basenames_to_remove
  end.

(** One round of the loop of [remove_pdfs_by_name].  [pop] answers with
    [IndexError] out of range, and so does [del] on the paths after the name
    was popped; the handler goes on with the next index. *)
Definition remove_pdf (acc : StudyApp * bool) (i : nat) : StudyApp * bool :=
  let '(st, pdfs_changed) := acc in
  match pdf_file_basenames st !! i with
  | Some name =>
      let st := set_pdf_file_basenames (delete i (pdf_file_basenames st)) st in
      if (i <? List.length (pdf_file_paths st))%nat then
        let st := set_pdf_file_paths (delete i (pdf_file_paths st)) st in
        let st := set_skill_progress (delete name (skill_progress st)) st in
        (st, true)
      else (st, pdfs_changed)
  | None => (st, pdfs_changed)
  end.

(** The indices are sorted in ascending order as they are collected, so
    [sorted(..., reverse=True)] is their reverse. *)
Definition remove_pdfs_by_name (basenames_to_remove : list string)
    (s : Session) : Session :=
  if thread_running s then s
  else
    match indices_to_remove O (pdf_file_basenames (study_app s))
            basenames_to_remove
    with
    | [] => s
    | indices =>
        let '(st, pdfs_changed) :=
          foldl remove_pdf (study_app s, false) (rev indices) in
        let s := set_app st s in
        if pdfs_changed then
          let s := _clear_uploaded_references s in
          let s := set_app (_recalculate_total_score (study_app s)) s in
          set_quiz_active
            (negb (bool_decide (uploaded_file_references s = ∅))) s
        else s
    end.

Definition clear_pdfs (s : Session) : Session :=
  if thread_running s then s
  else
    match pdf_file_paths (study_app s) with
    | [] => s
    | _ =>
        let st := set_pdf_file_paths [] (study_app s) in
        let st := set_pdf_file_basenames [] st in
        let st := set_skill_progress ∅ st in
        let s := _clear_uploaded_references (set_app st s) in
        let s := set_app (_recalculate_total_score (study_app s)) s in
        set_quiz_active false s
    end.

(** ** StudyApp: what was uploaded *)

Definition worker_is_running_upload (s : Session) : bool :=
  match worker (study_app s) with
  | Some PDFUploadWorker => upload_worker_running s
  | _ => false
  end.

(** The dict comprehension over the files that have a [display_name]; a
    later file replaces an earlier one of the same name. *)
Definition references_by_name (uploaded_file_list : list File)
  : gmap string File :=
  foldl (fun refs f =>
           match file_display_name f with
           | Some name => <[name := f]> refs
           | None => refs
           end)
        ∅ uploaded_file_list.

Definition _handle_upload_finished (uploaded_file_list : list File)
    (s : Session) : Session :=
  if negb (worker_is_running_upload s) then _clear_uploaded_references s
  else
    let s := set_uploaded_file_references
               (references_by_name uploaded_file_list) s in
    set_quiz_active (negb (bool_decide (uploaded_file_references s = ∅))) s.

Definition _handle_upload_error (error_message : string) (s : Session)
  : Session :=
  _clear_uploaded_references s.

(** ** AIWorker.run

    The response of [generate_content] as far as [run] reads it.  An
    attribute that is missing or of another shape makes the reading raise,
    which [run] turns into an error of its own; the model takes a response
    of the shape below. *)

Record Candidate : Type := mkCandidate {
  (** [candidate.finish_reason.name] *)
  finish_reason : string;
  (** [rating.category.name] and [rating.probability.name] *)
  safety_ratings : list (string * string);
  (** the [text] of each of [candidate.content.parts] ([None] for a part
      without the attribute); [None] when [candidate.content] is false *)
  content_parts : option (list (option string))
}.

Record Response : Type := mkResponse {
  (** [response.prompt_feedback.block_reason.name] when the feedback and the
      reason are true *)
  block_reason : option string;
  candidates : list Candidate;
  (** [getattr(response, 'finish_message', ...)] *)
  finish_message : option string
}.

(** How the call of [generate_content] ends. *)
Inductive ApiCall : Type :=
| Returns (response : Response)
| RaisesApiError (message : string)
    (* GoogleAPIError, ConnectionError or ValueError *)
| RaisesOther (message : string).

(** What [self._is_running] is each time [run] reads it; [stop] may be
    called from the other thread at any time. *)
Record Running : Type := mkRunning {
  at_start : bool;
  before_call : bool;
  after_call : bool;
  at_emit : bool
}.

(** The [ValueError] of the first rating that is neither NEGLIGIBLE nor
    LOW, if any. *)
Fixpoint safety_issue (finish_reason : string)
    (ratings : list (string * string)) : option string :=
  match ratings with
  | [] => None
  | (category, probability) :: ratings' =>
      if negb (contains ["NEGLIGIBLE"; "LOW"] probability)
      then Some ("AI response may be blocked due to safety (" +:+ category
                 +:+ "). Finish reason: " +:+ finish_reason)
      else safety_issue finish_reason ratings'
  end.

(** "Robust Response Handling": the text, or the message of the
    [ValueError]. *)
Definition response_text (response : Response) : string + string :=
  match block_reason response with
  | Some reason =>
      inr ("AI request blocked due to safety (" +:+ reason +:+ ").")
  | None =>
      match candidates response with
      | [] =>
          inr ("AI returned no response candidates. Reason: "
               +:+ default "No details provided." (finish_message response))
      | candidate :: _ =>
          let reason := finish_reason candidate in
          if negb (contains ["STOP"; "MAX_TOKENS"] reason) then
            match safety_issue reason (safety_ratings candidate) with
            | Some message => inr message
            | None =>
                inr ("AI response stopped unexpectedly. Finish reason: "
                     +:+ reason)
            end
          else
            match content_parts candidate with
            | Some (part :: parts) =>
                inl (String.concat "" (omap id (part :: parts)))
            | _ =>
                if String.eqb reason "STOP" then inl ""
                else inr ("AI returned no text content. Finish reason: "
                          +:+ reason)
            end
      end
  end.

(** [str.strip] on a [string]. *)
Definition strip_string (s : string) : string :=
  string_of_list_ascii (PyStr.strip (list_ascii_of_string s)).

(** [run]: the one signal it emits besides [progress_update], if any.
    [model] tells whether [self.model] is true. *)
Definition AIWorker_run (model : bool) (task_identifier : string)
    (running : Running) (call : ApiCall) : option Signal :=
  if negb (at_start running) || negb model then
    Some (error_occurred task_identifier
            "AI Worker stopped or model not configured.")
  else if negb (before_call running) then
    Some (error_occurred task_identifier "AI Worker stopped before API call.")
  else
    match call with
    | Returns response =>
        if negb (after_call running) then
          Some (error_occurred task_identifier
                  "AI Worker stopped during API call.")
        else
          match response_text response with
          | inl text =>
              if at_emit running
              then Some (result_ready task_identifier (strip_string text))
              else None
          | inr message =>
              if at_emit running
              then Some (error_occurred task_identifier
                           ("AI Error: " +:+ message))
              else None
          end
    | RaisesApiError message =>
        if at_emit running
        then Some (error_occurred task_identifier ("AI Error: " +:+ message))
        else None
    | RaisesOther message =>
        if at_emit running
        then Some (error_occurred task_identifier
                     ("Unexpected Error: " +:+ message))
        else None
    end.

(** The slot the emitted signal reaches, if one was emitted. *)
Definition deliver_emitted (emitted : option Signal) (st : StudyApp)
  : StudyApp :=
  match emitted with
  | Some sig => deliver sig st
  | None => st
  end.

(** ** StudyApp.view_reference *)

(** What [view_reference] comes to: one of its message boxes, an
    [IndexError] from the list of names, or the attempt to open a file. *)
Inductive Viewing : Type :=
| NoReference
| InvalidDocumentIndex (doc_index : Z)
| NamesIndexError
| FileNotFound (name file_path : string)
| Opening (name file_path : string) (page_num : Z).

Section ViewReference.

(** [os.path.exists] *)
Variable path_exists : string -> bool.

Definition view_reference (st : StudyApp) : Viewing :=
  match current_reference st with
  | None => NoReference
  | Some reference =>
      let doc_index := doc_index reference in
      let page_num := page reference in
      if negb ((0 <=? doc_index)
               && (doc_index <? Z.of_nat (List.length (pdf_file_paths st))))
      then InvalidDocumentIndex doc_index
      else
        match Py.getitem (pdf_file_paths st) doc_index,
              Py.getitem (pdf_file_basenames st) doc_index with
        | Some file_path, Some name =>
            if negb (path_exists file_path) then FileNotFound name file_path
            else Opening name file_path page_num
        | _, _ => NamesIndexError
        end
  end.

End ViewReference.

(** ** StudyApp.update_header_stats *)

(** The level the header shows: the highest level of a skill, 1 when there
    is none. *)
Definition header_level (st : StudyApp) : Z :=
  match (fun entry : string * SkillData => level entry.2)
        <$> map_to_list (skill_progress st) with
  | [] => 1
  | l :: ls => foldl Z.max l ls
  end.

(** The sum [_recalculate_total_score] computes. *)
Definition skill_total (progress : gmap string SkillData) : Z :=
  map_fold (fun name data acc =>
              if negb (String.eqb name ALL_MATERIALS_SKILL_NAME)
              then acc + score data else acc)
           0 progress.

(** The characters a number is written with. *)
Definition number_char (c : ascii) : bool :=
  Py.isdigit c || Ascii.eqb c "-".

(** The lists of documents are in step: every name is the base name of the
    path at its position, no name comes twice, and every name has its
    entry. *)
Definition documents_ok (basename : string -> string) (st : StudyApp) : Prop :=
  pdf_file_basenames st = basename <$> pdf_file_paths st
  /\ NoDup (pdf_file_basenames st)
  /\ forall name,
       name ∈ pdf_file_basenames st -> is_Some (skill_progress st !! name).

(** "b.pdf" being quizzed with no entry for it. *)
Definition sample_app_no_entry : StudyApp :=
  set_skill_progress (delete "b.pdf" (skill_progress sample_app)) sample_app.

(** A session around the sample application, nothing running. *)
Definition sample_session : Session :=
  mkSession sample_app false false
    (<["b.pdf" := mkFile (Some "b.pdf") "files/b"]> ∅) true.

(** The part of a path after the last slash. *)
Fixpoint after_slash (acc s : string) : string :=
  match s with
  | EmptyString => acc
  | String c s' =>
      if Ascii.eqb c "/" then after_slash s' s' else after_slash acc s'
  end.
Definition sample_basename (file_path : string) : string :=
  after_slash file_path file_path.

(** The quiz is on only while something is uploaded. *)
Definition upload_consistent (s : Session) : Prop :=
  quiz_active s = true -> uploaded_file_references s <> ∅.

(** The sample session with an entry for every document. *)
Definition sample_library : Session :=
  set_app
    (set_skill_progress
       (<["c.pdf" := default_skill_data]> (skill_progress sample_app))
       sample_app)
    sample_session.

(** A worker that is never stopped. *)
Definition never_stopped : Running := mkRunning true true true true.

(** A response of one candidate that stopped, with the given text in one
    part. *)
Definition sample_response (text : string) : Response :=
  mkResponse None [mkCandidate "STOP" [] (Some [Some text])] None.

(** The document a text refers to, with the page: in combined review the
    document at the index the text gives, otherwise the document of the
    current skill. *)
Definition refers_to (st : StudyApp) (text name file_path : string)
    (page_num : Z) : Prop :=
  exists (i : nat) (ai : Z),
    parse_reference text = Some (ai, page_num)
    /\ pdf_file_paths st !! i = Some file_path
    /\ pdf_file_basenames st !! i = Some name
    /\ if is_all_materials_mode st then ai = Z.of_nat i
       else current_skill_name st = Some name.

(** An answer cannot be submitted while the next question can be asked
    for, and a hint can be asked for exactly when an answer can be
    submitted. *)
Definition buttons_ok (q : QuizWidget) : Prop :=
  submit_button q && next_button q = false
  /\ guidance_button q = submit_button q.

(** * Properties *)

(** ** The state machine of one skill *)

Section Quizzing.

Variables (st : StudyApp) (name : string) (d : SkillData).
Hypothesis Hq : quizzing st name d.

Lemma quizzing_individual : individual_skill st = Some name.
Proof.
  destruct Hq as (_ & Hn & Hne & Hall & _).
  unfold individual_skill. rewrite Hn.
  destruct (String.eqb_spec name ALL_MATERIALS_SKILL_NAME); [done|].
  destruct name; [done|]. reflexivity.
Qed.

Lemma quizzing_not_all : is_all_materials_mode st = false.
Proof.
  destruct Hq as (_ & Hn & _ & Hall & _).
  unfold is_all_materials_mode. rewrite Hn.
  destruct (String.eqb_spec name ALL_MATERIALS_SKILL_NAME); done.
Qed.

Lemma quizzing_running : worker_is_running st = true.
Proof. destruct Hq as (Hw & _). unfold worker_is_running. by rewrite Hw. Qed.

Lemma quizzing_get : _get_current_skill_data st = (Stored name, d).
Proof.
  destruct Hq as (_ & _ & _ & _ & Hd).
  unfold _get_current_skill_data. by rewrite quizzing_individual, Hd.
Qed.

End Quizzing.

(** Facts that survive the setters. *)
Lemma display_feedback_frame text ft st :
  let st' := display_feedback text ft st in
  worker st' = worker st /\ current_skill_name st' = current_skill_name st
  /\ skill_progress st' = skill_progress st
  /\ total_score st' = total_score st
  /\ config_progress st' = config_progress st
  /\ pdf_file_paths st' = pdf_file_paths st
  /\ pdf_file_basenames st' = pdf_file_basenames st.
Proof.
  unfold display_feedback. simpl.
  destruct (parse_reference text) as [[a p]|]; simpl; [|done].
  case_match; simpl; done.
Qed.

Lemma grade_answer_quizzing st name d fl :
  quizzing st name d ->
  let o := grade_outcome fl in
  let g := grade_answer fl st in
  points_earned g = points_for o d
  /\ streak_broken g = breaks_streak o
  /\ graded_app g
     = set_skill_progress
         (<[name := entry_after_status o d]> (skill_progress st)) st.
Proof.
  intros Hq o g. subst o g. unfold grade_answer.
  assert (Hid : set_skill_progress (<[name := d]> (skill_progress st)) st = st).
  { destruct Hq as (_ & _ & _ & _ & Hd). rewrite (insert_id _ _ _ Hd).
    by destruct st. }
  destruct (grade_outcome fl); simpl; [|by rewrite Hid..].
  rewrite (quizzing_not_all _ _ _ Hq), (quizzing_get _ _ _ Hq). simpl. done.
Qed.

Lemma update_skill_data_quizzing st name d pts b :
  quizzing st name d ->
  let st' := (update_skill_data pts b st).1 in
  skill_progress st' = <[name := update_entry pts b d]> (skill_progress st)
  /\ worker st' = worker st
  /\ current_skill_name st' = current_skill_name st
  /\ pdf_file_paths st' = pdf_file_paths st
  /\ pdf_file_basenames st' = pdf_file_basenames st.
Proof.
  intros Hq. unfold update_skill_data, update_entry, entry_levelled, entry_scored.
  rewrite (quizzing_get _ _ _ Hq).
  pose proof (quizzing_individual _ _ _ Hq) as Hi.
  destruct (difficulty_step _ _) as [d4 [|]]; simpl; [|done].
  unfold _update_current_skill_data.
  destruct (level d4 <? _); simpl.
  - change (individual_skill _) with (individual_skill st). rewrite Hi. simpl.
    by rewrite insert_insert_eq.
  - change (individual_skill _) with (individual_skill st). rewrite Hi. simpl.
    by rewrite insert_insert_eq.
Qed.

(** One graded answer replaces the entry of the skill being quizzed by
    [apply_grade] of it, and touches no other entry. *)
Lemma submit_progress st name d text :
  quizzing st name d ->
  skill_progress (submit text st)
  = <[name := apply_grade (status_of text) d]> (skill_progress st)
  /\ quizzing (submit text st) name (apply_grade (status_of text) d).
Proof.
  intros Hq.
  assert (Hq0 : quizzing (set_level_up_occurred false st) name d) by exact Hq.
  destruct (grade_answer_quizzing _ _ _ (Py.lower text) Hq0) as (Hp & Hb & Hg).
  set (st0 := set_level_up_occurred false st) in *.
  set (g := grade_answer (Py.lower text) st0) in *.
  set (o := grade_outcome (Py.lower text)) in *.
  assert (Hq1 : quizzing (graded_app g) name (entry_after_status o d)).
  { rewrite Hg. destruct Hq as (? & ? & ? & ? & ?).
    repeat split; try done. simpl. apply lookup_insert_eq. }
  destruct (update_skill_data_quizzing _ _ _ (points_earned g)
              (streak_broken g) Hq1) as (Hs & Hw & Hn & _).
  assert (Hfinal : skill_progress (submit text st)
                   = skill_progress
                       (update_skill_data (points_earned g) (streak_broken g)
                          (graded_app g)).1
                   /\ worker (submit text st) = worker st
                   /\ current_skill_name (submit text st)
                      = current_skill_name st).
  { unfold submit, _handle_ai_result.
    rewrite (quizzing_running _ _ _ Hq). simpl.
    fold st0. fold g.
    rewrite (quizzing_not_all _ _ _ Hq0). simpl.
    destruct (update_skill_data _ _ _) as [st2 [|]]; simpl in *.
    2: { rewrite Hw, Hn, Hg. done. }
    destruct (display_feedback_frame text (feedback_type g) st2)
      as (-> & -> & -> & _).
    rewrite Hw, Hn, Hg. done. }
  destruct Hfinal as (Hf & Hfw & Hfn).
  assert (Heq : skill_progress (submit text st)
                = <[name := apply_grade (status_of text) d]> (skill_progress st)).
  { rewrite Hf, Hs, Hg. simpl. rewrite insert_insert_eq.
    unfold apply_grade, status_of. fold o. by rewrite Hp, Hb. }
  split; [exact Heq|].
  destruct Hq as (? & ? & ? & ? & ?).
  repeat split; try congruence. rewrite Heq. apply lookup_insert_eq.
Qed.

Lemma points_awarded_quizzing st name d text :
  quizzing st name d ->
  points_awarded text st = points_for (status_of text) d.
Proof.
  intros Hq.
  assert (Hq0 : quizzing (set_level_up_occurred false st) name d) by exact Hq.
  by destruct (grade_answer_quizzing _ _ _ (Py.lower text) Hq0) as (Hp & _).
Qed.

Lemma submit_all_progress texts : forall st name d,
  quizzing st name d ->
  quizzing (submit_all texts st) name (apply_grades texts d).
Proof.
  induction texts as [|t texts IH]; intros st name d Hq; [exact Hq|].
  simpl. apply IH. by apply submit_progress.
Qed.

(** *** The entry after one grade *)

Lemma difficulty_step_fields pts d :
  let d' := (difficulty_step pts d).1 in
  score d' = score d /\ streak d' = streak d /\ level d' = level d
  /\ questions_answered d' = questions_answered d.
Proof.
  unfold difficulty_step.
  repeat case_match; simpl; done.
Qed.

Lemma entry_levelled_fields d :
  let d' := entry_levelled d in
  score d' = score d /\ streak d' = streak d
  /\ questions_answered d' = questions_answered d
  /\ current_difficulty_index d' = current_difficulty_index d
  /\ level d' = Z.max (level d) (1 + score d / LEVEL_UP_THRESHOLD).
Proof.
  unfold entry_levelled. simpl.
  destruct (Z.ltb_spec (level d) (1 + score d / LEVEL_UP_THRESHOLD)); simpl;
    repeat split; lia.
Qed.

Lemma update_entry_cases pts b d :
  let d3 := entry_scored pts b d in
  let d4 := (difficulty_step pts d3).1 in
  update_entry pts b d = d4 \/ update_entry pts b d = entry_levelled d4.
Proof.
  unfold update_entry. simpl.
  destruct (difficulty_step _ _) as [d4 [|]]; simpl; auto.
Qed.

Lemma update_entry_score pts b d :
  score (update_entry pts b d) = score d + pts.
Proof.
  pose proof (difficulty_step_fields pts (entry_scored pts b d)) as (Hs & _).
  destruct (update_entry_cases pts b d) as [-> | ->];
    [|rewrite (proj1 (entry_levelled_fields _))];
    simpl in Hs; rewrite Hs; unfold entry_scored; by destruct b.
Qed.

Lemma update_entry_answered pts b d :
  questions_answered (update_entry pts b d) = questions_answered d + 1.
Proof.
  pose proof (difficulty_step_fields pts (entry_scored pts b d))
    as (_ & _ & _ & Hs).
  destruct (update_entry_cases pts b d) as [-> | ->];
    [|rewrite (proj1 (proj2 (proj2 (entry_levelled_fields _))))];
    simpl in Hs; rewrite Hs; unfold entry_scored; by destruct b.
Qed.

Lemma update_entry_streak pts b d :
  streak (update_entry pts b d) = if b then 0 else streak d.
Proof.
  pose proof (difficulty_step_fields pts (entry_scored pts b d))
    as (_ & Hs & _).
  destruct (update_entry_cases pts b d) as [-> | ->];
    [|rewrite (proj1 (proj2 (entry_levelled_fields _)))];
    simpl in Hs; rewrite Hs; unfold entry_scored; by destruct b.
Qed.

Lemma apply_grade_score o d :
  score (apply_grade o d) = score d + points_for o d.
Proof.
  unfold apply_grade. rewrite update_entry_score. by destruct o.
Qed.

Lemma apply_grade_answered o d :
  questions_answered (apply_grade o d) = questions_answered d + 1.
Proof.
  unfold apply_grade. rewrite update_entry_answered. by destruct o.
Qed.

Lemma apply_grade_streak o d :
  streak (apply_grade o d)
  = match o with Correct => streak d + 1 | _ => 0 end.
Proof.
  unfold apply_grade. rewrite update_entry_streak. by destruct o.
Qed.

Lemma difficulty_step_index pts d :
  current_difficulty_index (difficulty_step pts d).1
  = if (0 <? questions_answered d)
       && (questions_answered d mod QUESTIONS_PER_LEVEL_UP =? 0)
       && (0 <? pts)
       && (current_difficulty_index d
           <? Z.of_nat (List.length DIFFICULTY_LEVELS) - 1)
    then current_difficulty_index d + 1 else current_difficulty_index d.
Proof.
  unfold difficulty_step.
  destruct ((0 <? questions_answered d)
            && (questions_answered d mod QUESTIONS_PER_LEVEL_UP =? 0)
            && (0 <? pts)); simpl; [|done].
  by destruct (current_difficulty_index d <? _).
Qed.

Lemma entry_scored_fields pts b d :
  let d' := entry_scored pts b d in
  questions_answered d' = questions_answered d + 1
  /\ current_difficulty_index d' = current_difficulty_index d
  /\ score d' = score d + pts /\ level d' = level d.
Proof. unfold entry_scored. destruct b; simpl; repeat split; lia. Qed.

Lemma update_entry_index pts b d :
  current_difficulty_index (update_entry pts b d)
  = if steps_up pts d then current_difficulty_index d + 1
    else current_difficulty_index d.
Proof.
  pose proof (difficulty_step_index pts (entry_scored pts b d)) as Hs.
  pose proof (entry_scored_fields pts b d) as (Hqa & Hidx & _).
  simpl in Hqa, Hidx. rewrite Hqa, Hidx in Hs. unfold steps_up.
  destruct (update_entry_cases pts b d) as [-> | ->];
    [|rewrite (proj1 (proj2 (proj2 (proj2 (entry_levelled_fields _)))))];
    exact Hs.
Qed.

Lemma getitem_levels_ok i :
  -3 <= i < 3 -> is_Some (Py.getitem DIFFICULTY_LEVELS i).
Proof.
  intros Hi.
  assert (Hc : i = -3 \/ i = -2 \/ i = -1 \/ i = 0 \/ i = 1 \/ i = 2) by lia.
  destruct Hc as [->|[->|[->|[->|[->| ->]]]]]; vm_compute; eauto.
Qed.

Lemma difficulty_step_ok pts d :
  -4 <= current_difficulty_index d -> (difficulty_step pts d).2 = true.
Proof.
  intros Hi. unfold difficulty_step.
  destruct (_ && _); [|done].
  destruct (current_difficulty_index d <? _) eqn:E; [|done].
  apply Z.ltb_lt in E. simpl in *.
  apply bool_decide_eq_true, getitem_levels_ok. lia.
Qed.

Lemma update_entry_level pts b d :
  -4 <= current_difficulty_index d ->
  level (update_entry pts b d)
  = Z.max (level d) (1 + (score d + pts) / LEVEL_UP_THRESHOLD).
Proof.
  intros Hi. unfold update_entry.
  pose proof (entry_scored_fields pts b d) as (_ & Hidx & Hsc & Hlv).
  pose proof (difficulty_step_fields pts (entry_scored pts b d))
    as (Hs & _ & Hl & _).
  pose proof (difficulty_step_ok pts (entry_scored pts b d)) as Hok.
  simpl in *. rewrite Hidx in Hok. specialize (Hok Hi).
  destruct (difficulty_step _ _) as [d4 ok]. simpl in *. subst ok. simpl.
  rewrite (proj2 (proj2 (proj2 (proj2 (entry_levelled_fields _))))).
  by rewrite Hs, Hl, Hsc, Hlv.
Qed.

Lemma quizzing_lookup st name d :
  quizzing st name d -> skill_progress st !! name = Some d.
Proof. by intros (_ & _ & _ & _ & ?). Qed.

Lemma sample_app_quizzing : quizzing sample_app "b.pdf" sample_entry.
Proof. repeat split; done. Qed.

(** *** Points and streak *)

(** C1, as the code has it: a Correct grade first increments the streak and
    then computes the bonus from the incremented value, so with streak [s]
    before the grade it awards
    [POINTS_CORRECT + (s + 1) * STREAK_BONUS_MULTIPLIER] and leaves the
    streak at [s + 1]; the points are added to the score and the answer is
    counted. *)
Theorem correct_grade_bonus_uses_incremented_streak st name d text :
  quizzing st name d ->
  status_of text = Correct ->
  points_awarded text st
  = POINTS_CORRECT + (streak d + 1) * STREAK_BONUS_MULTIPLIER
  /\ exists d',
      skill_progress (submit text st) !! name = Some d'
      /\ streak d' = streak d + 1
      /\ score d' = score d + points_awarded text st
      /\ questions_answered d' = questions_answered d + 1.
Proof.
  intros Hq Hc.
  rewrite (points_awarded_quizzing _ _ _ text Hq), Hc. split; [done|].
  destruct (submit_progress _ _ _ text Hq) as (_ & Hq').
  exists (apply_grade (status_of text) d).
  rewrite (quizzing_lookup _ _ _ Hq'), Hc.
  rewrite apply_grade_streak, apply_grade_score, apply_grade_answered. done.
Qed.

(** The end-to-end example: from score 0, streak 0, level 1, four answers,
    difficulty 0, one Correct grade awards 12 points and leaves score 12,
    streak 1, five answers, level 1 (and difficulty 1). *)
Lemma correct_grade_bonus_example :
  quizzing sample_app "b.pdf" sample_entry
  /\ status_of "Status: Correct" = Correct
  /\ points_awarded "Status: Correct" sample_app = 12
  /\ (exists d',
        skill_progress (submit "Status: Correct" sample_app) !! "b.pdf"
        = Some d'
        /\ streak d' = 1 /\ score d' = 12 /\ questions_answered d' = 5)
  /\ skill_progress (submit "Status: Correct" sample_app) !! "b.pdf"
     = Some (mkSkillData 12 1 1 5 1).
Proof.
  assert (Hq : quizzing sample_app "b.pdf" sample_entry)
    by (repeat split; done).
  assert (Hc : status_of "Status: Correct" = Correct) by reflexivity.
  destruct (correct_grade_bonus_uses_incremented_streak
              sample_app "b.pdf" sample_entry "Status: Correct" Hq Hc)
    as (Hp & d' & Hl & Hs & Hsc & Ha).
  split; [exact Hq|]. split; [exact Hc|]. split; [exact Hp|].
  split; [|vm_compute; reflexivity].
  exists d'. rewrite Hp in Hsc. auto.
Defined.

(** C1 as the specification words it fails on its own example: the points
    are 12, not [POINTS_CORRECT + 0 * STREAK_BONUS_MULTIPLIER = 10], and the
    score after the grade is 12, not 10. *)
Lemma bonus_from_old_streak_refuted :
  quizzing sample_app "b.pdf" sample_entry
  /\ status_of "Status: Correct" = Correct
  /\ points_awarded "Status: Correct" sample_app
     <> POINTS_CORRECT + streak sample_entry * STREAK_BONUS_MULTIPLIER
  /\ points_awarded "Status: Correct" sample_app <> 10
  /\ skill_progress (submit "Status: Correct" sample_app) !! "b.pdf"
     = Some (mkSkillData 12 1 1 5 1).
Proof.
  split; [exact sample_app_quizzing|]. split; [reflexivity|].
  split; [by vm_compute|]. split; [by vm_compute|]. by vm_compute.
Qed.

(** C6: a PartiallyCorrect grade awards [POINTS_PARTIAL] and an Incorrect or
    Unclear grade awards nothing, and each of them sets the streak to 0;
    after N Correct grades in a row from streak 0 the streak is N. *)
Theorem streak_resets_and_counts st name d text :
  quizzing st name d ->
  (exists d',
      skill_progress (submit text st) !! name = Some d'
      /\ (status_of text = PartiallyCorrect ->
          points_awarded text st = POINTS_PARTIAL
          /\ score d' = score d + POINTS_PARTIAL /\ streak d' = 0)
      /\ (status_of text = Incorrect \/ status_of text = Unclear ->
          points_awarded text st = 0
          /\ score d' = score d /\ streak d' = 0))
  /\ (forall texts,
        Forall (fun t => status_of t = Correct) texts ->
        streak d = 0 ->
        exists d',
          skill_progress (submit_all texts st) !! name = Some d'
          /\ streak d' = Z.of_nat (List.length texts)).
Proof.
  intros Hq. split.
  - destruct (submit_progress _ _ _ text Hq) as (_ & Hq').
    exists (apply_grade (status_of text) d).
    rewrite (quizzing_lookup _ _ _ Hq').
    rewrite (points_awarded_quizzing _ _ _ text Hq).
    rewrite apply_grade_streak, apply_grade_score.
    split; [done|]. split.
    + intros ->. simpl. done.
    + intros [-> | ->]; simpl; repeat split; lia.
  - intros texts Hall Hs.
    exists (apply_grades texts d).
    rewrite (quizzing_lookup _ _ _ (submit_all_progress texts _ _ _ Hq)).
    split; [done|].
    assert (Hgen : forall d0, streak (apply_grades texts d0)
                              = streak d0 + Z.of_nat (List.length texts)).
    { clear Hs Hq. induction Hall as [|t ts Ht _ IH]; intros d0; simpl; [lia|].
      unfold apply_grades in *. simpl. rewrite IH, apply_grade_streak, Ht. lia. }
    rewrite Hgen. lia.
Qed.

Lemma streak_resets_and_counts_example :
  (exists d',
      skill_progress (submit "Status: Incorrect." sample_app) !! "b.pdf"
      = Some d'
      /\ points_awarded "Status: Incorrect." sample_app = 0
      /\ score d' = 0 /\ streak d' = 0)
  /\ (exists d',
        skill_progress (submit "Status: Partially correct." sample_app)
        !! "b.pdf" = Some d'
        /\ points_awarded "Status: Partially correct." sample_app = 5
        /\ score d' = 5 /\ streak d' = 0)
  /\ (exists d',
        skill_progress
          (submit_all ["Status: Correct"; "status: correct."; "STATUS: CORRECT"]
             sample_app) !! "b.pdf" = Some d'
        /\ streak d' = 3).
Proof.
  assert (Hq : quizzing sample_app "b.pdf" sample_entry)
    by (repeat split; done).
  split; [|split].
  - destruct (streak_resets_and_counts sample_app "b.pdf" sample_entry
                "Status: Incorrect." Hq) as ((d' & Hl & _ & Hi) & _).
    destruct (Hi (or_introl eq_refl)) as (Hp & Hs & Hk).
    exists d'. auto.
  - destruct (streak_resets_and_counts sample_app "b.pdf" sample_entry
                "Status: Partially correct." Hq) as ((d' & Hl & Hpc & _) & _).
    destruct (Hpc eq_refl) as (Hp & Hs & Hk).
    exists d'. auto.
  - destruct (streak_resets_and_counts sample_app "b.pdf" sample_entry
                "" Hq) as (_ & Hn).
    apply (Hn ["Status: Correct"; "status: correct."; "STATUS: CORRECT"]).
    + repeat constructor.
    + reflexivity.
Defined.

(** *** Level *)

Lemma points_for_nonneg o d : 0 <= streak d -> 0 <= points_for o d.
Proof.
  intros Hs. destruct o; simpl;
    unfold POINTS_CORRECT, POINTS_PARTIAL, STREAK_BONUS_MULTIPLIER; lia.
Qed.

Lemma apply_grade_index_range o d :
  current_difficulty_index d <= current_difficulty_index (apply_grade o d)
  /\ (current_difficulty_index d
      <= Z.of_nat (List.length DIFFICULTY_LEVELS) - 1 ->
      current_difficulty_index (apply_grade o d)
      <= Z.of_nat (List.length DIFFICULTY_LEVELS) - 1).
Proof.
  unfold apply_grade. rewrite update_entry_index.
  assert (Hi : current_difficulty_index (entry_after_status o d)
               = current_difficulty_index d) by by destruct o.
  unfold steps_up. rewrite Hi.
  destruct (Z.ltb_spec (current_difficulty_index d)
              (Z.of_nat (List.length DIFFICULTY_LEVELS) - 1));
    rewrite ?andb_false_r, ?andb_true_r; [|lia].
  destruct (_ && _); lia.
Qed.

Lemma apply_grade_level_consistent o d :
  level_consistent d ->
  level_consistent (apply_grade o d) /\ score d <= score (apply_grade o d).
Proof.
  intros (Hs & Hi & Hl).
  pose proof (points_for_nonneg o d Hs) as Hp.
  pose proof (apply_grade_index_range o d) as (Hidx & _).
  pose proof (apply_grade_score o d) as Hsc.
  split; [|lia]. split; [|split; [lia|]].
  - rewrite apply_grade_streak. destruct o; lia.
  - rewrite Hsc. unfold apply_grade. rewrite update_entry_level.
    + assert (He : level (entry_after_status o d) = level d
                   /\ score (entry_after_status o d) = score d)
        by by destruct o.
      destruct He as (-> & ->). rewrite Hl.
      assert (score d / LEVEL_UP_THRESHOLD
              <= (score d + points_for o d) / LEVEL_UP_THRESHOLD).
      { apply Z.div_le_mono; unfold LEVEL_UP_THRESHOLD; lia. }
      lia.
    + assert (He : current_difficulty_index (entry_after_status o d)
                   = current_difficulty_index d) by by destruct o.
      rewrite He. lia.
Qed.

Lemma apply_grades_level_consistent texts : forall d,
  level_consistent d ->
  level_consistent (apply_grades texts d)
  /\ score d <= score (apply_grades texts d).
Proof.
  induction texts as [|t texts IH]; intros d Hd; [split; [done|simpl; lia]|].
  destruct (apply_grade_level_consistent (status_of t) d Hd) as (H1 & H2).
  destruct (IH _ H1) as (H3 & H4).
  split; [exact H3|]. unfold apply_grades in *. simpl. lia.
Qed.

(** Outside the ranges of the data model the equation can be lost: a
    negative streak makes a Correct grade cost points, and with a difficulty
    index below -4 the message about the new difficulty raises [IndexError]
    before the level is recomputed. *)
Example level_equation_lost_negative_streak :
  let d := mkSkillData 50 (-40) 2 0 0 in
  level d = 1 + score d / LEVEL_UP_THRESHOLD
  /\ skill_progress (submit "Status: Correct" (sample_app_with d)) !! "b.pdf"
     = Some (mkSkillData (-18) (-39) 2 1 0).
Proof. split; by vm_compute. Qed.

Example level_equation_lost_negative_index :
  let d := mkSkillData 45 0 1 4 (-10) in
  level d = 1 + score d / LEVEL_UP_THRESHOLD
  /\ skill_progress (submit "Status: Correct" (sample_app_with d)) !! "b.pdf"
     = Some (mkSkillData 57 1 1 5 (-9)).
Proof. split; by vm_compute. Qed.

(** C2: if the entry of the skill being quizzed satisfies
    [level = 1 + score // LEVEL_UP_THRESHOLD] (with streak and difficulty
    index in the non-negative range of the data model), then after any
    sequence of graded answers, whatever their status, the entry satisfies
    the equation again, and its score has not decreased. *)
Theorem level_equation_preserved st name d texts :
  quizzing st name d ->
  0 <= streak d ->
  0 <= current_difficulty_index d ->
  level d = 1 + score d / LEVEL_UP_THRESHOLD ->
  exists d',
    skill_progress (submit_all texts st) !! name = Some d'
    /\ level d' = 1 + score d' / LEVEL_UP_THRESHOLD
    /\ score d <= score d'.
Proof.
  intros Hq Hs Hi Hl.
  exists (apply_grades texts d).
  rewrite (quizzing_lookup _ _ _ (submit_all_progress texts _ _ _ Hq)).
  destruct (apply_grades_level_consistent texts d) as ((_ & _ & H1) & H2);
    [by repeat split|done].
Qed.

Lemma level_equation_preserved_example :
  exists d',
    skill_progress
      (submit_all ["Status: Correct"; "no status"; "STATUS: CORRECT";
                   "Status: Correct"; "Status: Partially Correct"] sample_app)
    !! "b.pdf" = Some d'
    /\ level d' = 1 + score d' / LEVEL_UP_THRESHOLD
    /\ score sample_entry <= score d'.
Proof.
  apply (level_equation_preserved sample_app "b.pdf" sample_entry).
  - repeat split; done.
  - simpl. lia.
  - simpl. lia.
  - reflexivity.
Defined.

(** *** Difficulty *)

(** C5: on a graded answer the difficulty index goes up by exactly 1 if and
    only if the number of answered questions, after counting this one, is a
    positive multiple of [QUESTIONS_PER_LEVEL_UP], points were earned, and
    the index is below the last difficulty level; otherwise it stays.  Over
    any sequence of graded answers the index never goes down, and it never
    exceeds the last level if it did not before. *)
Theorem difficulty_steps_by_one st name d text :
  quizzing st name d ->
  (exists d',
      skill_progress (submit text st) !! name = Some d'
      /\ questions_answered d' = questions_answered d + 1
      /\ (current_difficulty_index d' = current_difficulty_index d + 1 <->
          0 < questions_answered d'
          /\ questions_answered d' mod QUESTIONS_PER_LEVEL_UP = 0
          /\ 0 < points_awarded text st
          /\ current_difficulty_index d
             < Z.of_nat (List.length DIFFICULTY_LEVELS) - 1)
      /\ (current_difficulty_index d' = current_difficulty_index d
          \/ current_difficulty_index d' = current_difficulty_index d + 1))
  /\ (forall texts, exists d',
        skill_progress (submit_all texts st) !! name = Some d'
        /\ current_difficulty_index d <= current_difficulty_index d'
        /\ (current_difficulty_index d
            <= Z.of_nat (List.length DIFFICULTY_LEVELS) - 1 ->
            current_difficulty_index d'
            <= Z.of_nat (List.length DIFFICULTY_LEVELS) - 1)).
Proof.
  intros Hq. split.
  - destruct (submit_progress _ _ _ text Hq) as (_ & Hq').
    exists (apply_grade (status_of text) d).
    rewrite (quizzing_lookup _ _ _ Hq').
    rewrite (points_awarded_quizzing _ _ _ text Hq).
    rewrite apply_grade_answered. split; [done|]. split; [done|].
    unfold apply_grade. rewrite update_entry_index.
    set (o := status_of text).
    assert (He : current_difficulty_index (entry_after_status o d)
                 = current_difficulty_index d
                 /\ questions_answered (entry_after_status o d)
                    = questions_answered d) by by destruct o.
    destruct He as (Hi & Ha). unfold steps_up. rewrite Hi, Ha.
    destruct (Z.ltb_spec 0 (questions_answered d + 1));
      destruct (Z.eqb_spec ((questions_answered d + 1)
                            mod QUESTIONS_PER_LEVEL_UP) 0);
      destruct (Z.ltb_spec 0 (points_for o d));
      destruct (Z.ltb_spec (current_difficulty_index d)
                  (Z.of_nat (List.length DIFFICULTY_LEVELS) - 1));
      simpl; (split; [|first [left; reflexivity | right; reflexivity]]);
      unfold QUESTIONS_PER_LEVEL_UP in *; simpl in *; intuition lia.
  - intros texts. exists (apply_grades texts d).
    rewrite (quizzing_lookup _ _ _ (submit_all_progress texts _ _ _ Hq)).
    split; [done|]. clear Hq. revert d.
    induction texts as [|t texts IH]; intros d; [simpl; lia|].
    pose proof (apply_grade_index_range (status_of t) d) as (H1 & H2).
    destruct (IH (apply_grade (status_of t) d)) as (H3 & H4).
    unfold apply_grades in *. simpl. split; [lia|]. auto.
Qed.

Lemma difficulty_steps_by_one_example :
  (exists d',
      skill_progress (submit "Status: Correct" sample_app) !! "b.pdf" = Some d'
      /\ questions_answered d' = 5 /\ current_difficulty_index d' = 1)
  /\ (exists d',
        skill_progress (submit "Status: Incorrect" sample_app) !! "b.pdf"
        = Some d'
        /\ questions_answered d' = 5 /\ current_difficulty_index d' = 0).
Proof.
  assert (Hq : quizzing sample_app "b.pdf" sample_entry)
    by (repeat split; done).
  split.
  - destruct (difficulty_steps_by_one sample_app "b.pdf" sample_entry
                "Status: Correct" Hq) as ((d' & Hl & Ha & Hiff & _) & _).
    exists d'. split; [exact Hl|]. split; [exact Ha|].
    apply Hiff. rewrite Ha. repeat split; try done.
  - destruct (difficulty_steps_by_one sample_app "b.pdf" sample_entry
                "Status: Incorrect" Hq) as ((d' & Hl & Ha & Hiff & Hor) & _).
    exists d'. split; [exact Hl|]. split; [exact Ha|].
    destruct Hor as [H|H]; [exact H|].
    apply Hiff in H as (_ & _ & Hpts & _). done.
Defined.

(** ** Combined review and the configuration file *)

Lemma reviewing_all_mode st :
  reviewing_all st -> is_all_materials_mode st = true.
Proof.
  unfold reviewing_all, is_all_materials_mode. by intros ->.
Qed.

Lemma save_config_lines st key value :
  (key, value) ∈ save_config st <->
  key <> ALL_MATERIALS_SKILL_NAME
  /\ exists d, skill_progress st !! key = Some d /\ value = progress_line d.
Proof.
  unfold save_config. rewrite list_elem_of_omap. split.
  - intros ([k d] & Hin & Hf). apply elem_of_map_to_list in Hin.
    destruct (String.eqb_spec k ALL_MATERIALS_SKILL_NAME); simpl in Hf; [done|].
    simplify_eq. eauto.
  - intros (Hne & d & Hd & ->). exists (key, d).
    split; [by apply elem_of_map_to_list|].
    destruct (String.eqb_spec key ALL_MATERIALS_SKILL_NAME); done.
Qed.

(** C7: grading an answer in combined review changes no entry of
    [skill_progress] (nor the total score, nor what was saved), and
    [save_config] never writes a Progress line under the name of the
    combined review: its lines are those of the other entries. *)
Theorem combined_review_keeps_progress st text :
  reviewing_all st ->
  (forall name,
      skill_progress (submit text st) !! name = skill_progress st !! name)
  /\ total_score (submit text st) = total_score st
  /\ config_progress (submit text st) = config_progress st
  /\ (forall st' key value,
        (key, value) ∈ save_config st' -> key <> ALL_MATERIALS_SKILL_NAME).
Proof.
  intros Hr. pose proof (reviewing_all_mode _ Hr) as Hm.
  assert (Hsub : skill_progress (submit text st) = skill_progress st
                 /\ total_score (submit text st) = total_score st
                 /\ config_progress (submit text st) = config_progress st).
  { unfold submit, _handle_ai_result.
    destruct (worker_is_running st); simpl; [|done].
    change (is_all_materials_mode (set_level_up_occurred false st))
      with (is_all_materials_mode st).
    rewrite Hm. simpl.
    set (st0 := set_level_up_occurred false st).
    assert (Hg : graded_app (grade_answer (Py.lower text) st0) = st0).
    { unfold grade_answer. destruct (grade_outcome _); simpl; try done.
      change (is_all_materials_mode st0) with (is_all_materials_mode st).
      by rewrite Hm. }
    rewrite Hg.
    destruct (display_feedback_frame text
                (feedback_type (grade_answer (Py.lower text) st0)) st0)
      as (_ & _ & -> & -> & -> & _).
    done. }
  destruct Hsub as (Hs & Ht & Hc).
  split; [by intros; rewrite Hs|]. split; [done|]. split; [done|].
  intros st' key value Hin. by apply save_config_lines in Hin as (? & _).
Qed.

Lemma combined_review_keeps_progress_example :
  (forall name,
      skill_progress (submit "Status: Correct" sample_review) !! name
      = skill_progress sample_review !! name)
  /\ total_score (submit "Status: Correct" sample_review)
     = total_score sample_review
  /\ config_progress (submit "Status: Correct" sample_review)
     = config_progress sample_review
  /\ (forall st' key value,
        (key, value) ∈ save_config st' -> key <> ALL_MATERIALS_SKILL_NAME).
Proof.
  apply (combined_review_keeps_progress sample_review "Status: Correct").
  reflexivity.
Defined.

(** ** Errors *)

(** C9: handling the error of a failed task, a [submit_answer] task in
    particular, changes no entry of [skill_progress]: every skill has the
    same score, streak, level, number of answered questions and difficulty
    index as before; the total score and the saved configuration are the
    same as well. *)
Theorem error_keeps_progress st task_identifier error_message :
  let st' := deliver (error_occurred task_identifier error_message) st in
  (forall name, skill_progress st' !! name = skill_progress st !! name)
  /\ total_score st' = total_score st
  /\ config_progress st' = config_progress st.
Proof.
  simpl. unfold _handle_ai_error.
  destruct (worker_is_AIWorker st); simpl; [|done].
  match goal with |- context [display_feedback ?t ?f st] =>
    destruct (display_feedback_frame t f st) as (_ & _ & Hs & Ht & Hc & _) end.
  repeat case_match; simpl; rewrite ?Hs, ?Ht, ?Hc; done.
Qed.

(** ** Status extraction *)

Lemma lower_app a b : Py.lower (a +:+ b) = Py.lower a +:+ Py.lower b.
Proof. induction a as [|c a IH]; simpl; [done|]. by rewrite IH. Qed.

Lemma startswith_app p rest : Py.startswith (p +:+ rest) p = true.
Proof.
  induction p as [|c p IH]; simpl; [by destruct rest|].
  by rewrite Ascii.eqb_refl.
Qed.

Lemma leads_with_startswith text phrase :
  leads_with text phrase <-> Py.startswith (Py.lower text) phrase = true.
Proof.
  split.
  - intros (pre & rest & -> & <-). rewrite lower_app. apply startswith_app.
  - revert text. induction phrase as [|a p IH]; intros text H.
    + by exists "", text.
    + destruct text as [|b t]; simpl in H; [done|].
      destruct (Ascii.eqb_spec a (Py.lower_char b)) as [->|]; [|done].
      destruct (IH _ H) as (pre & rest & -> & <-).
      by exists (String b pre), rest.
Qed.

(** Two phrases that both lead a text are comparable as prefixes. *)
Lemma startswith_comparable s : forall p q,
  Py.startswith s p = true -> Py.startswith s q = true ->
  Py.startswith p q = true \/ Py.startswith q p = true.
Proof.
  induction s as [|c s IH]; intros [|a p] [|b q] Hp Hq; simpl in *; auto;
    try done.
  destruct (Ascii.eqb_spec a c) as [->|]; [|done].
  destruct (Ascii.eqb_spec b c) as [->|]; [|done].
  rewrite Ascii.eqb_refl. auto.
Qed.

Lemma startswith_exclusive s p q :
  Py.startswith p q = false -> Py.startswith q p = false ->
  Py.startswith s p = true -> Py.startswith s q = false.
Proof.
  intros H1 H2 Hp. destruct (Py.startswith s q) eqn:Hq; [|done].
  destruct (startswith_comparable s p q Hp Hq); congruence.
Qed.

(** C3: the status of a response is decided by its leading text, compared
    without regard to case with "status: correct", "status: partially
    correct" and "status: incorrect" in this order; the first that matches
    wins (no text matches two of them) and a text that matches none is
    Unclear.  The three responses of the specification are classified as it
    says. *)
Theorem status_extraction text :
  (status_of text = Correct <-> leads_with text "status: correct")
  /\ (status_of text = PartiallyCorrect <->
      leads_with text "status: partially correct")
  /\ (status_of text = Incorrect <-> leads_with text "status: incorrect")
  /\ (status_of text = Unclear <->
      ~ leads_with text "status: correct"
      /\ ~ leads_with text "status: partially correct"
      /\ ~ leads_with text "status: incorrect")
  /\ status_of "Status: Correct. Reference: [1]:[4]" = Correct
  /\ status_of "status: partially correct, see notes" = PartiallyCorrect
  /\ status_of "I think it's fine" = Unclear.
Proof.
  rewrite !leads_with_startswith. unfold status_of, grade_outcome.
  set (s := Py.lower text).
  destruct (Py.startswith s "status: correct") eqn:H1.
  - rewrite (startswith_exclusive s "status: correct"
               "status: partially correct") by done.
    rewrite (startswith_exclusive s "status: correct" "status: incorrect")
      by done.
    repeat split; try done. by intros (? & _).
  - destruct (Py.startswith s "status: partially correct") eqn:H2.
    + rewrite (startswith_exclusive s "status: partially correct"
                 "status: incorrect") by done.
      repeat split; try done. by intros (_ & ? & _).
    + destruct (Py.startswith s "status: incorrect") eqn:H3;
        repeat split; try done. by intros (_ & _ & ?).
Qed.

(** ** The reference of a response *)

Lemma index_Some l x i :
  Py.index l x = Some i <->
  l !! i = Some x /\ forall j, (j < i)%nat -> l !! j <> Some x.
Proof.
  revert i. induction l as [|y l IH]; intros i; simpl.
  - split; [done|]. by intros (? & _).
  - destruct (String.eqb_spec y x) as [->|Hne].
    + split.
      * intros [= <-]. split; [done|]. intros j Hj. lia.
      * intros (Hi & Hfirst). destruct i as [|i]; [done|].
        by destruct (Hfirst O ltac:(lia)).
    + rewrite fmap_Some. setoid_rewrite IH. split.
      * intros (k & (Hk & Hfirst) & ->). split; [done|].
        intros [|j] Hj; simpl; [congruence|]. apply Hfirst. lia.
      * intros (Hi & Hfirst). destruct i as [|i]; simpl in Hi; [congruence|].
        exists i. split; [|done]. split; [done|].
        intros j Hj. apply (Hfirst (S j)). lia.
Qed.

Lemma index_None l x : Py.index l x = None <-> x ∉ l.
Proof.
  induction l as [|y l IH]; simpl.
  - split; [intros _; apply not_elem_of_nil|done].
  - rewrite not_elem_of_cons.
    destruct (String.eqb_spec y x) as [->|Hne]; [split; [done|tauto]|].
    destruct (Py.index l x); simpl.
    + split; [done|]. intros (_ & H). by apply IH in H.
    + split; [|done]. intros _. split; [done|]. by apply IH.
Qed.

(** The reference and the button that [display_feedback] leaves, by what the
    text holds. *)
Lemma display_feedback_reference text ft st :
  let st' := display_feedback text ft st in
  let count := Z.of_nat (List.length (pdf_file_paths st)) in
  match parse_reference text with
  | Some (ai, pg) =>
      if (0 <=? actual_doc_index ai st) && (actual_doc_index ai st <? count)
      then current_reference st' = Some (mkReference (actual_doc_index ai st) pg)
           /\ view_reference_button (quiz_widget st') = true
      else current_reference st' = None
           /\ view_reference_button (quiz_widget st') = false
  | None =>
      current_reference st' = None
      /\ view_reference_button (quiz_widget st') = false
  end.
Proof.
  unfold display_feedback.
  destruct (parse_reference text) as [[ai pg]|]; simpl; [|done].
  change (actual_doc_index ai (set_quiz_widget _ _))
    with (actual_doc_index ai st).
  by destruct (_ && _).
Qed.

(** C4: in combined review the index the response gives is the document
    index, unchanged; when one skill is quizzed the index the response gives
    is ignored and the document index is the first position of the skill's
    name in the list of documents.  Either way the reference is kept only if
    that index is within [0, documentCount - 1]; otherwise no reference is in
    effect. *)
Theorem reference_index_remap st text ft ai pg :
  parse_reference text = Some (ai, pg) ->
  let st' := display_feedback text ft st in
  let count := Z.of_nat (List.length (pdf_file_paths st)) in
  (reviewing_all st ->
     (0 <= ai <= count - 1 ->
      current_reference st' = Some (mkReference ai pg))
     /\ (~ 0 <= ai <= count - 1 -> current_reference st' = None))
  /\ (forall name,
        current_skill_name st = Some name ->
        name <> ALL_MATERIALS_SKILL_NAME ->
        (forall i,
            pdf_file_basenames st !! i = Some name ->
            (forall j, (j < i)%nat -> pdf_file_basenames st !! j <> Some name) ->
            (Z.of_nat i <= count - 1 ->
             current_reference st' = Some (mkReference (Z.of_nat i) pg))
            /\ (~ Z.of_nat i <= count - 1 -> current_reference st' = None))
        /\ (name ∉ pdf_file_basenames st -> current_reference st' = None)).
Proof.
  intros Hp st' count.
  pose proof (display_feedback_reference text ft st) as H.
  simpl in H. rewrite Hp in H. fold st' count in H.
  split.
  - intros Hr. unfold actual_doc_index in H.
    rewrite (reviewing_all_mode _ Hr) in H.
    destruct (Z.leb_spec 0 ai), (Z.ltb_spec ai count); simpl in H;
      destruct H as (H & _); split; intros; try done; lia.
  - intros name Hn Hne. unfold actual_doc_index in H.
    assert (Hm : is_all_materials_mode st = false).
    { unfold is_all_materials_mode. rewrite Hn.
      by destruct (String.eqb_spec name ALL_MATERIALS_SKILL_NAME). }
    rewrite Hm, Hn in H. split.
    + intros i Hi Hfirst.
      rewrite (proj2 (index_Some _ _ _) (conj Hi Hfirst)) in H.
      destruct (Z.leb_spec 0 (Z.of_nat i)), (Z.ltb_spec (Z.of_nat i) count);
        simpl in H; destruct H as (H & _); split; intros; try done; lia.
    + intros Hnot. rewrite (proj2 (index_None _ _) Hnot) in H.
      simpl in H. by destruct H.
Qed.

(** With three documents: in combined review [2]:[7] is kept as document 2,
    page 7, and [5]:[1] is discarded; while "b.pdf" is quizzed, [0]:[3] is
    document 1, page 3. *)
Lemma reference_index_remap_example :
  current_reference
    (display_feedback "Status: Correct. Reference: [2]:[7]" "correct"
       sample_review)
  = Some (mkReference 2 7)
  /\ current_reference
       (display_feedback "Reference: [5]:[1]" "default" sample_review)
     = None
  /\ current_reference
       (display_feedback "Hint: see Reference: [0]:[3]" "default" sample_app)
     = Some (mkReference 1 3).
Proof.
  split; [|split].
  - assert (Hp : parse_reference "Status: Correct. Reference: [2]:[7]"
                 = Some (2, 7)) by (vm_compute; reflexivity).
    destruct (reference_index_remap sample_review _ "correct" 2 7 Hp)
      as (Hr & _).
    destruct (Hr eq_refl) as (Hin & _). apply Hin. simpl. lia.
  - assert (Hp : parse_reference "Reference: [5]:[1]" = Some (5, 1))
      by (vm_compute; reflexivity).
    destruct (reference_index_remap sample_review _ "default" 5 1 Hp)
      as (Hr & _).
    destruct (Hr eq_refl) as (_ & Hout). apply Hout. simpl. lia.
  - assert (Hp : parse_reference "Hint: see Reference: [0]:[3]" = Some (0, 3))
      by (vm_compute; reflexivity).
    destruct (reference_index_remap sample_app _ "default" 0 3 Hp)
      as (_ & Hs).
    destruct (Hs "b.pdf" eq_refl ltac:(done)) as (Hpos & _).
    destruct (Hpos 1%nat eq_refl) as (Hin & _).
    + intros [|j] Hj; [done|lia].
    + apply Hin. simpl. lia.
Defined.

(** C10: [display_feedback] starts from no reference and a disabled button
    whatever they were before, so its result does not depend on them; when
    it returns, the button is enabled exactly when a reference is stored,
    and a stored reference has its document index within
    [0, documentCount - 1].  With a text that holds no reference, or one
    whose index is out of range, no reference is stored, also when one was
    stored before. *)
Theorem reference_reset_and_button st text ft :
  let st' := display_feedback text ft st in
  let count := Z.of_nat (List.length (pdf_file_paths st')) in
  (forall r b,
      display_feedback text ft
        (set_current_reference r
           (set_quiz_widget
              (set_reference_button_enabled b (quiz_widget st)) st))
      = st')
  /\ ((exists d p,
          current_reference st' = Some (mkReference d p)
          /\ 0 <= d <= count - 1)
      <-> view_reference_button (quiz_widget st') = true)
  /\ (current_reference st' = None
      <-> view_reference_button (quiz_widget st') = false)
  /\ (parse_reference text = None -> current_reference st' = None)
  /\ (forall ai pg,
        parse_reference text = Some (ai, pg) ->
        ~ 0 <= actual_doc_index ai st <= count - 1 ->
        current_reference st' = None).
Proof.
  intros st' count.
  assert (Hcount : count = Z.of_nat (List.length (pdf_file_paths st))).
  { unfold count, st'.
    by destruct (display_feedback_frame text ft st)
      as (_ & _ & _ & _ & _ & -> & _). }
  pose proof (display_feedback_reference text ft st) as H.
  simpl in H. fold st' in H. rewrite <- Hcount in H.
  split; [done|].
  destruct (parse_reference text) as [[ai pg]|].
  - destruct (Z.leb_spec 0 (actual_doc_index ai st)),
      (Z.ltb_spec (actual_doc_index ai st) count);
      simpl in H; destruct H as (Hr & Hb); rewrite Hr, Hb.
    + split; [|split; [done|]].
      * split; [done|]. intros _. eexists _, _. split; [done|]. lia.
      * split; [done|]. intros ai' pg' [= <- <-] Hn. lia.
    + repeat split; try done. by intros (? & ? & ? & _).
    + repeat split; try done. by intros (? & ? & ? & _).
    + repeat split; try done. by intros (? & ? & ? & _).
  - destruct H as (Hr & Hb). rewrite Hr, Hb.
    repeat split; try done. by intros (? & ? & ? & _).
Qed.

(** *** The matcher on the reference pattern *)

Lemma run_chr_cat a r s c :
  run (Chr a +++ r) s c
  = match s with
    | x :: s' => if Ascii.eqb a x then run r s' c else []
    | [] => []
    end.
Proof.
  simpl. destruct s as [|x s']; simpl; [done|].
  destruct (Ascii.eqb a x); simpl; [|done]. apply app_nil_r.
Qed.

Lemma run_cat_assoc r1 r2 r3 s c :
  run ((r1 +++ r2) +++ r3) s c = run (r1 +++ r2 +++ r3) s c.
Proof.
  simpl. generalize (run r1 s c) as l.
  induction l as [|t l IH]; [done|].
  by rewrite !bind_cons, bind_app, IH.
Qed.

Lemma run_lit_cat p r s c :
  run (lit p +++ r) s c
  = match strip_prefix (list_ascii_of_string p) s with
    | Some s' => run r s' c
    | None => []
    end.
Proof.
  revert s. induction p as [|a p IH]; intros s.
  - simpl. rewrite app_nil_r. by destruct s.
  - change (lit (String a p)) with (Chr a +++ lit p).
    rewrite run_cat_assoc, run_chr_cat. simpl.
    destruct s as [|x s']; [done|]. destruct (Ascii.eqb a x); [|done].
    apply IH.
Qed.

Lemma iterate_cls_bind p (k : thread -> list thread) :
  (forall x s c, p x = true -> k (x :: s, c) = []) ->
  forall s fuel c,
    (List.length s <= fuel)%nat ->
    iterate (step_char p) fuel s c ≫= k = k (drop_while p s, c).
Proof.
  intros Hk. induction s as [|x s IH]; intros fuel c Hf.
  - destruct fuel; simpl; apply app_nil_r.
  - destruct fuel as [|fuel]; simpl in Hf; [lia|]. simpl.
    destruct (p x) eqn:Hp; simpl.
    + assert (Hlt : (List.length s <? S (List.length s))%nat = true)
        by (apply Nat.ltb_lt; lia).
      rewrite Hlt, app_nil_r, bind_app. simpl.
      rewrite (Hk _ _ _ Hp), !app_nil_r. apply IH. lia.
    + apply app_nil_r.
Qed.

Lemma iterate_cls_head p s : forall fuel c,
  (List.length s <= fuel)%nat ->
  exists tl, iterate (step_char p) fuel s c = (drop_while p s, c) :: tl.
Proof.
  induction s as [|x s IH]; intros fuel c Hf.
  - destruct fuel; simpl; eauto.
  - destruct fuel as [|fuel]; simpl in Hf; [lia|]. simpl.
    destruct (p x) eqn:Hp; simpl; [|eauto].
    assert (Hlt : (List.length s <? S (List.length s))%nat = true)
      by (apply Nat.ltb_lt; lia).
    rewrite Hlt, app_nil_r.
    destruct (IH fuel c ltac:(lia)) as (tl & ->). simpl. eauto.
Qed.

Lemma run_star_cls_cat p r s c :
  fails_on p r ->
  run (Star (Cls p) +++ r) s c = run r (drop_while p s) c.
Proof.
  intros Hr. simpl.
  apply (iterate_cls_bind p (fun t => run r t.1 t.2)); [|done].
  intros x s' c' Hp. by apply Hr.
Qed.

Lemma run_opt_chr_cat a r s c :
  fails_on (Ascii.eqb a) r ->
  run (Opt (Chr a) +++ r) s c = run r (strip_opt a s) c.
Proof.
  intros Hr. simpl. destruct s as [|x s']; simpl; [apply app_nil_r|].
  destruct (Ascii.eqb a x) eqn:Hx; simpl.
  - rewrite (Hr _ _ _ Hx). by rewrite !app_nil_r.
  - apply app_nil_r.
Qed.

Lemma take_drop_while p s : take_while p s ++ drop_while p s = s.
Proof.
  induction s as [|x s IH]; simpl; [done|].
  destruct (p x); simpl; [by rewrite IH|done].
Qed.

Lemma take_while_length p s :
  take (List.length s - List.length (drop_while p s)) s = take_while p s.
Proof.
  rewrite <- (take_drop_while p s) at 1 3.
  rewrite length_app.
  replace (List.length (take_while p s) + List.length (drop_while p s)
           - List.length (drop_while p s))%nat
    with (List.length (take_while p s)) by lia.
  by rewrite take_app_length.
Qed.

Lemma run_group_plus_cat n p r s c :
  fails_on p r ->
  run (Group n (Plus (Cls p)) +++ r) s c
  = match take_while p s with
    | [] => []
    | w => run r (drop_while p s) (<[n := w]> c)
    end.
Proof.
  intros Hr. simpl. rewrite list_fmap_bind.
  destruct s as [|x s']; simpl; [done|].
  pose proof (take_while_length p (x :: s')) as Htake. simpl in Htake.
  destruct (p x) eqn:Hp; simpl; [|done].
  rewrite app_nil_r, iterate_cls_bind; [|intros y s0 c0 Hy; by apply Hr|done].
  simpl. by rewrite Htake.
Qed.

Lemma run_opt_chr_head a s c :
  head (run (Opt (Chr a)) s c) = Some (strip_opt a s, c).
Proof.
  simpl. destruct s as [|x s']; simpl; [done|]. by destruct (Ascii.eqb a x).
Qed.

Lemma run_group_plus_opt_head n p a s c :
  head (run (Group n (Plus (Cls p)) +++ Opt (Chr a)) s c)
  = match take_while p s with
    | [] => None
    | w => Some (strip_opt a (drop_while p s), <[n := w]> c)
    end.
Proof.
  pose proof (run_opt_chr_head a) as Hopt.
  simpl in *. rewrite list_fmap_bind.
  destruct s as [|x s']; simpl; [done|].
  pose proof (take_while_length p (x :: s')) as Htake. simpl in Htake.
  destruct (p x) eqn:Hp; simpl; [|done].
  rewrite app_nil_r.
  change (iterate _ (List.length s') s' c)
    with (iterate (step_char p) (List.length s') s' c).
  destruct (iterate_cls_head p s' (List.length s') c) as (tl & ->); [done|].
  rewrite bind_cons, head_app. simpl.
  rewrite Hopt. by rewrite Htake.
Qed.

(** The characters the pattern tells apart. *)
Lemma isspace_not_digit x : Py.isspace x = true -> Py.isdigit x = false.
Proof. destruct x as [[] [] [] [] [] [] [] []]; by vm_compute. Qed.

Lemma isspace_not_bracket x : Py.isspace x = true -> Ascii.eqb "[" x = false.
Proof. destruct x as [[] [] [] [] [] [] [] []]; by vm_compute. Qed.

Lemma isdigit_not_punct x :
  Py.isdigit x = true ->
  Ascii.eqb "[" x = false /\ Ascii.eqb "]" x = false /\ Ascii.eqb ":" x = false.
Proof. destruct x as [[] [] [] [] [] [] [] []]; by vm_compute. Qed.

Lemma fails_on_chr_cat P a r :
  (forall x, P x = true -> Ascii.eqb a x = false) ->
  fails_on P (Chr a +++ r).
Proof.
  intros H x s c Hx. rewrite run_chr_cat. by rewrite (H _ Hx).
Qed.

Lemma fails_on_group_plus_cat P n p r :
  (forall x, P x = true -> p x = false) ->
  fails_on P (Group n (Plus (Cls p)) +++ r).
Proof.
  intros H x s c Hx. simpl. by rewrite (H _ Hx).
Qed.

Lemma fails_on_opt_chr_cat P a r :
  (forall x, P x = true -> Ascii.eqb a x = false) ->
  fails_on P r ->
  fails_on P (Opt (Chr a) +++ r).
Proof.
  intros H Hr x s c Hx. simpl. rewrite (H _ Hx). simpl.
  rewrite (Hr _ _ _ Hx). done.
Qed.

Lemma eqb_true_eq a x : Ascii.eqb a x = true -> x = a.
Proof. by intros ?%Ascii.eqb_eq. Qed.

(** What the matcher finds at the start of [s] is what [scan] reads. *)
Lemma run_reference_head s :
  snd <$> head (run REFERENCE_REGEX s ∅)
  = (fun n : list ascii * list ascii =>
       <[2%nat := n.2]> (<[1%nat := n.1]> (∅ : captures))) <$> scan s.
Proof.
  unfold REFERENCE_REGEX, scan.
  rewrite run_lit_cat. destruct (strip_prefix _ s) as [s1|]; [|done].
  rewrite run_star_cls_cat.
  2: { apply fails_on_opt_chr_cat; [apply isspace_not_bracket|].
       apply fails_on_group_plus_cat, isspace_not_digit. }
  rewrite run_opt_chr_cat.
  2: { apply fails_on_group_plus_cat. by intros x ->%eqb_true_eq. }
  rewrite run_group_plus_cat.
  2: { apply fails_on_opt_chr_cat; [by intros x (_ & ? & _)%isdigit_not_punct|].
       apply fails_on_chr_cat. by intros x (_ & _ & ?)%isdigit_not_punct. }
  destruct (take_while Py.isdigit _) as [|d1 n1]; [done|].
  rewrite run_opt_chr_cat.
  2: { apply fails_on_chr_cat. by intros x ->%eqb_true_eq. }
  rewrite run_chr_cat.
  destruct (strip_opt "]" _) as [|x s5]; [done|].
  destruct (Ascii.eqb ":" x); [|done].
  rewrite run_opt_chr_cat.
  2: { apply fails_on_group_plus_cat. by intros y ->%eqb_true_eq. }
  rewrite run_group_plus_opt_head.
  by destruct (take_while Py.isdigit _).
Qed.

(** *** [scan] and the written-out tag *)

Lemma strip_prefix_Some p s s' :
  strip_prefix p s = Some s' <-> s = p ++ s'.
Proof.
  revert s. induction p as [|a p IH]; intros s; simpl.
  - destruct s; split; congruence.
  - destruct s as [|b s]; [done|].
    destruct (Ascii.eqb_spec a b) as [->|Hne].
    + rewrite IH. split; congruence.
    + split; [done|]. congruence.
Qed.

Lemma take_while_Forall p s : Forall (fun c => p c = true) (take_while p s).
Proof.
  induction s as [|x s IH]; simpl; [done|].
  destruct (p x) eqn:Hp; [by constructor|done].
Qed.

Lemma drop_while_next p s : next_not p (drop_while p s).
Proof.
  induction s as [|x s IH]; simpl; [done|]. by destruct (p x) eqn:Hp.
Qed.

Lemma take_while_app p w x :
  Forall (fun c => p c = true) w -> next_not p x ->
  take_while p (w ++ x) = w.
Proof.
  intros Hw Hx. induction Hw as [|c w Hc _ IH]; simpl.
  - destruct x as [|c x]; simpl in *; [done|]. by rewrite Hx.
  - by rewrite Hc, IH.
Qed.

Lemma drop_while_app p w x :
  Forall (fun c => p c = true) w -> next_not p x ->
  drop_while p (w ++ x) = x.
Proof.
  intros Hw Hx. induction Hw as [|c w Hc _ IH]; simpl.
  - destruct x as [|c x]; simpl in *; [done|]. by rewrite Hx.
  - by rewrite Hc, IH.
Qed.

Lemma strip_opt_optional a s :
  exists o, optional a o /\ s = o ++ strip_opt a s.
Proof.
  destruct s as [|x s]; simpl; [exists []; split; [by left|done]|].
  destruct (Ascii.eqb_spec a x) as [->|].
  - exists [x]. split; [by right|done].
  - exists []. split; [by left|done].
Qed.

Lemma strip_opt_app a o x :
  optional a o -> next_not (Ascii.eqb a) x -> strip_opt a (o ++ x) = x.
Proof.
  intros [-> | ->] Hx; simpl.
  - destruct x as [|c x]; simpl in *; [done|]. by rewrite Hx.
  - by rewrite Ascii.eqb_refl.
Qed.

Lemma isdigit_not_space x : Py.isdigit x = true -> Py.isspace x = false.
Proof. destruct x as [[] [] [] [] [] [] [] []]; by vm_compute. Qed.

Lemma scan_tag s n1 n2 :
  scan s = Some (n1, n2) <-> reference_tag_at s 0 n1 n2.
Proof.
  split.
  - unfold scan. intros H.
    destruct (strip_prefix _ s) as [s1|] eqn:H1; [|done].
    apply strip_prefix_Some in H1 as ->.
    destruct (strip_opt_optional "[" (drop_while Py.isspace s1))
      as (o1 & Ho1 & E1).
    set (s3 := strip_opt "[" (drop_while Py.isspace s1)) in *.
    destruct (take_while Py.isdigit s3) as [|d1 m1] eqn:Hn1; [done|].
    destruct (strip_opt_optional "]" (drop_while Py.isdigit s3))
      as (c1 & Hc1 & E2).
    destruct (strip_opt "]" (drop_while Py.isdigit s3)) as [|x s5]; [done|].
    destruct (Ascii.eqb_spec ":" x) as [<-|]; [|done].
    destruct (strip_opt_optional "[" s5) as (o2 & Ho2 & E3).
    set (s6 := strip_opt "[" s5) in *.
    destruct (take_while Py.isdigit s6) as [|d2 m2] eqn:Hn2; [done|].
    injection H as <- <-.
    exists [], (take_while Py.isspace s1), o1, c1, o2, [],
      (drop_while Py.isdigit s6).
    split.
    { rewrite <- Hn1, <- Hn2, !app_nil_l, take_drop_while, <- E3.
      change ([":"%char] ++ s5) with (":"%char :: s5).
      by rewrite <- E2, take_drop_while, <- E1, take_drop_while. }
    split; [done|]. split; [apply take_while_Forall|].
    split; [done|]. split.
    { split; [done|]. rewrite <- Hn1. apply take_while_Forall. }
    split; [done|]. split; [done|]. split.
    { split; [done|]. rewrite <- Hn2. apply take_while_Forall. }
    split; [by left|]. apply drop_while_next.
  - intros (pre & ws & o1 & c1 & o2 & c2 & rest & -> & Hpre & Hws & Ho1
            & (Hne1 & Hd1) & Hc1 & Ho2 & (Hne2 & Hd2) & Hc2 & Hnext).
    destruct pre; [|done]. rewrite app_nil_l. unfold scan.
    assert (Hsp : forall p x, strip_prefix p (p ++ x) = Some x)
      by (intros; by apply strip_prefix_Some).
    rewrite Hsp.
    destruct n1 as [|d1 m1]; [done|]. destruct n2 as [|d2 m2]; [done|].
    pose proof (Forall_inv Hd1) as Hd1'. pose proof (Forall_inv Hd2) as Hd2'.
    pose proof (isdigit_not_punct _ Hd1') as (Hb1 & _).
    pose proof (isdigit_not_punct _ Hd2') as (Hb2 & _).
    assert (Hn1 : next_not Py.isspace
                    (o1 ++ (d1 :: m1) ++ c1 ++ [":"%char] ++ o2
                     ++ (d2 :: m2) ++ c2 ++ rest)).
    { destruct Ho1 as [-> | ->]; simpl; [by apply isdigit_not_space|done]. }
    assert (Hn2 : next_not Py.isdigit
                    (c1 ++ [":"%char] ++ o2 ++ (d2 :: m2) ++ c2 ++ rest)).
    { destruct Hc1 as [-> | ->]; done. }
    rewrite (drop_while_app _ _ _ Hws Hn1).
    rewrite (strip_opt_app _ _ ((d1 :: m1) ++ _) Ho1 Hb1).
    rewrite (take_while_app _ _ _ Hd1 Hn2), (drop_while_app _ _ _ Hd1 Hn2).
    rewrite (strip_opt_app _ _ _ Hc1) by done.
    cbn [app]. rewrite Ascii.eqb_refl.
    change (d2 :: m2 ++ c2 ++ rest) with ((d2 :: m2) ++ c2 ++ rest).
    rewrite (strip_opt_app _ _ ((d2 :: m2) ++ _) Ho2 Hb2).
    by rewrite (take_while_app _ _ _ Hd2 Hnext).
Qed.

Lemma reference_tag_at_drop t i n1 n2 :
  reference_tag_at t i n1 n2 <->
  (i <= List.length t)%nat /\ scan (drop i t) = Some (n1, n2).
Proof.
  rewrite scan_tag. split.
  - intros (pre & ws & o1 & c1 & o2 & c2 & rest & -> & <- & H).
    split; [rewrite length_app; lia|].
    rewrite drop_app_length. by exists [], ws, o1, c1, o2, c2, rest.
  - intros (Hi & pre & ws & o1 & c1 & o2 & c2 & rest & E & Hpre & H).
    destruct pre; [|done]. rewrite app_nil_l in E.
    exists (take i t), ws, o1, c1, o2, c2, rest.
    split; [by rewrite <- E, take_drop|].
    split; [rewrite length_take; lia|done].
Qed.

Lemma search_from_reference s : forall pos,
  match search_from REFERENCE_REGEX pos s with
  | Some m =>
      exists i n1 n2,
        (i <= List.length s)%nat
        /\ scan (drop i s) = Some (n1, n2)
        /\ (forall j, (j < i)%nat -> scan (drop j s) = None)
        /\ start m = (pos + i)%nat
        /\ group m 1 = n1 /\ group m 2 = n2
  | None => forall j, scan (drop j s) = None
  end.
Proof.
  induction s as [|x s IH]; intros pos.
  - cbn [search_from].
    pose proof (run_reference_head []) as H.
    destruct (run REFERENCE_REGEX [] ∅) as [|t l]; [|done].
    intros j. by rewrite drop_nil.
  - cbn [search_from].
    pose proof (run_reference_head (x :: s)) as H.
    destruct (run REFERENCE_REGEX (x :: s) ∅) as [|t l].
    + destruct (scan (x :: s)) eqn:Hscan; [done|].
      specialize (IH (S pos)).
      destruct (search_from REFERENCE_REGEX (S pos) s) as [m|].
      * destruct IH as (i & n1 & n2 & Hi & Hs & Hfirst & Hst & Hg).
        exists (S i), n1, n2. simpl. split; [lia|]. split; [done|].
        split; [|split; [lia|done]].
        intros [|j] Hj; [done|]. apply Hfirst. lia.
      * intros [|j]; [done|]. apply IH.
    + destruct (scan (x :: s)) as [[n1 n2]|] eqn:Hscan; [|done].
      simpl in H. injection H as H.
      exists O, n1, n2. simpl. split; [lia|]. split; [done|].
      split; [intros; lia|]. split; [lia|].
      unfold group. simpl. rewrite H. unfold captures.
      rewrite lookup_insert_ne by done.
      by rewrite !lookup_insert_eq.
Qed.

Lemma int_acc_digits s : forall acc,
  Forall (fun c => Py.isdigit c = true) s -> is_Some (Py.int_acc acc s).
Proof.
  induction s as [|x s IH]; intros acc Hs; simpl; [eauto|].
  inversion Hs as [|? ? Hx Hs']; subst.
  unfold Py.digit_value. rewrite Hx. by apply IH.
Qed.

Lemma int_digits n : digits n -> is_Some (Py.int n).
Proof.
  intros (Hne & Hd). destruct n as [|x n]; [done|].
  by apply int_acc_digits.
Qed.

(** C8: [parse_reference] finds the reference of a text exactly when the
    text has, somewhere, [Reference:] followed by an optional bracket, an
    integer, an optional bracket, a colon, an optional bracket and a second
    integer (white space is allowed after [Reference:] only); it takes the
    first such occurrence, and the two integers always parse.  With no
    occurrence the result is [None], not an error.  Brackets are optional:
    "Reference: 2:5" and "Reference: [2]:[5]" both give (2, 5). *)
Theorem reference_extraction text :
  let t := list_ascii_of_string text in
  (forall d p,
      parse_reference text = Some (d, p) <->
      exists i n1 n2,
        reference_tag_at t i n1 n2
        /\ (forall j m1 m2, (j < i)%nat -> ~ reference_tag_at t j m1 m2)
        /\ Py.int n1 = Some d /\ Py.int n2 = Some p)
  /\ (parse_reference text = None <->
      forall i n1 n2, ~ reference_tag_at t i n1 n2)
  /\ parse_reference "Reference: 2:5" = Some (2, 5)
  /\ parse_reference "Reference: [2]:[5]" = Some (2, 5)
  /\ parse_reference "See Reference: [1]:[4], then Reference: [2]:[5]"
     = Some (1, 4)
  /\ parse_reference "Hint: read the second chapter again." = None.
Proof.
  intros t.
  pose proof (search_from_reference t O) as Hs.
  unfold parse_reference, search. fold t.
  split; [|split; [|by vm_compute]].
  - intros d p.
    destruct (search_from REFERENCE_REGEX 0 t) as [m|].
    + destruct Hs as (i & n1 & n2 & Hi & Hscan & Hfirst & _ & -> & ->).
      assert (Htag : reference_tag_at t i n1 n2)
        by by apply reference_tag_at_drop.
      assert (Hd : digits n1 /\ digits n2).
      { destruct Htag as (? & ? & ? & ? & ? & ? & ? & _ & _ & _ & _ & ?
                          & _ & _ & ? & _). done. }
      destruct Hd as ((v1 & E1)%int_digits & (v2 & E2)%int_digits).
      rewrite E1, E2. split.
      * intros [= <- <-]. exists i, n1, n2. split; [done|].
        split; [|done]. intros j m1 m2 Hj (_ & Hm)%reference_tag_at_drop.
        by rewrite (Hfirst j Hj) in Hm.
      * intros (i' & m1 & m2 & (Hi' & Hm)%reference_tag_at_drop & Hnone
                & F1 & F2).
        destruct (Nat.lt_trichotomy i i') as [Hlt|[<-|Hgt]].
        -- by destruct (Hnone i n1 n2 Hlt).
        -- rewrite Hscan in Hm. injection Hm as <- <-. congruence.
        -- by rewrite (Hfirst i' Hgt) in Hm.
    + split; [done|].
      intros (i & n1 & n2 & (_ & Hm)%reference_tag_at_drop & _).
      by rewrite Hs in Hm.
  - destruct (search_from REFERENCE_REGEX 0 t) as [m|].
    + destruct Hs as (i & n1 & n2 & Hi & Hscan & Hfirst & _ & -> & ->).
      assert (Htag : reference_tag_at t i n1 n2)
        by by apply reference_tag_at_drop.
      assert (Hd : digits n1 /\ digits n2).
      { destruct Htag as (? & ? & ? & ? & ? & ? & ? & _ & _ & _ & _ & ?
                          & _ & _ & ? & _). done. }
      destruct Hd as ((v1 & E1)%int_digits & (v2 & E2)%int_digits).
      rewrite E1, E2. split; [done|]. intros Hnone.
      by destruct (Hnone i n1 n2).
    + split; [|done]. intros _ i n1 n2 (_ & Hm)%reference_tag_at_drop.
      by rewrite Hs in Hm.
Qed.


(** * More properties *)

(** ** The progress line: written, then read *)

Lemma list_ascii_app a b :
  list_ascii_of_string (a +:+ b)
  = list_ascii_of_string a ++ list_ascii_of_string b.
Proof. induction a as [|c a IH]; simpl; [done|]. by rewrite IH. Qed.

(** A decimal digit character and its value. *)
Lemma pretty_N_char_digit x :
  (x < 10)%N ->
  Py.digit_value (pretty_N_char x) = Some (Z.of_N x)
  /\ Ascii.eqb (pretty_N_char x) "_" = false.
Proof.
  intros Hx.
  assert (Hc : (x = 0 \/ x = 1 \/ x = 2 \/ x = 3 \/ x = 4 \/ x = 5 \/ x = 6
                \/ x = 7 \/ x = 8 \/ x = 9)%N) by lia.
  destruct Hc as [->|[->|[->|[->|[->|[->|[->|[->|[->| ->]]]]]]]]];
    by vm_compute.
Qed.

Lemma pretty_N_go_spec x : forall s,
  exists k : Z,
    0 <= k
    /\ (forall acc b,
          PyStr.int_digits acc b (list_ascii_of_string (pretty_N_go x s))
          = PyStr.int_digits (acc * 10 ^ k + Z.of_N x)
              (b || bool_decide (0 < x)%N) (list_ascii_of_string s))
    /\ (Forall (fun c => Py.isdigit c = true) (list_ascii_of_string s) ->
        Forall (fun c => Py.isdigit c = true)
          (list_ascii_of_string (pretty_N_go x s))).
Proof.
  induction (N.lt_wf_0 x) as [x _ IH]; intros s.
  destruct (decide (x = 0)%N) as [->|Hx].
  - exists 0. split; [done|]. rewrite pretty_N_go_0. split; [|done].
    intros acc b. f_equal; [lia|by rewrite orb_false_r].
  - rewrite pretty_N_go_step by lia.
    destruct (IH (x `div` 10)%N ltac:(apply N.div_lt; lia)
                (String (pretty_N_char (x `mod` 10)) s))
      as (k & Hk & Hval & Hdig).
    assert (Hm : (x `mod` 10 < 10)%N) by (apply N.mod_lt; lia).
    destruct (pretty_N_char_digit _ Hm) as (Hd & Hu).
    exists (k + 1). split; [lia|]. split.
    + intros acc b. rewrite Hval. simpl. rewrite Hu, Hd.
      rewrite bool_decide_eq_true_2 by lia. rewrite orb_true_r.
      f_equal. rewrite Z.pow_add_r by lia.
      pose proof (N.div_mod x 10 ltac:(lia)) as Hdm.
      rewrite N2Z.inj_div, N2Z.inj_mod in *.
      assert (Z.of_N x = 10 * (Z.of_N x / 10) + Z.of_N x mod 10)
        by (apply Z.div_mod; lia).
      change (Z.of_N 10) with 10. lia.
    + intros Hs. apply Hdig. simpl. constructor; [|done].
      unfold Py.digit_value in Hd. by destruct (Py.isdigit _).
Qed.

Lemma int_digits_pretty_N (x : N) :
  PyStr.int_digits 0 false (list_ascii_of_string (pretty x)) = Some (Z.of_N x)
  /\ Forall (fun c => Py.isdigit c = true) (list_ascii_of_string (pretty x))
  /\ list_ascii_of_string (pretty x) <> [].
Proof.
  unfold pretty, pretty_N. destruct (decide (x = 0)%N) as [->|Hx].
  - split; [done|]. split; [by repeat constructor|done].
  - destruct (pretty_N_go_spec x "") as (k & Hk & Hval & Hdig).
    split; [|split].
    + rewrite Hval. simpl. rewrite bool_decide_eq_true_2 by lia. f_equal; lia.
    + by apply Hdig.
    + intros Hnil. specialize (Hval 0 false). rewrite Hnil in Hval.
      simpl in Hval. by rewrite bool_decide_eq_true_2 in Hval by lia.
Qed.

Lemma isdigit_not_space_char c : Py.isdigit c = true -> Py.isspace c = false.
Proof. apply isdigit_not_space. Qed.

Lemma drop_while_head p s :
  next_not p s -> drop_while p s = s.
Proof. destruct s as [|c s]; simpl; [done|]. by intros ->. Qed.

Lemma strip_no_space s :
  Forall (fun c => Py.isspace c = false) s -> PyStr.strip s = s.
Proof.
  intros Hs. unfold PyStr.strip, PyStr.lstrip, PyStr.rstrip.
  rewrite (drop_while_head _ s); [|by destruct Hs].
  rewrite drop_while_head; [apply rev_involutive|].
  apply Forall_rev in Hs. by destruct Hs.
Qed.

Lemma number_char_no_space c : number_char c = true -> Py.isspace c = false.
Proof. destruct c as [[] [] [] [] [] [] [] []]; by vm_compute. Qed.

Lemma number_char_plain c :
  number_char c = true ->
  Ascii.eqb c "," = false /\ Ascii.eqb c "=" = false.
Proof. destruct c as [[] [] [] [] [] [] [] []]; by vm_compute. Qed.

(** A number as [save_config] writes it is read back by [int]. *)
Lemma int_pretty (z : Z) :
  PyStr.int (list_ascii_of_string (pretty z)) = Some z
  /\ Forall (fun c => number_char c = true) (list_ascii_of_string (pretty z)).
Proof.
  assert (Hdn : forall l, Forall (fun c => Py.isdigit c = true) l ->
                          Forall (fun c => number_char c = true) l).
  { intros l Hl. eapply Forall_impl; [exact Hl|].
    intros c Hc. unfold number_char. simpl in Hc. by rewrite Hc. }
  assert (Hpos : forall p : positive,
             PyStr.int (list_ascii_of_string (pretty (N.pos p)))
             = Some (Z.pos p)
             /\ Forall (fun c => Py.isdigit c = true)
                  (list_ascii_of_string (pretty (N.pos p)))).
  { intros p. destruct (int_digits_pretty_N (N.pos p)) as (Hv & Hd & Hne).
    split; [|done]. unfold PyStr.int.
    rewrite strip_no_space
      by (eapply Forall_impl; [exact Hd|apply isdigit_not_space]).
    destruct (list_ascii_of_string (pretty (N.pos p))) as [|c l]; [done|].
    pose proof (Forall_inv Hd) as Hc. simpl in Hc.
    assert (Ascii.eqb c "-" = false /\ Ascii.eqb c "+" = false) as (-> & ->).
    { clear -Hc. destruct c as [[] [] [] [] [] [] [] []]; by vm_compute. }
    exact Hv. }
  destruct z as [|p|p].
  - split; [done|by repeat constructor].
  - destruct (Hpos p) as (Hv & Hd). split; [exact Hv|by apply Hdn].
  - destruct (int_digits_pretty_N (N.pos p)) as (Hv & Hd & Hne).
    change (pretty (Z.neg p)) with ("-" +:+ pretty (N.pos p)).
    rewrite list_ascii_app. split.
    + unfold PyStr.int. rewrite strip_no_space.
      * simpl. by rewrite Hv.
      * constructor; [done|].
        eapply Forall_impl; [exact Hd|apply isdigit_not_space].
    + constructor; [done|]. by apply Hdn.
Qed.

Lemma split_no_sep sep item :
  Forall (fun c => Ascii.eqb c sep = false) item ->
  PyStr.split sep item = [item].
Proof.
  induction 1 as [|c item Hc _ IH]; simpl; [done|]. by rewrite Hc, IH.
Qed.

Lemma split_app_sep sep item rest :
  Forall (fun c => Ascii.eqb c sep = false) item ->
  PyStr.split sep (item ++ sep :: rest) = item :: PyStr.split sep rest.
Proof.
  induction 1 as [|c item Hc _ IH]; simpl.
  - by rewrite Ascii.eqb_refl.
  - by rewrite Hc, IH.
Qed.

Lemma split1_app_sep sep key val :
  Forall (fun c => Ascii.eqb c sep = false) key ->
  PyStr.split1 sep (key ++ sep :: val) = (key, Some val).
Proof.
  induction 1 as [|c key Hc _ IH]; simpl.
  - by rewrite Ascii.eqb_refl.
  - by rewrite Hc, IH.
Qed.


(** One item of the line: a key of letters, [=], a number. *)
Lemma progress_item_spec (key : string) (z : Z) :
  let item := list_ascii_of_string key ++ "="%char
              :: list_ascii_of_string (pretty z) in
  Forall (fun c => Ascii.eqb c "=" = false) (list_ascii_of_string key) ->
  Forall (fun c => Ascii.eqb c "," = false) (list_ascii_of_string key) ->
  Forall (fun c => Ascii.eqb c "," = false) item
  /\ PyStr.split1 "=" item
     = (list_ascii_of_string key, Some (list_ascii_of_string (pretty z)))
  /\ PyStr.strip (list_ascii_of_string (pretty z))
     = list_ascii_of_string (pretty z).
Proof.
  intros item Heq Hcomma. destruct (int_pretty z) as (_ & Hchars).
  split; [|split].
  - apply Forall_app. split; [done|]. constructor; [done|].
    eapply Forall_impl; [exact Hchars|].
    intros c Hc. by apply number_char_plain.
  - by apply split1_app_sep.
  - apply strip_no_space. eapply Forall_impl; [exact Hchars|].
    apply number_char_no_space.
Qed.

Lemma progress_line_items d :
  progress_items (list_ascii_of_string (progress_line d))
  = <[list_ascii_of_string "diff_idx" :=
        list_ascii_of_string (pretty (current_difficulty_index d))]>
      (<[list_ascii_of_string "answered" :=
           list_ascii_of_string (pretty (questions_answered d))]>
         (<[list_ascii_of_string "level" :=
              list_ascii_of_string (pretty (level d))]>
            (<[list_ascii_of_string "streak" :=
                 list_ascii_of_string (pretty (streak d))]>
               (<[list_ascii_of_string "score" :=
                    list_ascii_of_string (pretty (score d))]> ∅)))).
Proof.
  destruct (progress_item_spec "score" (score d)) as (C1 & S1 & T1);
    [by repeat constructor..|].
  destruct (progress_item_spec "streak" (streak d)) as (C2 & S2 & T2);
    [by repeat constructor..|].
  destruct (progress_item_spec "level" (level d)) as (C3 & S3 & T3);
    [by repeat constructor..|].
  destruct (progress_item_spec "answered" (questions_answered d))
    as (C4 & S4 & T4); [by repeat constructor..|].
  destruct (progress_item_spec "diff_idx" (current_difficulty_index d))
    as (C5 & S5 & T5); [by repeat constructor..|].
  unfold progress_items, progress_line.
  rewrite !list_ascii_app.
  change (list_ascii_of_string "score=")
    with (list_ascii_of_string "score" ++ ["="%char]).
  change (list_ascii_of_string "streak=")
    with (list_ascii_of_string "streak" ++ ["="%char]).
  change (list_ascii_of_string "level=")
    with (list_ascii_of_string "level" ++ ["="%char]).
  change (list_ascii_of_string "answered=")
    with (list_ascii_of_string "answered" ++ ["="%char]).
  change (list_ascii_of_string "diff_idx=")
    with (list_ascii_of_string "diff_idx" ++ ["="%char]).
  change (list_ascii_of_string ",") with [","%char].
  rewrite <- !app_assoc. cbn [app] in *.
  repeat match goal with
  | |- context [list_ascii_of_string ?k ++ "="%char :: ?v ++ ","%char :: ?r] =>
      change (list_ascii_of_string k ++ "="%char :: v ++ ","%char :: r)
        with (list_ascii_of_string k ++ ("="%char :: v) ++ ","%char :: r);
      rewrite (app_assoc (list_ascii_of_string k) ("="%char :: v))
  end.
  cbn [app] in *.
  rewrite !split_app_sep by done.
  rewrite split_no_sep by done.
  cbn [foldl]. rewrite S1, S2, S3, S4, S5, T1, T2, T3, T4, T5.
  done.
Qed.

(** X1: what [save_config] writes for a skill, [load_config] reads back as
    the same entry, whatever the five numbers are (negative ones
    included). *)
Theorem progress_line_round_trip d :
  parse_progress (progress_line d) = Some d.
Proof.
  unfold parse_progress. rewrite progress_line_items.
  assert (Hne : forall a b : string,
             String.eqb a b = false ->
             list_ascii_of_string a <> list_ascii_of_string b).
  { intros a b Hab Heq.
    assert (a = b); [|subst; by rewrite String.eqb_refl in Hab].
    by rewrite <- (string_of_list_ascii_of_string a),
         <- (string_of_list_ascii_of_string b), Heq. }
  set (data := <[_ := _]> _).
  assert (Hfield : forall key z default,
             data !! list_ascii_of_string key
             = Some (list_ascii_of_string (pretty z)) ->
             progress_field data key default = Some z).
  { intros key z default Hk. unfold progress_field. rewrite Hk.
    apply int_pretty. }
  rewrite (Hfield "score" (score d)), (Hfield "streak" (streak d)),
    (Hfield "level" (level d)), (Hfield "answered" (questions_answered d)),
    (Hfield "diff_idx" (current_difficulty_index d));
    try (subst data;
         repeat (rewrite lookup_insert_ne by (apply Hne; reflexivity));
         apply lookup_insert_eq).
  by destruct d.
Qed.








(** ** After a graded answer: the total and the saved section *)

Lemma update_skill_data_saved st name d pts b :
  quizzing st name d ->
  -4 <= current_difficulty_index d ->
  let r := update_skill_data pts b st in
  r.2 = true
  /\ total_score r.1 = skill_total (skill_progress r.1)
  /\ config_progress r.1 = save_config r.1.
Proof.
  intros Hq Hi. unfold update_skill_data.
  rewrite (quizzing_get _ _ _ Hq).
  pose proof (quizzing_individual _ _ _ Hq) as Hind.
  pose proof (difficulty_step_ok pts (entry_scored pts b d)) as Hok.
  pose proof (entry_scored_fields pts b d) as (_ & Hidx & _).
  simpl in Hidx. rewrite Hidx in Hok. specialize (Hok Hi).
  change (difficulty_step pts _)
    with (difficulty_step pts (entry_scored pts b d)).
  destruct (difficulty_step pts (entry_scored pts b d)) as [d4 ok].
  simpl in Hok. subst ok. simpl.
  unfold _update_current_skill_data.
  destruct (level d4 <? _); simpl;
    change (individual_skill _) with (individual_skill st);
    rewrite Hind; simpl; done.
Qed.

Lemma submit_saved st name d text :
  quizzing st name d ->
  -4 <= current_difficulty_index d ->
  total_score (submit text st) = skill_total (skill_progress (submit text st))
  /\ config_progress (submit text st) = save_config (submit text st).
Proof.
  intros Hq Hi.
  assert (Hq0 : quizzing (set_level_up_occurred false st) name d) by exact Hq.
  destruct (grade_answer_quizzing _ _ _ (Py.lower text) Hq0) as (Hp & Hb & Hg).
  set (st0 := set_level_up_occurred false st) in *.
  set (g := grade_answer (Py.lower text) st0) in *.
  set (o := grade_outcome (Py.lower text)) in *.
  assert (Hq1 : quizzing (graded_app g) name (entry_after_status o d)).
  { rewrite Hg. destruct Hq as (? & ? & ? & ? & ?).
    repeat split; try done. simpl. apply lookup_insert_eq. }
  assert (Hi1 : -4 <= current_difficulty_index (entry_after_status o d))
    by by destruct o.
  destruct (update_skill_data_saved _ _ _ (points_earned g) (streak_broken g)
              Hq1 Hi1) as (Hok & Ht & Hc).
  unfold submit, _handle_ai_result.
  rewrite (quizzing_running _ _ _ Hq). simpl.
  fold st0. fold g.
  rewrite (quizzing_not_all _ _ _ Hq0). simpl.
  destruct (update_skill_data _ _ _) as [st2 ok]. simpl in *. subst ok. simpl.
  destruct (display_feedback_frame text (feedback_type g) st2)
    as (_ & _ & Hs & Hts & Hcs & _).
  unfold save_config in *. simpl. by rewrite Hs, Hts, Hcs.
Qed.

Lemma skill_total_commute (j1 j2 : string) (z1 z2 : SkillData) (y : Z) :
  (if negb (String.eqb j1 ALL_MATERIALS_SKILL_NAME)
   then (if negb (String.eqb j2 ALL_MATERIALS_SKILL_NAME)
         then y + score z2 else y) + score z1
   else (if negb (String.eqb j2 ALL_MATERIALS_SKILL_NAME)
         then y + score z2 else y))
  = (if negb (String.eqb j2 ALL_MATERIALS_SKILL_NAME)
     then (if negb (String.eqb j1 ALL_MATERIALS_SKILL_NAME)
           then y + score z1 else y) + score z2
     else (if negb (String.eqb j1 ALL_MATERIALS_SKILL_NAME)
           then y + score z1 else y)).
Proof.
  destruct (negb (String.eqb j1 _)), (negb (String.eqb j2 _)); lia.
Qed.

Lemma skill_total_lookup progress name d :
  name <> ALL_MATERIALS_SKILL_NAME ->
  progress !! name = Some d ->
  skill_total progress = skill_total (delete name progress) + score d.
Proof.
  intros Hne Hd. unfold skill_total.
  rewrite (map_fold_delete_L _ _ name d progress); [|intros; apply skill_total_commute|done].
  by destruct (String.eqb_spec name ALL_MATERIALS_SKILL_NAME).
Qed.

Lemma skill_total_insert progress name d :
  name <> ALL_MATERIALS_SKILL_NAME ->
  skill_total (<[name := d]> progress)
  = skill_total (delete name progress) + score d.
Proof.
  intros Hne. rewrite (skill_total_lookup (<[name := d]> progress) name d);
    [|done|apply lookup_insert_eq].
  by rewrite delete_insert_eq.
Qed.

(** X4: after a graded answer for the skill being quizzed, the total score
    is the sum over the skills as they are now, and that is the sum over the
    skills as they were plus the points just awarded, whatever the total
    was before.  (Difficulty index not below -4, so that the slot runs to
    its end.) *)
Theorem total_score_after_grade st name d text :
  quizzing st name d ->
  -4 <= current_difficulty_index d ->
  total_score (submit text st) = skill_total (skill_progress (submit text st))
  /\ total_score (submit text st)
     = skill_total (skill_progress st) + points_awarded text st.
Proof.
  intros Hq Hi.
  destruct (submit_saved _ _ _ text Hq Hi) as (Ht & _).
  destruct (submit_progress _ _ _ text Hq) as (Hs & _).
  destruct Hq as (Hw & Hn & Hne & Hall & Hd).
  split; [exact Ht|]. rewrite Ht, Hs.
  rewrite (skill_total_insert _ _ _ Hall).
  rewrite (skill_total_lookup _ _ _ Hall Hd).
  rewrite apply_grade_score.
  rewrite (points_awarded_quizzing st name d text) by done. lia.
Qed.

Lemma total_score_after_grade_example :
  total_score (submit "Status: Partially Correct" sample_app) = 5
  /\ total_score
       (submit "Status: Correct"
          (submit "Status: Partially Correct" sample_app)) = 17.
Proof.
  assert (Hq : quizzing sample_app "b.pdf" sample_entry)
    by (repeat split; done).
  destruct (total_score_after_grade sample_app "b.pdf" sample_entry
              "Status: Partially Correct" Hq ltac:(simpl; lia)) as (_ & H1).
  split; [rewrite H1; vm_compute; reflexivity|].
  destruct (submit_progress _ _ _ "Status: Partially Correct" Hq) as (_ & Hq').
  assert (Hi : -4 <= current_difficulty_index
                       (apply_grade (status_of "Status: Partially Correct")
                          sample_entry)) by (vm_compute; discriminate).
  destruct (total_score_after_grade _ "b.pdf" _ "Status: Correct" Hq' Hi)
    as (_ & H2).
  rewrite H2. vm_compute. reflexivity.
Defined.



(** ** A skill with no entry *)

Lemma individual_skill_Some st name :
  current_skill_name st = Some name ->
  name <> "" -> name <> ALL_MATERIALS_SKILL_NAME ->
  individual_skill st = Some name /\ is_all_materials_mode st = false.
Proof.
  intros Hn Hne Hall. unfold individual_skill, is_all_materials_mode.
  rewrite Hn.
  destruct (String.eqb_spec name ALL_MATERIALS_SKILL_NAME); [done|].
  by destruct name.
Qed.

(** X6: when the skill being quizzed has no entry in [skill_progress], a
    graded answer makes one, starting from the defaults.  The points are
    those of a streak of 0, so 12 for a Correct answer, but the increment of
    the streak is made on a dict that is thrown away: the new entry has
    streak 0 whatever the status. *)
Theorem grade_without_entry st name text :
  worker st = Some (AIWorker true) ->
  current_skill_name st = Some name ->
  name <> "" -> name <> ALL_MATERIALS_SKILL_NAME ->
  skill_progress st !! name = None ->
  let o := status_of text in
  points_awarded text st = points_for o default_skill_data
  /\ skill_progress (submit text st)
     = <[name := update_entry (points_for o default_skill_data)
                   (breaks_streak o) default_skill_data]> (skill_progress st)
  /\ exists d',
       skill_progress (submit text st) !! name = Some d'
       /\ streak d' = 0
       /\ score d' = points_for o default_skill_data
       /\ questions_answered d' = 1.
Proof.
  intros Hw Hn Hne Hall Hnone o.
  destruct (individual_skill_Some st name Hn Hne Hall) as (Hind & Hmode).
  set (st0 := set_level_up_occurred false st).
  assert (Hget : _get_current_skill_data st0 = (Fresh, default_skill_data)).
  { unfold _get_current_skill_data.
    change (individual_skill st0) with (individual_skill st).
    rewrite Hind. change (skill_progress st0) with (skill_progress st).
    by rewrite Hnone. }
  assert (Hg : points_earned (grade_answer (Py.lower text) st0)
               = points_for o default_skill_data
               /\ streak_broken (grade_answer (Py.lower text) st0)
                  = breaks_streak o
               /\ graded_app (grade_answer (Py.lower text) st0) = st0).
  { unfold grade_answer. subst o. unfold status_of.
    destruct (grade_outcome (Py.lower text)); simpl; try done.
    change (is_all_materials_mode st0) with (is_all_materials_mode st).
    rewrite Hmode. simpl. by rewrite Hget. }
  destruct Hg as (Hp & Hb & Hga).
  assert (Hpts : points_awarded text st = points_for o default_skill_data)
    by exact Hp.
  assert (Hsub : skill_progress (submit text st)
                 = <[name := update_entry (points_for o default_skill_data)
                               (breaks_streak o) default_skill_data]>
                     (skill_progress st)).
  { unfold submit, _handle_ai_result, worker_is_running. rewrite Hw. simpl.
    fold st0.
    change (is_all_materials_mode st0) with (is_all_materials_mode st).
    rewrite Hmode. simpl. rewrite Hp, Hb, Hga.
    unfold update_skill_data, update_entry. rewrite Hget.
    change (difficulty_step (points_for o default_skill_data) _)
      with (difficulty_step (points_for o default_skill_data)
              (entry_scored (points_for o default_skill_data)
                 (breaks_streak o) default_skill_data)).
    pose proof (difficulty_step_ok (points_for o default_skill_data)
                  (entry_scored (points_for o default_skill_data)
                     (breaks_streak o) default_skill_data)) as Hok.
    destruct (difficulty_step _ _) as [d4 ok]. simpl in Hok.
    rewrite Hok.
    2: { destruct (breaks_streak o); simpl; lia. }
    simpl. unfold entry_levelled, _update_current_skill_data.
    destruct (level d4 <? _); simpl;
      change (individual_skill _) with (individual_skill st);
      rewrite Hind; simpl;
      match goal with |- context [display_feedback ?t ?f ?x] =>
        destruct (display_feedback_frame t f x) as (_ & _ & -> & _) end;
      done. }
  split; [exact Hpts|]. split; [exact Hsub|].
  eexists. rewrite Hsub, lookup_insert_eq. split; [done|].
  rewrite update_entry_streak, update_entry_score, update_entry_answered.
  by destruct o.
Qed.

Lemma grade_without_entry_example :
  points_awarded "Status: Correct" sample_app_no_entry = 12
  /\ exists d',
       skill_progress (submit "Status: Correct" sample_app_no_entry) !! "b.pdf"
       = Some d'
       /\ streak d' = 0 /\ score d' = 12 /\ questions_answered d' = 1.
Proof.
  destruct (grade_without_entry sample_app_no_entry "b.pdf" "Status: Correct")
    as (Hp & _ & Hd); try done.
Defined.

(** ** The documents *)

Lemma contains_elem_of l x : contains l x = true <-> x ∈ l.
Proof.
  unfold contains. rewrite existsb_exists. setoid_rewrite <- list_elem_of_In.
  split.
  - intros (y & Hy & Heq). apply String.eqb_eq in Heq. by subst.
  - intros Hx. exists x. split; [done|apply String.eqb_refl].
Qed.

Lemma contains_not_elem_of l x : contains l x = false <-> x ∉ l.
Proof.
  rewrite <- contains_elem_of. by destruct (contains l x).
Qed.

(** The sample library has its lists in step. *)
Lemma sample_library_ok :
  documents_ok sample_basename (study_app sample_library).
Proof.
  split; [vm_compute; reflexivity|]. split.
  - by apply (bool_decide_unpack _).
  - intros name H.
    repeat (apply elem_of_cons in H as [->|H]; [vm_compute; eauto|]).
    by apply elem_of_nil in H.
Defined.

(** One round of [add_pdfs]. *)
Lemma add_pdf_spec basename st changed file_path :
  documents_ok basename st ->
  let r := add_pdf basename (st, changed) file_path in
  documents_ok basename r.1
  /\ (forall name d,
        skill_progress st !! name = Some d ->
        skill_progress r.1 !! name = Some d)
  /\ basename file_path ∈ pdf_file_basenames r.1
  /\ pdf_file_paths st `prefix_of` pdf_file_paths r.1
  /\ ((r.1 = st /\ r.2 = changed)
      \/ (r.2 = true
          /\ pdf_file_paths r.1 = pdf_file_paths st ++ [file_path]
          /\ file_path ∉ pdf_file_paths st)).
Proof.
  intros (Hnames & Hnd & Hprog). unfold add_pdf.
  destruct (contains (pdf_file_paths st) file_path) eqn:Hin; simpl.
  { apply contains_elem_of in Hin.
    repeat split; try done; [|by left].
    rewrite Hnames. by apply list_elem_of_fmap_2. }
  destruct (contains (pdf_file_basenames st) (basename file_path)) eqn:Hn;
    simpl.
  { apply contains_elem_of in Hn. repeat split; try done. by left. }
  apply contains_not_elem_of in Hin, Hn.
  assert (F1 : pdf_file_basenames st ++ [basename file_path]
               = basename <$> (pdf_file_paths st ++ [file_path]))
    by by rewrite fmap_app, <- Hnames.
  assert (F2 : NoDup (pdf_file_basenames st ++ [basename file_path])).
  { apply NoDup_app. split; [done|]. split; [|apply NoDup_singleton].
    intros x Hx ->%list_elem_of_singleton. done. }
  assert (F3 : basename file_path
               ∈ pdf_file_basenames st ++ [basename file_path]).
  { apply elem_of_app. right. by apply list_elem_of_singleton. }
  assert (F4 : pdf_file_paths st `prefix_of` pdf_file_paths st ++ [file_path])
    by by apply prefix_app_r.
  change (skill_progress (set_pdf_file_basenames _ _))
    with (skill_progress st).
  destruct (skill_progress st !! basename file_path) as [d0|] eqn:Hd;
    unfold documents_ok; cbn -[elem_of].
  - split; [|split; [done|split; [done|split; [done|right; done]]]].
    split; [done|]. split; [done|].
    intros name [Hname|Hname%list_elem_of_singleton]%elem_of_app;
      [by apply Hprog|]. subst. by rewrite Hd.
  - split; [|split; [|split; [done|split; [done|right; done]]]].
    + split; [done|]. split; [done|].
      intros name [Hname|Hname%list_elem_of_singleton]%elem_of_app.
      * destruct (decide (basename file_path = name)) as [->|Hne].
        -- rewrite lookup_insert_eq. eauto.
        -- rewrite lookup_insert_ne by done. by apply Hprog.
      * subst. rewrite lookup_insert_eq. eauto.
    + intros name d Hl. rewrite lookup_insert_ne; [done|].
      intros <-. congruence.
Qed.


Lemma add_pdfs_fold basename files : forall st changed,
  documents_ok basename st ->
  let r := foldl (add_pdf basename) (st, changed) files in
  documents_ok basename r.1
  /\ (forall name d,
        skill_progress st !! name = Some d ->
        skill_progress r.1 !! name = Some d)
  /\ (forall file_path,
        file_path ∈ files -> basename file_path ∈ pdf_file_basenames r.1)
  /\ pdf_file_paths st `prefix_of` pdf_file_paths r.1
  /\ ((r.1 = st /\ r.2 = changed)
      \/ (r.2 = true
          /\ (List.length (pdf_file_paths st)
              < List.length (pdf_file_paths r.1))%nat)).
Proof.
  induction files as [|f files IH]; intros st changed Hok.
  { cbn [foldl fst snd]. split; [done|]. split; [done|].
    split; [by intros ? ?%elem_of_nil|]. split; [done|by left]. }
  cbn [foldl].
  destruct (add_pdf_spec basename st changed f Hok)
    as (Hok1 & Hkeep1 & Hin1 & Hpre1 & Hch1).
  destruct (add_pdf basename (st, changed) f) as [st1 ch1] eqn:Hstep.
  cbn [fst snd] in Hok1, Hkeep1, Hin1, Hpre1, Hch1.
  destruct (IH st1 ch1 Hok1) as (Hok2 & Hkeep2 & Hin2 & Hpre2 & Hch2).
  split; [exact Hok2|]. split; [by eauto|]. split; [|split].
  - intros file_path [->|Hf]%elem_of_cons; [|by apply Hin2].
    destruct Hok1 as (Hn1 & _). destruct Hok2 as (Hn2 & _).
    rewrite Hn1 in Hin1. rewrite Hn2.
    apply list_elem_of_fmap in Hin1 as (p & Hp & Hpin).
    rewrite Hp. apply list_elem_of_fmap_2.
    destruct Hpre2 as (k & ->). apply elem_of_app. by left.
  - by etrans.
  - apply prefix_length in Hpre1, Hpre2.
    destruct Hch1 as [(-> & ->)|(-> & Hp1 & _)]; [exact Hch2|].
    right. rewrite Hp1, length_app in Hpre2. cbn [List.length] in Hpre2.
    destruct Hch2 as [(-> & ->)|(-> & Hlt)]; (split; [done|]).
    + rewrite Hp1, length_app. cbn [List.length]. lia.
    + rewrite Hp1, length_app in Hlt. cbn [List.length] in Hlt. lia.
Qed.

(** X7: [add_pdfs] keeps the lists of documents in step (every name is the
    base name of the path at its position, no name twice, every name with an
    entry); it never touches an entry that was there, and afterwards the base
    name of every file it was given is listed, unless a thread was
    running. *)
Theorem add_pdfs_keeps_documents basename files s :
  documents_ok basename (study_app s) ->
  let s' := add_pdfs basename files s in
  documents_ok basename (study_app s')
  /\ (forall name d,
        skill_progress (study_app s) !! name = Some d ->
        skill_progress (study_app s') !! name = Some d)
  /\ pdf_file_paths (study_app s) `prefix_of` pdf_file_paths (study_app s')
  /\ (thread_running s = false ->
      forall file_path,
        file_path ∈ files ->
        basename file_path ∈ pdf_file_basenames (study_app s')).
Proof.
  intros Hok. unfold add_pdfs.
  destruct (thread_running s) eqn:Hrun.
  { cbn zeta. split; [done|]. split; [done|]. split; [done|]. done. }
  destruct (add_pdfs_fold basename files (study_app s) false Hok)
    as (Hok' & Hkeep & Hin & Hpre & _).
  destruct (foldl (add_pdf basename) (study_app s, false) files)
    as [st changed].
  cbn [fst snd] in *.
  destruct changed; cbn;
    (split; [done|]); (split; [done|]); (split; [done|]); intros _; done.
Qed.

Lemma add_pdfs_keeps_documents_example :
  let s' := add_pdfs sample_basename ["/docs/d.pdf"; "/other/a.pdf"]
              sample_library in
  documents_ok sample_basename (study_app s')
  /\ pdf_file_basenames (study_app s') = ["a.pdf"; "b.pdf"; "c.pdf"; "d.pdf"].
Proof.
  split; [|vm_compute; reflexivity].
  exact (proj1 (add_pdfs_keeps_documents sample_basename
                  ["/docs/d.pdf"; "/other/a.pdf"] sample_library
                  sample_library_ok)).
Defined.

(** X8: when [add_pdfs] adds a document, what was uploaded is forgotten and
    the quiz is off until the next upload; when it adds none (every file is
    listed already, or a thread is running), the session is as before. *)
Theorem add_pdfs_resets_upload basename files s :
  documents_ok basename (study_app s) ->
  let s' := add_pdfs basename files s in
  (pdf_file_paths (study_app s') <> pdf_file_paths (study_app s) ->
   uploaded_file_references s' = ∅ /\ quiz_active s' = false)
  /\ (pdf_file_paths (study_app s') = pdf_file_paths (study_app s) -> s' = s).
Proof.
  intros Hok. unfold add_pdfs.
  destruct (thread_running s) eqn:Hrun; [by split|].
  destruct (add_pdfs_fold basename files (study_app s) false Hok)
    as (_ & _ & _ & _ & Hch).
  destruct (foldl (add_pdf basename) (study_app s, false) files)
    as [st changed].
  cbn [fst snd] in Hch. destruct Hch as [(-> & ->)|(-> & Hlt)]; cbn.
  - split; [done|]. intros _. by destruct s.
  - split; [done|]. intros Heq. rewrite Heq in Hlt. lia.
Qed.

Lemma add_pdfs_resets_upload_example :
  let s' := add_pdfs sample_basename ["/docs/d.pdf"] sample_library in
  uploaded_file_references sample_library <> ∅
  /\ uploaded_file_references s' = ∅ /\ quiz_active s' = false.
Proof.
  split.
  - intros H. apply (f_equal (fun m => m !! "b.pdf")) in H.
    vm_compute in H. discriminate H.
  - apply (add_pdfs_resets_upload sample_basename ["/docs/d.pdf"]
             sample_library sample_library_ok).
    intros H. apply (f_equal List.length) in H.
    vm_compute in H. discriminate H.
Defined.

(** The loop of [remove_pdfs_by_name] on lists in step: names and paths as
    pairs [l], after a part [pre_n], [pre_p] that holds no index to
    remove. *)
Lemma remove_pdfs_fold to_remove (l : list (string * string)) :
  forall pre_n pre_p st changed,
    List.length pre_n = List.length pre_p ->
    pdf_file_basenames st = pre_n ++ l.*1 ->
    pdf_file_paths st = pre_p ++ l.*2 ->
    let kept := filter (fun e => contains to_remove e.1 = false) l in
    let r := foldl remove_pdf (st, changed)
               (rev (indices_to_remove (List.length pre_n) l.*1 to_remove)) in
    pdf_file_basenames r.1 = pre_n ++ kept.*1
    /\ pdf_file_paths r.1 = pre_p ++ kept.*2
    /\ (forall name,
          skill_progress r.1 !! name
          = if contains to_remove name && contains l.*1 name
            then None else skill_progress st !! name)
    /\ r.2 = changed
             || negb (bool_decide
                        (indices_to_remove (List.length pre_n) l.*1 to_remove
                         = [])).
Proof.
  induction l as [|[n p] l IH]; intros pre_n pre_p st changed Hlen Hn Hp.
  { simpl in *. rewrite orb_false_r. repeat split; try done.
    intros name. by rewrite andb_false_r. }
  cbn [fmap list_fmap fst snd indices_to_remove] in *.
  assert (Hlen' : List.length (pre_n ++ [n]) = List.length (pre_p ++ [p]))
    by (rewrite !length_app; simpl; lia).
  assert (HSk : S (List.length pre_n) = List.length (pre_n ++ [n]))
    by (rewrite length_app; simpl; lia).
  rewrite HSk.
  assert (Hn' : pdf_file_basenames st = (pre_n ++ [n]) ++ l.*1)
    by by rewrite <- app_assoc.
  assert (Hp' : pdf_file_paths st = (pre_p ++ [p]) ++ l.*2)
    by by rewrite <- app_assoc.
  rewrite filter_cons. cbn [fst].
  destruct (contains to_remove n) eqn:HR.
  - cbn [rev]. rewrite foldl_app. cbn [foldl].
    destruct (IH (pre_n ++ [n]) (pre_p ++ [p]) st changed Hlen' Hn' Hp')
      as (Hn1 & Hp1 & Hprog1 & Hch1).
    destruct (foldl remove_pdf (st, changed) _) as [st1 ch1].
    simpl in Hn1, Hp1, Hprog1, Hch1.
    rewrite decide_False by (simpl; congruence).
    unfold remove_pdf.
    assert (Hlook : pdf_file_basenames st1 !! List.length pre_n = Some n).
    { rewrite Hn1, <- app_assoc. cbn [app]. by rewrite list_lookup_middle. }
    rewrite Hlook.
    assert (Hlt : (List.length pre_n
                   <? List.length
                        (pdf_file_paths
                           (set_pdf_file_basenames
                              (delete (List.length pre_n)
                                 (pdf_file_basenames st1)) st1)))%nat = true).
    { apply Nat.ltb_lt. simpl. rewrite Hp1, !length_app. simpl. lia. }
    rewrite Hlt. simpl.
    split; [|split; [|split]].
    + rewrite Hn1, <- app_assoc. cbn [app].
      by rewrite delete_middle.
    + rewrite Hp1, <- app_assoc. cbn [app]. rewrite Hlen.
      by rewrite delete_middle.
    + intros name. rewrite lookup_delete. case_decide as Hname.
      * subst. rewrite HR. simpl. by rewrite String.eqb_refl.
      * rewrite Hprog1. destruct (contains to_remove name); simpl; [|done].
        destruct (String.eqb_spec name n); [congruence|done].
    + by rewrite orb_true_r.
  - destruct (IH (pre_n ++ [n]) (pre_p ++ [p]) st changed Hlen' Hn' Hp')
      as (Hn1 & Hp1 & Hprog1 & Hch1).
    destruct (foldl remove_pdf (st, changed) _) as [st1 ch1].
    simpl in Hn1, Hp1, Hprog1, Hch1.
    rewrite decide_True by done. simpl.
    split; [|split; [|split]].
    + by rewrite Hn1, <- app_assoc.
    + by rewrite Hp1, <- app_assoc.
    + intros name. rewrite Hprog1.
      destruct (contains to_remove name) eqn:HRn; simpl; [|done].
      destruct (String.eqb_spec name n); [congruence|done].
    + done.
Qed.


Lemma indices_to_remove_nil k names to_remove :
  indices_to_remove k names to_remove = [] <->
  Forall (fun name => contains to_remove name = false) names.
Proof.
  revert k. induction names as [|n names IH]; intros k; simpl.
  - split; [constructor|done].
  - destruct (contains to_remove n) eqn:HR.
    + split; [done|]. intros H. inversion H; congruence.
    + rewrite IH. split; [by constructor|]. intros H. by inversion H.
Qed.

(** [remove_pdfs_by_name] on lists in step: the paths, the names and the
    entries afterwards. *)
Lemma remove_pdfs_by_name_lists basename to_remove s :
  documents_ok basename (study_app s) ->
  thread_running s = false ->
  let st := study_app s in
  let st' := study_app (remove_pdfs_by_name to_remove s) in
  pdf_file_paths st'
  = filter (fun p => basename p ∉ to_remove) (pdf_file_paths st)
  /\ pdf_file_basenames st'
     = filter (fun name => name ∉ to_remove) (pdf_file_basenames st)
  /\ (forall name,
        skill_progress st' !! name
        = if bool_decide (name ∈ to_remove /\ name ∈ pdf_file_basenames st)
          then None else skill_progress st !! name).
Proof.
  intros (Hnames & Hnd & Hprog) Hrun st st'.
  set (l := (fun p => (basename p, p)) <$> pdf_file_paths st).
  assert (Hl1 : l.*1 = pdf_file_basenames st).
  { subst l. fold st in Hnames. rewrite Hnames, <- list_fmap_compose.
    by apply list_fmap_ext. }
  assert (Hl2 : l.*2 = pdf_file_paths st).
  { subst l. rewrite <- list_fmap_compose.
    rewrite <- (list_fmap_id (pdf_file_paths st)) at 2.
    by apply list_fmap_ext. }
  destruct (remove_pdfs_fold to_remove l [] [] st false eq_refl)
    as (Hn1 & Hp1 & Hprog1 & Hch1); [by rewrite Hl1|by rewrite Hl2|].
  simpl in Hn1, Hp1, Hprog1, Hch1. rewrite Hl1 in *.
  assert (Hkept2 :
    (filter (fun e : string * string => contains to_remove e.1 = false) l).*2
    = filter (fun p => basename p ∉ to_remove) (pdf_file_paths st)).
  { subst l. clear. induction (pdf_file_paths st) as [|p ps IH]; [done|].
    cbn [fmap list_fmap]. rewrite !filter_cons. cbn [fst].
    destruct (contains to_remove (basename p)) eqn:HR.
    - apply contains_elem_of in HR.
      rewrite decide_False by done. rewrite decide_False by tauto. exact IH.
    - apply contains_not_elem_of in HR.
      rewrite decide_True by done. rewrite decide_True by done.
      cbn [fmap list_fmap snd]. by rewrite IH. }
  assert (Hkept1 :
    (filter (fun e : string * string => contains to_remove e.1 = false) l).*1
    = filter (fun name => name ∉ to_remove) (pdf_file_basenames st)).
  { rewrite <- Hl1. clear. induction l as [|[n p] l IH]; [done|].
    cbn [fmap list_fmap]. rewrite !filter_cons. cbn [fst].
    destruct (contains to_remove n) eqn:HR.
    - apply contains_elem_of in HR.
      rewrite decide_False by done. rewrite decide_False by tauto. exact IH.
    - apply contains_not_elem_of in HR.
      rewrite decide_True by done. rewrite decide_True by done.
      cbn [fmap list_fmap fst]. by rewrite IH. }
  rewrite Hkept1 in Hn1. rewrite Hkept2 in Hp1.
  assert (Hstate :
    pdf_file_paths st' = pdf_file_paths
      (foldl remove_pdf (st, false)
         (rev (indices_to_remove 0 (pdf_file_basenames st) to_remove))).1
    /\ pdf_file_basenames st' = pdf_file_basenames
      (foldl remove_pdf (st, false)
         (rev (indices_to_remove 0 (pdf_file_basenames st) to_remove))).1
    /\ skill_progress st' = skill_progress
      (foldl remove_pdf (st, false)
         (rev (indices_to_remove 0 (pdf_file_basenames st) to_remove))).1).
  { subst st'. unfold remove_pdfs_by_name. rewrite Hrun. fold st.
    destruct (indices_to_remove 0 (pdf_file_basenames st) to_remove)
      as [|i idxs] eqn:Hidx; [done|].
    destruct (foldl remove_pdf (st, false) (rev (i :: idxs))) as [st1 ch1].
    simpl in Hch1. subst ch1. done. }
  destruct Hstate as (Ep & En & Es).
  rewrite <- Ep in Hp1. rewrite <- En in Hn1.
  split; [exact Hp1|]. split; [exact Hn1|].
  intros name. rewrite Es, Hprog1.
  destruct (contains to_remove name) eqn:HR,
    (contains (pdf_file_basenames st) name) eqn:HN; simpl.
  - apply contains_elem_of in HR, HN. by rewrite bool_decide_eq_true_2.
  - apply contains_not_elem_of in HN.
    by rewrite bool_decide_eq_false_2 by tauto.
  - apply contains_not_elem_of in HR.
    by rewrite bool_decide_eq_false_2 by tauto.
  - apply contains_not_elem_of in HR.
    by rewrite bool_decide_eq_false_2 by tauto.
Qed.

(** X9: [remove_pdfs_by_name] on lists in step removes exactly the documents
    whose name is given, wherever they stand: the paths and the names that
    stay are those of the other documents, in their order, still in step; the
    entries of the removed documents are deleted and no other entry
    changes. *)
Theorem remove_pdfs_by_name_spec basename to_remove s :
  documents_ok basename (study_app s) ->
  thread_running s = false ->
  let st := study_app s in
  let st' := study_app (remove_pdfs_by_name to_remove s) in
  pdf_file_paths st'
  = filter (fun p => basename p ∉ to_remove) (pdf_file_paths st)
  /\ pdf_file_basenames st'
     = filter (fun name => name ∉ to_remove) (pdf_file_basenames st)
  /\ (forall name,
        skill_progress st' !! name
        = if bool_decide (name ∈ to_remove /\ name ∈ pdf_file_basenames st)
          then None else skill_progress st !! name)
  /\ documents_ok basename st'.
Proof.
  intros Hok Hrun st st'.
  destruct (remove_pdfs_by_name_lists basename to_remove s Hok Hrun)
    as (Hp1 & Hn1 & Hprog').
  fold st st' in Hp1, Hn1, Hprog'.
  destruct Hok as (Hnames & Hnd & Hprog). fold st in Hnames, Hnd, Hprog.
  split; [exact Hp1|]. split; [exact Hn1|].
  split; [exact Hprog'|].
  split; [|split].
  - rewrite Hn1, Hp1, Hnames.
    clear. induction (pdf_file_paths st) as [|p ps IH]; [done|].
    cbn [fmap list_fmap]. rewrite !filter_cons.
    destruct (decide (basename p ∉ to_remove)); [|done].
    cbn [fmap list_fmap]. by rewrite IH.
  - rewrite Hn1. by apply NoDup_filter.
  - intros name. rewrite Hn1, Hprog'.
    intros (Hnot & Hin)%list_elem_of_filter.
    rewrite bool_decide_eq_false_2 by tauto. by apply Hprog.
Qed.

Lemma remove_pdfs_by_name_spec_example :
  let st' := study_app (remove_pdfs_by_name ["b.pdf"; "x.pdf"]
                          sample_library) in
  pdf_file_paths st' = ["/docs/a.pdf"; "/docs/c.pdf"]
  /\ pdf_file_basenames st' = ["a.pdf"; "c.pdf"]
  /\ skill_progress st' !! "b.pdf" = None
  /\ documents_ok sample_basename st'.
Proof.
  destruct (remove_pdfs_by_name_spec sample_basename ["b.pdf"; "x.pdf"]
              sample_library sample_library_ok eq_refl)
    as (_ & _ & _ & Hok).
  split; [vm_compute; reflexivity|]. split; [vm_compute; reflexivity|].
  split; [vm_compute; reflexivity|]. exact Hok.
Defined.

(** ** Documents and what was uploaded *)

(** X10: the quiz is on only while something is uploaded, and every
    operation on the documents and on the uploads keeps it so: adding,
    removing and clearing documents, the end of an upload, an upload error
    and the clearing of the references. *)
Theorem upload_consistent_kept basename s :
  upload_consistent s ->
  (forall files, upload_consistent (add_pdfs basename files s))
  /\ (forall names, upload_consistent (remove_pdfs_by_name names s))
  /\ upload_consistent (clear_pdfs s)
  /\ (forall files, upload_consistent (_handle_upload_finished files s))
  /\ (forall message, upload_consistent (_handle_upload_error message s))
  /\ upload_consistent (_clear_uploaded_references s).
Proof.
  intros Hs. unfold upload_consistent in *.
  split; [|split; [|split; [|split; [|split]]]].
  - intros files. unfold add_pdfs.
    destruct (thread_running s); [done|].
    destruct (foldl _ _ _) as [st [|]]; simpl; done.
  - intros names. unfold remove_pdfs_by_name.
    destruct (thread_running s); [done|].
    destruct (indices_to_remove _ _ _) as [|i idxs]; [done|].
    destruct (foldl _ _ _) as [st [|]]; simpl; [|done].
    by rewrite bool_decide_eq_true_2.
  - unfold clear_pdfs. destruct (thread_running s); [done|].
    by destruct (pdf_file_paths (study_app s)).
  - intros files. unfold _handle_upload_finished.
    destruct (worker_is_running_upload s); simpl; [|done].
    intros H%negb_true_iff%bool_decide_eq_false. exact H.
  - done.
  - done.
Qed.


Lemma upload_consistent_kept_example :
  upload_consistent
    (add_pdfs sample_basename ["/docs/d.pdf"] sample_session)
  /\ upload_consistent (remove_pdfs_by_name ["a.pdf"] sample_session)
  /\ upload_consistent
       (_handle_upload_finished [mkFile None "files/x"] sample_session).
Proof.
  assert (Hs : upload_consistent sample_session).
  { intros _ H. apply (f_equal (fun m => m !! "b.pdf")) in H.
    vm_compute in H. discriminate H. }
  destruct (upload_consistent_kept sample_basename sample_session Hs)
    as (Ha & Hr & _ & Hf & _).
  split; [apply Ha|]. split; [apply Hr|apply Hf].
Defined.

(** X11: on lists in step, [remove_pdfs_by_name] leaves the session as it
    is when no listed document has one of the names (or a thread is
    running); when it removes a document, what was uploaded is forgotten,
    the quiz is off, and the total score is the sum over the skills that
    are left. *)
Theorem remove_pdfs_by_name_resets basename to_remove s :
  documents_ok basename (study_app s) ->
  let s' := remove_pdfs_by_name to_remove s in
  (thread_running s = true
   \/ Forall (fun name => name ∉ to_remove)
        (pdf_file_basenames (study_app s)) ->
   s' = s)
  /\ (thread_running s = false ->
      Exists (fun name => name ∈ to_remove)
        (pdf_file_basenames (study_app s)) ->
      uploaded_file_references s' = ∅ /\ quiz_active s' = false
      /\ total_score (study_app s')
         = skill_total (skill_progress (study_app s'))).
Proof.
  intros (Hnames & Hnd & Hprog). unfold remove_pdfs_by_name.
  set (st := study_app s) in *.
  set (l := (fun p => (basename p, p)) <$> pdf_file_paths st).
  assert (Hl1 : l.*1 = pdf_file_basenames st).
  { subst l. rewrite Hnames, <- list_fmap_compose. by apply list_fmap_ext. }
  assert (Hl2 : l.*2 = pdf_file_paths st).
  { subst l. rewrite <- list_fmap_compose.
    rewrite <- (list_fmap_id (pdf_file_paths st)) at 2.
    by apply list_fmap_ext. }
  destruct (remove_pdfs_fold to_remove l [] [] st false eq_refl)
    as (_ & _ & _ & Hch); [by rewrite Hl1|by rewrite Hl2|].
  simpl in Hch. rewrite Hl1 in Hch.
  split.
  - intros [->|Hall]; [done|]. destruct (thread_running s); [done|].
    assert (Hidx : indices_to_remove 0 (pdf_file_basenames st) to_remove = []).
    { apply indices_to_remove_nil.
      eapply Forall_impl; [exact Hall|]. intros name.
      apply contains_not_elem_of. }
    by rewrite Hidx.
  - intros -> Hex.
    destruct (indices_to_remove 0 (pdf_file_basenames st) to_remove)
      as [|i idxs] eqn:Hidx.
    { apply indices_to_remove_nil in Hidx. apply Exists_exists in Hex
        as (name & Hin & HR).
      rewrite Forall_forall in Hidx. specialize (Hidx name Hin).
      apply contains_not_elem_of in Hidx. done. }
    destruct (foldl remove_pdf (st, false) (rev (i :: idxs))) as [st1 ch1].
    simpl in Hch. subst ch1. simpl. by rewrite bool_decide_eq_true_2.
Qed.

Lemma remove_pdfs_by_name_resets_example :
  let s' := remove_pdfs_by_name ["a.pdf"] sample_library in
  uploaded_file_references s' = ∅ /\ quiz_active s' = false
  /\ total_score (study_app s')
     = skill_total (skill_progress (study_app s')).
Proof.
  apply (remove_pdfs_by_name_resets sample_basename ["a.pdf"] sample_library
           sample_library_ok); [reflexivity|].
  apply Exists_cons_hd. apply contains_elem_of. vm_compute. reflexivity.
Defined.


(** X12: on lists in step, adding a document that is not listed and
    removing it again by its name gives back the lists of paths and names as
    they were; the entry of that name is gone, also when it was there before
    the document was added, and no other entry has changed. *)
Theorem add_then_remove basename file_path s :
  documents_ok basename (study_app s) ->
  thread_running s = false ->
  file_path ∉ pdf_file_paths (study_app s) ->
  basename file_path ∉ pdf_file_basenames (study_app s) ->
  let s' := remove_pdfs_by_name [basename file_path]
              (add_pdfs basename [file_path] s) in
  pdf_file_paths (study_app s') = pdf_file_paths (study_app s)
  /\ pdf_file_basenames (study_app s') = pdf_file_basenames (study_app s)
  /\ skill_progress (study_app s') !! basename file_path = None
  /\ (forall name,
        name <> basename file_path ->
        skill_progress (study_app s') !! name
        = skill_progress (study_app s) !! name).
Proof.
  intros Hok Hrun Hpath Hname s'. subst s'.
  set (s1 := add_pdfs basename [file_path] s).
  assert (Hrun1 : thread_running s1 = false).
  { subst s1. unfold add_pdfs. rewrite Hrun.
    destruct (foldl _ _ _) as [st [|]]; done. }
  assert (Hadd : pdf_file_paths (study_app s1)
                 = pdf_file_paths (study_app s) ++ [file_path]
                 /\ pdf_file_basenames (study_app s1)
                    = pdf_file_basenames (study_app s) ++ [basename file_path]
                 /\ forall name,
                      name <> basename file_path ->
                      skill_progress (study_app s1) !! name
                      = skill_progress (study_app s) !! name).
  { subst s1. unfold add_pdfs. rewrite Hrun. cbn [foldl]. unfold add_pdf.
    rewrite (proj2 (contains_not_elem_of _ _) Hpath).
    rewrite (proj2 (contains_not_elem_of _ _) Hname). simpl.
    destruct (skill_progress (study_app s) !! basename file_path); simpl;
      (split; [done|]); (split; [done|]); [done|].
    intros name Hne. by rewrite lookup_insert_ne. }
  destruct Hadd as (Hp1 & Hn1 & Hprog1).
  assert (Hok1 : documents_ok basename (study_app s1)).
  { subst s1. unfold add_pdfs. rewrite Hrun.
    destruct (add_pdfs_fold basename [file_path] (study_app s) false Hok)
      as (Hok' & _).
    destruct (foldl _ _ _) as [st [|]]; exact Hok'. }
  destruct (remove_pdfs_by_name_lists basename [basename file_path] s1
              Hok1 Hrun1) as (Hp2 & Hn2 & Hprog2).
  destruct Hok as (Hnames & Hnd & _).
  assert (Hfilter : forall names : list string,
             basename file_path ∉ names ->
             filter (fun name => name ∉ [basename file_path]) names = names).
  { intros names Hnot. induction names as [|n names IH]; [done|].
    apply not_elem_of_cons in Hnot as (Hne & Hnot).
    rewrite filter_cons, decide_True; [by rewrite IH|].
    by intros ->%list_elem_of_singleton. }
  split; [|split; [|split]].
  - rewrite Hp2, Hp1, filter_app, filter_cons, filter_nil.
    rewrite decide_False by (intros H; apply H; by apply list_elem_of_singleton).
    rewrite app_nil_r.
    rewrite Hnames in Hname. clear -Hname.
    induction (pdf_file_paths (study_app s)) as [|p ps IH]; [done|].
    cbn [fmap list_fmap] in Hname.
    apply not_elem_of_cons in Hname as (Hne & Hnot).
    rewrite filter_cons, decide_True; [by rewrite IH|].
    intros Heq%list_elem_of_singleton. congruence.
  - rewrite Hn2, Hn1, filter_app, filter_cons, filter_nil.
    rewrite decide_False by (intros H; apply H; by apply list_elem_of_singleton).
    rewrite app_nil_r. by apply Hfilter.
  - rewrite Hprog2, bool_decide_eq_true_2; [done|].
    split; [by apply list_elem_of_singleton|].
    rewrite Hn1. apply elem_of_app. right. by apply list_elem_of_singleton.
  - intros name Hne. rewrite Hprog2, bool_decide_eq_false_2.
    + by apply Hprog1.
    + intros (Hin%list_elem_of_singleton & _). done.
Qed.

Lemma add_then_remove_example :
  let s' := remove_pdfs_by_name ["d.pdf"]
              (add_pdfs sample_basename ["/docs/d.pdf"] sample_library) in
  pdf_file_paths (study_app s') = pdf_file_paths (study_app sample_library)
  /\ pdf_file_basenames (study_app s')
     = pdf_file_basenames (study_app sample_library)
  /\ skill_progress (study_app s') !! "d.pdf" = None.
Proof.
  destruct (add_then_remove sample_basename "/docs/d.pdf" sample_library
              sample_library_ok eq_refl) as (Hp & Hn & Hd & _).
  - apply contains_not_elem_of. vm_compute. reflexivity.
  - apply contains_not_elem_of. vm_compute. reflexivity.
  - split; [exact Hp|]. split; [exact Hn|exact Hd].
Defined.

(** ** The worker and its slots *)

(** A result other than that of [submit_answer] leaves the progress. *)
Lemma handle_ai_result_frame task text st :
  task <> "submit_answer" ->
  let st' := _handle_ai_result task text st in
  skill_progress st' = skill_progress st
  /\ total_score st' = total_score st
  /\ config_progress st' = config_progress st.
Proof.
  intros Htask. unfold _handle_ai_result.
  destruct (worker_is_running st); simpl; [|done].
  destruct (String.eqb task "next_question").
  { by destruct (if negb _ then _ else _). }
  destruct (String.eqb task "get_guidance").
  { match goal with |- context [display_feedback ?t ?f st] =>
      destruct (display_feedback_frame t f st) as (_ & _ & Hs & Ht & Hc & _)
    end.
    simpl. by rewrite Hs, Ht, Hc. }
  destruct (String.eqb_spec task "submit_answer"); [done|].
  by destruct (current_question_truthy _).
Qed.

(** An error leaves the progress. *)
Lemma handle_ai_error_frame task message st :
  let st' := _handle_ai_error task message st in
  skill_progress st' = skill_progress st
  /\ total_score st' = total_score st
  /\ config_progress st' = config_progress st.
Proof.
  unfold _handle_ai_error.
  destruct (worker_is_AIWorker st); simpl; [|done].
  match goal with |- context [display_feedback ?t ?f st] =>
    destruct (display_feedback_frame t f st) as (_ & _ & Hs & Ht & Hc & _) end.
  repeat case_match; simpl; rewrite ?Hs, ?Ht, ?Hc; done.
Qed.

(** What [run] emits: nothing, an error, or the stripped text of the
    response. *)
Lemma AIWorker_run_cases model task running call :
  AIWorker_run model task running call = None
  \/ (exists message,
        AIWorker_run model task running call
        = Some (error_occurred task message))
  \/ (exists response text,
        AIWorker_run model task running call
        = Some (result_ready task (strip_string text))
        /\ model = true /\ running = never_stopped
        /\ call = Returns response /\ response_text response = inl text).
Proof.
  unfold AIWorker_run.
  destruct running as [r1 r2 r3 r4], model, r1; cbn [negb orb at_start];
    try by (right; left; eexists).
  destruct r2; cbn [negb before_call]; [|by (right; left; eexists)].
  destruct call as [response|message|message]; cbn [at_emit after_call].
  - destruct r3; cbn [negb]; [|by (right; left; eexists)].
    destruct (response_text response) as [text|message] eqn:Htext;
      destruct r4; try by left.
    + right. right. by exists response, text.
    + right. left. by eexists.
  - destruct r4; [right; left; by eexists|by left].
  - destruct r4; [right; left; by eexists|by left].
Qed.

(** X13: whatever the call of the model does and whenever the worker is
    stopped, the run of an [AIWorker] followed by the slot its signal reaches
    changes the progress, the total score or the saved section only when the
    task is [submit_answer], the model is set, the worker was running at
    every test of its flag, and the call returned a response that holds a
    text; the application is then as after the slot for that text,
    stripped. *)
Theorem worker_run_progress model task running call st :
  let st' := deliver_emitted (AIWorker_run model task running call) st in
  skill_progress st' <> skill_progress st
  \/ total_score st' <> total_score st
  \/ config_progress st' <> config_progress st ->
  task = "submit_answer" /\ model = true /\ running = never_stopped
  /\ exists response text,
       call = Returns response /\ response_text response = inl text
       /\ st' = submit (strip_string text) st.
Proof.
  intros st' Hchanged. subst st'.
  destruct (AIWorker_run_cases model task running call)
    as [Hrun|[(message & Hrun)|(response & text & Hrun & Hm & Hr & Hc & Ht)]];
    rewrite Hrun in *; cbn [deliver_emitted deliver] in *.
  - tauto.
  - destruct (handle_ai_error_frame task message st) as (Hs & Ht & Hc).
    cbn zeta in Hs, Ht, Hc. tauto.
  - destruct (String.eqb_spec task "submit_answer") as [->|Hne].
    + split; [done|]. split; [done|]. split; [done|].
      by exists response, text.
    + destruct (handle_ai_result_frame task (strip_string text) st Hne)
        as (Hs & Ht' & Hc').
      cbn zeta in Hs, Ht', Hc'. tauto.
Qed.

Lemma worker_run_progress_example :
  let st' :=
    deliver_emitted
      (AIWorker_run true "submit_answer" never_stopped
         (Returns (sample_response " Status: Correct. Reference: [0]:3 ")))
      sample_app in
  st' = submit "Status: Correct. Reference: [0]:3" sample_app
  /\ total_score st' = 12.
Proof.
  split; [|vm_compute; reflexivity].
  destruct (worker_run_progress true "submit_answer" never_stopped
              (Returns (sample_response " Status: Correct. Reference: [0]:3 "))
              sample_app)
    as (_ & _ & _ & response & text & Hcall & Htext & Hst).
  - right. left. vm_compute. discriminate.
  - injection Hcall as <-. vm_compute in Htext. injection Htext as <-.
    exact Hst.
Defined.

Lemma drop_while_snoc p w h :
  p h = false -> drop_while p (w ++ [h]) = drop_while p w ++ [h].
Proof.
  intros Hh. induction w as [|c w IH]; simpl; [by rewrite Hh|].
  by destruct (p c).
Qed.

(** What [strip] returns has white space at neither end. *)
Lemma strip_ends s :
  next_not Py.isspace (PyStr.strip s)
  /\ next_not Py.isspace (rev (PyStr.strip s)).
Proof.
  unfold PyStr.strip, PyStr.rstrip, PyStr.lstrip.
  pose proof (drop_while_next Py.isspace s) as Hu.
  destruct (drop_while Py.isspace s) as [|h u]; [done|].
  cbn [next_not] in Hu. cbn [rev].
  rewrite drop_while_snoc by done. rewrite rev_app_distr. cbn [rev app].
  split; [done|].
  cbn [rev]. rewrite rev_involutive.
  pose proof (drop_while_next Py.isspace (rev u)) as Hn.
  by destruct (drop_while Py.isspace (rev u)).
Qed.

(** X14: [run] reports a result only for its own task, with the model set,
    the worker running at every test of its flag and a call that returned a
    response holding a text; the text it reports is that text stripped, with
    white space at neither end. *)
Theorem result_only_from_running_worker model task running call t text :
  AIWorker_run model task running call = Some (result_ready t text) ->
  t = task /\ model = true /\ running = never_stopped
  /\ (exists response raw,
        call = Returns response /\ response_text response = inl raw
        /\ text = strip_string raw)
  /\ next_not Py.isspace (list_ascii_of_string text)
  /\ next_not Py.isspace (rev (list_ascii_of_string text)).
Proof.
  intros Hrun.
  destruct (AIWorker_run_cases model task running call)
    as [Hn|[(message & He)|(response & raw & Hr & Hm & Hrn & Hc & Ht)]];
    rewrite Hrun in *; try done.
  injection Hr as -> ->.
  split; [done|]. split; [done|]. split; [done|].
  split; [by exists response, raw|].
  unfold strip_string. rewrite list_ascii_of_string_of_list_ascii.
  apply strip_ends.
Qed.

Lemma result_only_from_running_worker_example :
  AIWorker_run true "get_guidance" never_stopped
    (Returns (sample_response "  Think of bind. ")) 
  = Some (result_ready "get_guidance" "Think of bind.")
  /\ next_not Py.isspace (list_ascii_of_string "Think of bind.").
Proof.
  split; [vm_compute; reflexivity|].
  apply (result_only_from_running_worker true "get_guidance" never_stopped
           (Returns (sample_response "  Think of bind. ")) "get_guidance"
           "Think of bind.").
  vm_compute. reflexivity.
Defined.

(** ** Viewing the reference *)

Lemma getitem_in_range {A} (l : list A) i :
  0 <= i < Z.of_nat (List.length l) -> Py.getitem l i = l !! Z.to_nat i.
Proof.
  intros Hi. unfold Py.getitem.
  rewrite (proj2 (Z.leb_le _ _)) by lia.
  by rewrite (proj2 (Z.ltb_lt _ _)) by lia.
Qed.

(** X15: with as many names as paths, [view_reference] right after
    [display_feedback] never complains about the document index and never
    runs out of the list of names.  It reports that there is no reference
    exactly when the button is disabled; otherwise it turns to the page the
    text gave and to the file and the name at one position of the lists:
    the position the text gave in combined review, the position of the
    skill being quizzed otherwise. *)
Theorem view_reference_after_feedback path_exists st text ft :
  List.length (pdf_file_basenames st) = List.length (pdf_file_paths st) ->
  let st' := display_feedback text ft st in
  match view_reference path_exists st' with
  | NoReference => view_reference_button (quiz_widget st') = false
  | InvalidDocumentIndex _ => False
  | NamesIndexError => False
  | FileNotFound name file_path =>
      view_reference_button (quiz_widget st') = true
      /\ path_exists file_path = false
      /\ exists page_num, refers_to st text name file_path page_num
  | Opening name file_path page_num =>
      view_reference_button (quiz_widget st') = true
      /\ path_exists file_path = true
      /\ refers_to st text name file_path page_num
  end.
Proof.
  intros Hlen st'.
  pose proof (display_feedback_reference text ft st) as H.
  destruct (display_feedback_frame text ft st)
    as (_ & _ & _ & _ & _ & Hp & Hn).
  cbn zeta in H, Hp, Hn. fold st' in H, Hp, Hn.
  unfold view_reference. rewrite Hp, Hn.
  destruct (parse_reference text) as [[ai pg]|] eqn:Hparse;
    [|destruct H as (-> & ->); done].
  destruct ((0 <=? actual_doc_index ai st)
            && (actual_doc_index ai st
                <? Z.of_nat (List.length (pdf_file_paths st)))) eqn:Hrange;
    [|destruct H as (-> & ->); done].
  destruct H as (-> & Hb). cbn [doc_index page]. rewrite Hrange. cbn [negb].
  apply andb_true_iff in Hrange as (Hlo%Z.leb_le & Hhi%Z.ltb_lt).
  rewrite !getitem_in_range by lia.
  destruct (lookup_lt_is_Some_2 (pdf_file_paths st)
              (Z.to_nat (actual_doc_index ai st)) ltac:(lia))
    as (file_path & Hfile).
  destruct (lookup_lt_is_Some_2 (pdf_file_basenames st)
              (Z.to_nat (actual_doc_index ai st)) ltac:(lia))
    as (name & Hname).
  rewrite Hfile, Hname.
  assert (Hrefers : refers_to st text name file_path pg).
  { exists (Z.to_nat (actual_doc_index ai st)), ai.
    split; [done|]. split; [done|]. split; [done|].
    unfold actual_doc_index in *.
    destruct (is_all_materials_mode st); [lia|].
    destruct (current_skill_name st) as [n|]; [|lia].
    destruct (Py.index (pdf_file_basenames st) n) as [i|] eqn:Hi; [|lia].
    apply index_Some in Hi as (Hi & _).
    rewrite Nat2Z.id in Hname. congruence. }
  destruct (path_exists file_path) eqn:Hex; cbn [negb]; eauto.
Qed.

Lemma view_reference_after_feedback_example :
  view_reference (fun _ => true)
    (display_feedback "Status: Correct. Reference: [0]:3" "correct"
       sample_app)
  = Opening "b.pdf" "/docs/b.pdf" 3
  /\ refers_to sample_app "Status: Correct. Reference: [0]:3"
       "b.pdf" "/docs/b.pdf" 3.
Proof.
  assert (Hv : view_reference (fun _ => true)
                 (display_feedback "Status: Correct. Reference: [0]:3"
                    "correct" sample_app)
               = Opening "b.pdf" "/docs/b.pdf" 3)
    by (vm_compute; reflexivity).
  split; [exact Hv|].
  pose proof (view_reference_after_feedback (fun _ => true) sample_app
                "Status: Correct. Reference: [0]:3" "correct" eq_refl) as H.
  cbn zeta in H. rewrite Hv in H. apply H.
Defined.

(** ** The buttons of the quiz *)

Lemma set_buttons_state_ok state q : buttons_ok (set_buttons_state state q).
Proof.
  unfold buttons_ok, set_buttons_state. cbn.
  split; [|done].
  destruct (String.eqb_spec state "question") as [->|]; [done|].
  by destruct (String.eqb state "processing").
Qed.

Lemma display_feedback_buttons text ft st :
  buttons_ok (quiz_widget st) ->
  buttons_ok (quiz_widget (display_feedback text ft st)).
Proof.
  unfold display_feedback, buttons_ok. cbn.
  destruct (parse_reference text) as [[ai pg]|]; [|done].
  by case_match.
Qed.

Lemma write_ref_widget r d st : quiz_widget (write_ref r d st) = quiz_widget st.
Proof. by destruct r. Qed.

Lemma update_current_skill_data_widget d st :
  quiz_widget (_update_current_skill_data d st) = quiz_widget st.
Proof. unfold _update_current_skill_data. by destruct (individual_skill st). Qed.

Lemma update_skill_data_widget pts b st :
  quiz_widget (update_skill_data pts b st).1 = quiz_widget st.
Proof.
  unfold update_skill_data.
  destruct (_get_current_skill_data st) as [r d].
  destruct (difficulty_step _ _) as [d' ok].
  destruct ok; cbn [negb fst]; [|apply write_ref_widget].
  case_match; cbn [fst]; rewrite update_current_skill_data_widget;
    cbn; apply write_ref_widget.
Qed.

Lemma grade_answer_widget fl st :
  quiz_widget (graded_app (grade_answer fl st)) = quiz_widget st.
Proof.
  unfold grade_answer.
  destruct (grade_outcome fl); try done.
  destruct (is_all_materials_mode st); [done|]. cbn [negb].
  destruct (_get_current_skill_data st) as [r d]. apply write_ref_widget.
Qed.

(** X16: after [set_buttons_state], whatever the state it is given, an
    answer cannot be submitted while the next question can be asked for, and
    a hint can be asked for exactly when an answer can be submitted; the
    slots of the worker's signals keep it so, also when they return early or
    stop at an [IndexError]. *)
Theorem buttons_ok_kept sig st :
  buttons_ok (quiz_widget st) -> buttons_ok (quiz_widget (deliver sig st)).
Proof.
  intros Hok. destruct sig as [task text|task message]; cbn [deliver].
  - unfold _handle_ai_result.
    destruct (worker_is_running st); cbn [negb]; [|done].
    destruct (String.eqb task "next_question").
    { destruct (if negb _ then _ else _); [apply set_buttons_state_ok|done]. }
    destruct (String.eqb task "get_guidance"); [apply set_buttons_state_ok|].
    destruct (String.eqb task "submit_answer").
    + cbn zeta.
      set (g := grade_answer _ _).
      assert (Hg : quiz_widget (graded_app g) = quiz_widget st)
        by (subst g; by rewrite grade_answer_widget).
      destruct (is_all_materials_mode _); cbn [negb].
      * apply set_buttons_state_ok.
      * pose proof (update_skill_data_widget (points_earned g)
                      (streak_broken g) (graded_app g)) as Hu.
        destruct (update_skill_data _ _ _) as [st1 ok]. cbn [fst] in Hu.
        destruct ok; cbn [negb]; [apply set_buttons_state_ok|].
        by rewrite Hu, Hg.
    + destruct (current_question_truthy _); apply set_buttons_state_ok.
  - unfold _handle_ai_error.
    destruct (worker_is_AIWorker st); cbn [negb]; [|done].
    repeat case_match; try apply set_buttons_state_ok.
    by apply display_feedback_buttons.
Qed.

Lemma buttons_ok_kept_example :
  buttons_ok (quiz_widget sample_app)
  /\ buttons_ok
       (quiz_widget
          (deliver (result_ready "submit_answer" "Status: Correct.")
             sample_app)).
Proof.
  assert (H : buttons_ok (quiz_widget sample_app)) by (split; reflexivity).
  split; [exact H|]. by apply buttons_ok_kept.
Defined.

(** ** The level in the header *)

Lemma foldl_max_spec ls : forall l,
  l <= foldl Z.max l ls
  /\ Forall (fun x => x <= foldl Z.max l ls) ls
  /\ foldl Z.max l ls ∈ l :: ls.
Proof.
  induction ls as [|x ls IH]; intros l; cbn [foldl].
  { split; [lia|]. split; [constructor|]. apply elem_of_cons. by left. }
  destruct (IH (Z.max l x)) as (Hle & Hall & Hin).
  split; [lia|]. split; [constructor; [lia|done]|].
  apply elem_of_cons in Hin as [Heq|Hin].
  - rewrite Heq. destruct (Z.max_spec l x) as [(_ & ->)|(_ & ->)].
    + apply elem_of_cons. right. apply elem_of_cons. by left.
    + apply elem_of_cons. by left.
  - apply elem_of_cons. right. apply elem_of_cons. by right.
Qed.

(** The level of the header is the highest level of an entry. *)
Lemma header_level_spec st :
  (forall name d,
      skill_progress st !! name = Some d -> level d <= header_level st)
  /\ ((skill_progress st = ∅ /\ header_level st = 1)
      \/ exists name d,
           skill_progress st !! name = Some d /\ level d = header_level st).
Proof.
  unfold header_level.
  destruct ((fun entry : string * SkillData => level entry.2)
            <$> map_to_list (skill_progress st)) as [|l ls] eqn:HL.
  - apply fmap_nil_inv in HL. apply map_to_list_empty_iff in HL.
    rewrite HL. split; [|by left]. intros name d. by rewrite lookup_empty.
  - destruct (foldl_max_spec ls l) as (Hle & Hall & Hin).
    split.
    + intros name d Hd. apply elem_of_map_to_list in Hd.
      apply (list_elem_of_fmap_2
               (fun entry : string * SkillData => level entry.2)) in Hd.
      rewrite HL in Hd. cbn [snd] in Hd.
      apply elem_of_cons in Hd as [->|Hd]; [done|].
      rewrite Forall_forall in Hall. by apply Hall.
    + right. rewrite <- HL in Hin.
      apply list_elem_of_fmap in Hin as ([name d] & Heq & Hin).
      apply elem_of_map_to_list in Hin. by exists name, d.
Qed.

Lemma apply_grade_level_mono o d : level d <= level (apply_grade o d).
Proof.
  unfold apply_grade.
  set (d1 := entry_after_status o d).
  assert (H1 : level d1 = level d) by (subst d1; by destruct o).
  set (pts := points_for o d). set (b := breaks_streak o).
  pose proof (entry_scored_fields pts b d1) as (_ & _ & _ & H2).
  pose proof (difficulty_step_fields pts (entry_scored pts b d1))
    as (_ & _ & H3 & _).
  cbn zeta in H2, H3.
  destruct (update_entry_cases pts b d1) as [-> | ->].
  - lia.
  - rewrite (proj2 (proj2 (proj2 (proj2 (entry_levelled_fields _))))). lia.
Qed.

(** X17: the level the header shows is the highest level of an entry; a
    graded answer never lowers it, and afterwards it is at least the level of
    the skill that was graded. *)
Theorem header_level_after_grade st name d text :
  quizzing st name d ->
  header_level st <= header_level (submit text st)
  /\ level (apply_grade (status_of text) d) <= header_level (submit text st).
Proof.
  intros Hq. destruct (submit_progress st name d text Hq) as (Hprog & _).
  destruct (header_level_spec (submit text st)) as (Hmax' & _).
  assert (Hnew : level (apply_grade (status_of text) d)
                 <= header_level (submit text st)).
  { apply (Hmax' name). rewrite Hprog. apply lookup_insert_eq. }
  split; [|exact Hnew].
  destruct (header_level_spec st) as (_ & [(Hempty & _)|(n0 & d0 & Hd0 & <-)]).
  { destruct Hq as (_ & _ & _ & _ & Hd). rewrite Hempty in Hd.
    by rewrite lookup_empty in Hd. }
  destruct (decide (n0 = name)) as [->|Hne].
  - destruct Hq as (_ & _ & _ & _ & Hd). rewrite Hd in Hd0.
    injection Hd0 as <-.
    pose proof (apply_grade_level_mono (status_of text) d). lia.
  - apply (Hmax' n0). rewrite Hprog. by rewrite lookup_insert_ne.
Qed.

Lemma header_level_after_grade_example :
  header_level sample_app <= header_level (submit "Status: Correct." sample_app)
  /\ level (apply_grade (status_of "Status: Correct.") sample_entry)
     <= header_level (submit "Status: Correct." sample_app).
Proof.
  apply (header_level_after_grade sample_app "b.pdf" sample_entry).
  repeat split; done.
Defined.

(** ** The end of an upload *)

Lemma references_by_name_snoc files f :
  references_by_name (files ++ [f])
  = match file_display_name f with
    | Some name => <[name := f]> (references_by_name files)
    | None => references_by_name files
    end.
Proof. unfold references_by_name. by rewrite foldl_app. Qed.

(** The reference kept under a name is the last file of that name. *)
Lemma references_by_name_lookup files name :
  references_by_name files !! name
  = last (filter (fun f => file_display_name f = Some name) files).
Proof.
  induction files as [|f files IH] using rev_ind; [done|].
  rewrite references_by_name_snoc, filter_app, filter_cons, filter_nil.
  destruct (file_display_name f) as [n|] eqn:Hn.
  - destruct (decide (n = name)) as [->|Hne].
    + rewrite lookup_insert_eq, decide_True by done. by rewrite last_snoc.
    + rewrite lookup_insert_ne by done.
      rewrite decide_False by congruence. by rewrite app_nil_r.
  - rewrite decide_False by done. by rewrite app_nil_r.
Qed.

(** X18: when an upload ends with its worker still running, the reference
    kept under a name is the last uploaded file of that display name, files
    without a display name are left out, and the quiz is on exactly when some
    file has a display name; when the worker was stopped, or is not an upload
    worker, nothing is kept and the quiz is off.  The documents and the
    progress are not touched. *)
Theorem upload_finished_references files s :
  let s' := _handle_upload_finished files s in
  study_app s' = study_app s
  /\ if worker_is_running_upload s then
       (forall name,
           uploaded_file_references s' !! name
           = last (filter (fun f => file_display_name f = Some name) files))
       /\ (quiz_active s' = true
           <-> exists f, f ∈ files /\ is_Some (file_display_name f))
     else uploaded_file_references s' = ∅ /\ quiz_active s' = false.
Proof.
  unfold _handle_upload_finished.
  destruct (worker_is_running_upload s); cbn [negb]; [|done].
  cbn. split; [done|]. split; [apply references_by_name_lookup|].
  rewrite negb_true_iff, bool_decide_eq_false. split.
  - intros Hne. apply map_choose in Hne as (name & f & Hf).
    rewrite references_by_name_lookup in Hf. apply last_Some_elem_of in Hf.
    apply list_elem_of_filter in Hf as (Hname & Hin).
    exists f. split; [done|]. by rewrite Hname.
  - intros (f & Hin & (name & Hname)) Hempty.
    assert (Hl : is_Some (references_by_name files !! name)).
    { rewrite references_by_name_lookup.
      destruct (last _) eqn:Hlast; [done|].
      apply last_None in Hlast.
      assert (Hf : f ∈ filter (fun f => file_display_name f = Some name)
                         files)
        by by apply list_elem_of_filter.
      rewrite Hlast in Hf. by apply elem_of_nil in Hf. }
    rewrite Hempty, lookup_empty in Hl. by destruct Hl.
Qed.
